(** * Ledger aggregation and ordering of the offering-management app

    A shallow embedding of the computations of [src/index.tsx]: the
    today-split, the display feed with its running balance, the weekly and
    yearly window totals, the by-person search and the roster deletion,
    followed by the properties of the specification, C1 to C10.  Then the
    rest of the source that computes: the weekday label, the password
    modal and the protected actions, the handlers that add and edit
    members, entries and expense categories, the list by date, the other
    results of the search modal and the pages of the list, with their
    properties, X1 to X23.

    Modelling conventions.
    - JavaScript numbers that hold amounts, ids and time values are integers
      in the app (form inputs of type number with [min=1], [Date.now()]
      ids, millisecond time values); they are modelled as [Z].  The only
      non-finite number the engine can produce is the [NaN] of an
      unparseable date, which the type [Number] keeps.
    - JavaScript strings are modelled as [string] (bytes of the UTF-8
      encoding).  The relational operators [<], [<=], [>=] on strings
      compare code units lexicographically; on the ASCII date strings the
      app stores this is the byte order of [String.compare].
    - Dates follow the Date abstract operations of ECMAScript; the time
      zone of the host is a parameter, the function [LocalTZA(t, isUTC)]
      of ECMAScript, whose offset may change with daylight saving.
    - [String.prototype.localeCompare(_, 'ko')] is the host's collation; it
      is a parameter, and theorems that depend on the order it induces
      assume what ECMAScript asks of it, that it is a consistent comparator.
    - The four results of the [useMemo] callback of lines 270-401 are
      modelled by one function each; [todayStr] is their parameter, in
      place of the clock read by [todayString()].
    - The handlers are functions on the state of the [App] component,
      [AppState]; the id they take from [Date.now()] is their parameter
      [now], and [String.prototype.trim] is a parameter where a theorem
      holds for any trimming. *)

From Stdlib Require Import ZArith List String Ascii Lia Bool.
From Stdlib Require Import Sorting.Permutation Sorting.Sorted.
From stdpp Require Import base option list gmap strings pretty.

Local Open Scope string_scope.
Local Open Scope Z_scope.

(** ** Relational operators on strings *)

Module Str.

(** [a < b] *)
Definition lt (a b : string) : bool := String.ltb a b.
(** [a <= b], which ECMAScript evaluates as [!(b < a)] *)
Definition le (a b : string) : bool := negb (String.ltb b a).
(** [a >= b], which ECMAScript evaluates as [!(a < b)] *)
Definition ge (a b : string) : bool := negb (String.ltb a b).
(** [a === b] *)
Definition eq (a b : string) : bool := String.eqb a b.

End Str.

(** ** The Date abstract operations of ECMAScript (section 21.4.1)

    Only what the app calls: [new Date(s)] on a date-only string,
    [getTime], [getFullYear], [getDate], [getDay], [setDate] and
    [toISOString]. *)

Module Date.

Definition msPerDay : Z := 86400000.

(** [Day(t)] and [TimeWithinDay(t)]; [Z.div] is the floor division. *)
Definition Day (t : Z) : Z := t / msPerDay.
Definition TimeWithinDay (t : Z) : Z := t mod msPerDay.

Definition DaysInYear (y : Z) : Z :=
  if negb (y mod 4 =? 0) then 365
  else if negb (y mod 100 =? 0) then 366
  else if negb (y mod 400 =? 0) then 365
  else 366.

(** The day number of January 1 of year [y]. *)
Definition DayFromYear (y : Z) : Z :=
  365 * (y - 1970) + (y - 1969) / 4 - (y - 1901) / 100 + (y - 1601) / 400.

(** [YearFromTime]: the largest [y] with [DayFromYear y <= d], searched
    downwards from an upper estimate ([DateFacts.YearFromDay_spec] shows
    that the search finds it). *)
Fixpoint yearSearch (fuel : nat) (y d : Z) : Z :=
  match fuel with
  | O => y
  | S fuel' => if DayFromYear y <=? d then y else yearSearch fuel' (y - 1) d
  end.

Definition YearFromDay (d : Z) : Z :=
  yearSearch (Z.to_nat (Z.abs d / 100000 + 3))
             (1970 + (if 0 <=? d then d / 365 else d / 366)) d.

Definition YearFromTime (t : Z) : Z := YearFromDay (Day t).

Definition DayWithinYear (t : Z) : Z := Day t - DayFromYear (YearFromTime t).

(** 1 in a leap year, 0 otherwise. *)
Definition InLeapYear (y : Z) : Z := if DaysInYear y =? 366 then 1 else 0.

(** Day number within the year of the first day of month [m] (0-based). *)
Definition monthStart (leap m : Z) : Z :=
  match m with
  | 0 => 0
  | 1 => 31
  | 2 => 59 + leap
  | 3 => 90 + leap
  | 4 => 120 + leap
  | 5 => 151 + leap
  | 6 => 181 + leap
  | 7 => 212 + leap
  | 8 => 243 + leap
  | 9 => 273 + leap
  | 10 => 304 + leap
  | _ => 334 + leap
  end.

(** The table of [MonthFromTime]. *)
Definition monthOfDayWithinYear (leap d : Z) : Z :=
  if d <? 31 then 0
  else if d <? 59 + leap then 1
  else if d <? 90 + leap then 2
  else if d <? 120 + leap then 3
  else if d <? 151 + leap then 4
  else if d <? 181 + leap then 5
  else if d <? 212 + leap then 6
  else if d <? 243 + leap then 7
  else if d <? 273 + leap then 8
  else if d <? 304 + leap then 9
  else if d <? 334 + leap then 10
  else 11.

Definition MonthFromTime (t : Z) : Z :=
  monthOfDayWithinYear (InLeapYear (YearFromTime t)) (DayWithinYear t).

Definition DateFromTime (t : Z) : Z :=
  DayWithinYear t
  - monthStart (InLeapYear (YearFromTime t)) (MonthFromTime t) + 1.

(** 0 is Sunday; 1 January 1970 was a Thursday. *)
Definition WeekDay (t : Z) : Z := (Day t + 4) mod 7.

(** The day number of the day [date] of month [month] (0-based) of [year];
    a [date] outside the month counts on into the neighbouring months. *)
Definition MakeDay (year month date : Z) : Z :=
  let ym := year + month / 12 in
  let mn := month mod 12 in
  DayFromYear ym + monthStart (InLeapYear ym) mn + date - 1.

Definition MakeDate (day time : Z) : Z := day * msPerDay + time.

(** The length of month [m] (0-based) of year [y]. *)
Definition DaysInMonth (y m : Z) : Z :=
  match m with
  | 1 => 28 + InLeapYear y
  | 3 | 5 | 8 | 10 => 30
  | _ => 31
  end.

(** *** Parsing the date-only form [YYYY-MM-DD]

    Every date string the app stores comes from an [<input type="date">]
    or from [toISOString().slice(0, 10)] and has this form, which
    [Date.parse] reads as midnight UTC.  What [Date.parse] makes of any
    other string, or of a month or day out of range, is left to the
    implementation by ECMAScript; the model returns [None] (an invalid
    date, time value [NaN]) there. *)

(** The value of a decimal digit. *)
Definition digit (c : ascii) : option Z :=
  let n := Z.of_N (N_of_ascii c) in
  if (48 <=? n) && (n <=? 57) then Some (n - 48) else None.

(** The year, month (1-12) and day of a well-formed date-only string. *)
Definition parseFields (s : string) : option (Z * Z * Z) :=
  match s with
  | String y1 (String y2 (String y3 (String y4 (String sep1
    (String m1 (String m2 (String sep2
    (String d1 (String d2 EmptyString))))))))) =>
      if Ascii.eqb sep1 "-" && Ascii.eqb sep2 "-" then
        a ← digit y1; b ← digit y2; c ← digit y3; d ← digit y4;
        e ← digit m1; f ← digit m2; g ← digit d1; h ← digit d2;
        let y := 1000 * a + 100 * b + 10 * c + d in
        let m := 10 * e + f in
        let dd := 10 * g + h in
        if (1 <=? m) && (m <=? 12) && (1 <=? dd) && (dd <=? DaysInMonth y (m - 1))
        then Some (y, m, dd)
        else None
      else None
  | _ => None
  end.

(** [Date.parse(s)], the time value of [new Date(s)] *)
Definition parse (s : string) : option Z :=
  match parseFields s with
  | Some (y, m, d) => Some (MakeDate (MakeDay y (m - 1) d) 0)
  | None => None
  end.

(** *** Local-time accessors and [setDate] *)

Section Local.
(** [LocalTZA(t, isUTC)]: the offset of the host's local time from UTC in
    milliseconds, at the time value [t] when [isUTC], and at the local
    time [t] otherwise.  A local time that the clock skips or repeats is
    read with the offset before the change. *)
Variable LocalTZA : Z -> bool -> Z.

Definition LocalTime (t : Z) : Z := t + LocalTZA t true.
Definition UTC (t : Z) : Z := t - LocalTZA t false.

Definition getFullYear (t : Z) : Z := YearFromTime (LocalTime t).
Definition getDate (t : Z) : Z := DateFromTime (LocalTime t).
Definition getDay (t : Z) : Z := WeekDay (LocalTime t).

(** [d.setDate(date)]: the new time value of [d].  The result stays
    within a month of [t], far inside the range [TimeClip] accepts. *)
Definition setDate (t date : Z) : Z :=
  let lt := LocalTime t in
  UTC (MakeDate (MakeDay (YearFromTime lt) (MonthFromTime lt) date)
                (TimeWithinDay lt)).
End Local.

(** A host whose offset never changes. *)
Definition constantTZA (offset : Z) : Z -> bool -> Z := fun _ _ => offset.

(** *** [toISOString]

    [YYYY-MM-DDTHH:mm:ss.sssZ], each field in decimal digits of fixed
    width; a year outside 0-9999 has a sign and six digits. *)

(** The character of the last decimal digit of [n]. *)
Definition digitChar (n : Z) : ascii := ascii_of_N (Z.to_N (48 + n mod 10)).

Definition digits2 (n : Z) : string :=
  String (digitChar (n / 10)) (String (digitChar n) EmptyString).

Definition digits3 (n : Z) : string := String (digitChar (n / 100)) (digits2 n).

Definition digits4 (n : Z) : string := String (digitChar (n / 1000)) (digits3 n).

Definition digits6 (n : Z) : string :=
  String (digitChar (n / 100000)) (String (digitChar (n / 10000)) (digits4 n)).

Definition isoYear (y : Z) : string :=
  if (0 <=? y) && (y <=? 9999) then digits4 y
  else (if y <? 0 then "-" else "+") +:+ digits6 (Z.abs y).

(** The date part, [YYYY-MM-DD], of the day with number [day]. *)
Definition isoDateOfDay (day : Z) : string :=
  let t := day * msPerDay in
  isoYear (YearFromTime t) +:+ "-" +:+
  digits2 (MonthFromTime t + 1) +:+ "-" +:+
  digits2 (DateFromTime t).

Definition toISOString (t : Z) : string :=
  let ms := TimeWithinDay t in
  isoDateOfDay (Day t) +:+ "T" +:+
  digits2 (ms / 3600000) +:+ ":" +:+
  digits2 (ms / 60000 mod 60) +:+ ":" +:+
  digits2 (ms / 1000 mod 60) +:+ "." +:+
  digits3 (ms mod 1000) +:+ "Z".

End Date.

(** ** Data model (lines 5-19 of the source) *)

Record Member := {
  m_id : Z;
  m_name : string;
  m_position : string
}.

Inductive TxType := income | expense.

Record Transaction := {
  tx_id : Z;
  tx_type : TxType;
  tx_date : string;
  tx_category : string;
  tx_amount : Z;
  tx_memberId : option Z;      (* [memberId?: number] *)
  tx_memo : option string      (* [memo?: string] *)
}.

(** [Transaction & { balance: number }], the element type of the feed:
    the object spread [{ ...tx, balance }] copies every field of [tx]. *)
Record TransactionWithBalance := {
  twb_tx : Transaction;
  balance : Z
}.

Definition TxType_eqb (a b : TxType) : bool :=
  match a, b with
  | income, income | expense, expense => true
  | _, _ => false
  end.

(** A JavaScript number as the sort comparator returns it. *)
Inductive Number := NaN | Num (z : Z).

(** [new Date(s).getTime()] *)
Definition getTime (s : string) : Number :=
  match Date.parse s with
  | Some t => Num t
  | None => NaN
  end.

(** ** Array helpers *)

(** [arr.indexOf(x)], [-1] when absent *)
Fixpoint indexOfFrom (i : Z) (l : list string) (x : string) : Z :=
  match l with
  | [] => -1
  | y :: l' => if Str.eq y x then i else indexOfFrom (i + 1) l' x
  end.
Definition indexOf (l : list string) (x : string) : Z := indexOfFrom 0 l x.

(** [arr.includes(x)] *)
Definition includes (l : list string) (x : string) : bool :=
  existsb (fun y => Str.eq y x) l.

(** [Array.prototype.sort(comparefn)].  ECMAScript requires the sort to be
    stable and reads a [NaN] returned by the comparator as [+0]; for a
    comparator that is not consistent the order is left to the
    implementation.  The model is the stable insertion sort: [x], which
    precedes the elements of [l] in the input, stays in front of the first
    [y] with [comparefn(x, y) <= 0]. *)
Section Sort.
Context {A : Type} (comparefn : A -> A -> Number).

Definition SortCompare (x y : A) : Z :=
  match comparefn x y with
  | NaN => 0
  | Num v => v
  end.

Fixpoint insert (x : A) (l : list A) : list A :=
  match l with
  | [] => [x]
  | y :: l' => if SortCompare x y <=? 0 then x :: y :: l' else y :: insert x l'
  end.

Fixpoint sort (l : list A) : list A :=
  match l with
  | [] => []
  | x :: l' => insert x (sort l')
  end.
End Sort.

(** ** Constants of the engine *)

(** line 290 *)
Definition categoryOrder : list string :=
  ["기타"; "일천번제"; "심방감사"; "생일감사"; "절기헌금"; "주정헌금";
   "감사헌금"; "건축헌금"; "선교헌금"; "십일조"].

(** line 354 *)
Definition gyeongsangbiCategories : list string :=
  ["주정헌금"; "십일조"; "감사헌금"; "생일감사"; "심방감사"; "일천번제"].

(** [tx.type === 'income' ? tx.amount : -tx.amount] (lines 278 and 338) *)
Definition signedAmount (tx : Transaction) : Z :=
  match tx_type tx with
  | income => tx_amount tx
  | expense => - tx_amount tx
  end.

(** ** Name resolution *)

(** [members.find(m => m.id === id)?.name || fallback]: the fallback also
    replaces an empty name, which is falsy. *)
Definition findName (members : list Member) (id : Z) (fallback : string) : string :=
  match List.find (fun m => m_id m =? id) members with
  | Some m => if Str.eq (m_name m) "" then fallback else m_name m
  | None => fallback
  end.

(** lines 292-295 *)
Definition getMemberNameForSort (members : list Member) (memberId : option Z) : string :=
  match memberId with
  | None => "무명"
  | Some id => findName members id "미지정"
  end.

(** line 403; [m.id === undefined] holds for no member *)
Definition getMemberName (members : list Member) (id : option Z) : string :=
  match id with
  | None => "미지정"
  | Some i => findName members i "미지정"
  end.

(** ** Today-split (lines 273-286) *)

Record BalanceData := {
  previousBalance : Z;
  todaysChange : Z;
  todaysBalance : Z
}.

(** One iteration of the [forEach], on the pair of accumulators
    [(previousBalance, todaysChange)]. *)
Definition balanceStep (todayStr : string) (acc : Z * Z) (tx : Transaction) : Z * Z :=
  let amount := signedAmount tx in
  if Str.lt (tx_date tx) todayStr then (fst acc + amount, snd acc)
  else if Str.eq (tx_date tx) todayStr then (fst acc, snd acc + amount)
  else acc.

Definition balanceData (transactions : list Transaction) (todayStr : string) : BalanceData :=
  let acc := fold_left (balanceStep todayStr) transactions (0, 0) in
  {| previousBalance := fst acc;
     todaysChange := snd acc;
     todaysBalance := fst acc + snd acc |}.

(** ** Display feed (lines 297-341) *)

(** lines 312-316, the same expression for [a] and for [b]: the index in
    [categoryOrder], and its length for a category that is not in it. *)
Definition effectiveIndex (category : string) : Z :=
  let index := indexOf categoryOrder category in
  if index =? -1 then Z.of_nat (length categoryOrder) else index.

Section Feed.
Variable localeCompare : string -> string -> Z.
Variable members : list Member.

(** The tail of the comparator: [return a.id - b.id]. *)
Definition byId (a b : Transaction) : Number := Num (tx_id a - tx_id b).

(** The [if (a.type === 'income') { ... }] block; [None] when control
    falls through to the final [return]. *)
Definition incomeTieBreak (a b : Transaction) : option Number :=
  let effectiveIndexA := effectiveIndex (tx_category a) in
  let effectiveIndexB := effectiveIndex (tx_category b) in
  if negb (effectiveIndexA =? effectiveIndexB)
  then Some (Num (effectiveIndexA - effectiveIndexB))
  else
    let nameA := getMemberNameForSort members (tx_memberId a) in
    let nameB := getMemberNameForSort members (tx_memberId b) in
    let nameCompare := localeCompare nameB nameA in
    if negb (nameCompare =? 0) then Some (Num nameCompare) else None.

(** The comparator of lines 299-336. *)
Definition compareTx (a b : Transaction) : Number :=
  match getTime (tx_date a), getTime (tx_date b) with
  | Num ta, Num tb =>
      let dateCompare := ta - tb in
      if negb (dateCompare =? 0) then Num dateCompare
      else if negb (TxType_eqb (tx_type a) (tx_type b))
      then (match tx_type a with income => Num (-1) | expense => Num 1 end)
      else match tx_type a with
           | income =>
               match incomeTieBreak a b with
               | Some r => r
               | None => byId a b
               end
           | expense => byId a b
           end
  | _, _ => NaN      (* [NaN !== 0], so the [NaN] difference is returned *)
  end.

(** The [map] callback with its captured [runningBalance]. *)
Fixpoint attachBalance (runningBalance : Z) (l : list Transaction)
  : list TransactionWithBalance :=
  match l with
  | [] => []
  | tx :: l' =>
      let runningBalance' := runningBalance + signedAmount tx in
      {| twb_tx := tx; balance := runningBalance' |}
        :: attachBalance runningBalance' l'
  end.

Definition withBalance (transactions : list Transaction)
  : list TransactionWithBalance :=
  rev (attachBalance 0 (sort compareTx transactions)).
End Feed.

(** ** Window aggregation (lines 343-381) *)

Record PeriodicalSummary := {
  weeklyIncome : Z;
  weeklyExpense : Z;
  yearlyIncome : Z;
  yearlyExpense : Z;
  weeklyBalance : Z;
  yearlyBalance : Z
}.

Record WeeklyCategoryTotals := {
  weeklyGyeongsangbiBreakdown : gmap string Z;
  weeklySeongyo : Z;
  weeklyGeonchuk : Z
}.

(** The variables the second [forEach] updates. *)
Record WindowAcc := {
  acc_weeklyIncome : Z;
  acc_weeklyExpense : Z;
  acc_yearlyIncome : Z;
  acc_yearlyExpense : Z;
  acc_breakdown : gmap string Z;
  acc_weeklySeongyo : Z;
  acc_weeklyGeonchuk : Z
}.

(** [Object.fromEntries(gyeongsangbiCategories.map(cat => [cat, 0]))] *)
Definition initialBreakdown : gmap string Z :=
  list_to_map (map (fun cat => (cat, 0)) gyeongsangbiCategories).

Definition initialWindowAcc : WindowAcc :=
  {| acc_weeklyIncome := 0; acc_weeklyExpense := 0;
     acc_yearlyIncome := 0; acc_yearlyExpense := 0;
     acc_breakdown := initialBreakdown;
     acc_weeklySeongyo := 0; acc_weeklyGeonchuk := 0 |}.

(** The compound assignments of the loop body, one per variable. *)
Definition addWeeklyIncome (amount : Z) (acc : WindowAcc) : WindowAcc :=
  {| acc_weeklyIncome := acc_weeklyIncome acc + amount;
     acc_weeklyExpense := acc_weeklyExpense acc;
     acc_yearlyIncome := acc_yearlyIncome acc;
     acc_yearlyExpense := acc_yearlyExpense acc;
     acc_breakdown := acc_breakdown acc;
     acc_weeklySeongyo := acc_weeklySeongyo acc;
     acc_weeklyGeonchuk := acc_weeklyGeonchuk acc |}.

Definition addWeeklyExpense (amount : Z) (acc : WindowAcc) : WindowAcc :=
  {| acc_weeklyIncome := acc_weeklyIncome acc;
     acc_weeklyExpense := acc_weeklyExpense acc + amount;
     acc_yearlyIncome := acc_yearlyIncome acc;
     acc_yearlyExpense := acc_yearlyExpense acc;
     acc_breakdown := acc_breakdown acc;
     acc_weeklySeongyo := acc_weeklySeongyo acc;
     acc_weeklyGeonchuk := acc_weeklyGeonchuk acc |}.

Definition addYearlyIncome (amount : Z) (acc : WindowAcc) : WindowAcc :=
  {| acc_weeklyIncome := acc_weeklyIncome acc;
     acc_weeklyExpense := acc_weeklyExpense acc;
     acc_yearlyIncome := acc_yearlyIncome acc + amount;
     acc_yearlyExpense := acc_yearlyExpense acc;
     acc_breakdown := acc_breakdown acc;
     acc_weeklySeongyo := acc_weeklySeongyo acc;
     acc_weeklyGeonchuk := acc_weeklyGeonchuk acc |}.

Definition addYearlyExpense (amount : Z) (acc : WindowAcc) : WindowAcc :=
  {| acc_weeklyIncome := acc_weeklyIncome acc;
     acc_weeklyExpense := acc_weeklyExpense acc;
     acc_yearlyIncome := acc_yearlyIncome acc;
     acc_yearlyExpense := acc_yearlyExpense acc + amount;
     acc_breakdown := acc_breakdown acc;
     acc_weeklySeongyo := acc_weeklySeongyo acc;
     acc_weeklyGeonchuk := acc_weeklyGeonchuk acc |}.

(** [weeklyGyeongsangbiBreakdown[category] += amount].  The source guards
    it by [includes], so the key is present and [alter] is the update. *)
Definition addBreakdown (category : string) (amount : Z) (acc : WindowAcc) : WindowAcc :=
  {| acc_weeklyIncome := acc_weeklyIncome acc;
     acc_weeklyExpense := acc_weeklyExpense acc;
     acc_yearlyIncome := acc_yearlyIncome acc;
     acc_yearlyExpense := acc_yearlyExpense acc;
     acc_breakdown := alter (fun v => v + amount) category (acc_breakdown acc);
     acc_weeklySeongyo := acc_weeklySeongyo acc;
     acc_weeklyGeonchuk := acc_weeklyGeonchuk acc |}.

Definition addWeeklySeongyo (amount : Z) (acc : WindowAcc) : WindowAcc :=
  {| acc_weeklyIncome := acc_weeklyIncome acc;
     acc_weeklyExpense := acc_weeklyExpense acc;
     acc_yearlyIncome := acc_yearlyIncome acc;
     acc_yearlyExpense := acc_yearlyExpense acc;
     acc_breakdown := acc_breakdown acc;
     acc_weeklySeongyo := acc_weeklySeongyo acc + amount;
     acc_weeklyGeonchuk := acc_weeklyGeonchuk acc |}.

Definition addWeeklyGeonchuk (amount : Z) (acc : WindowAcc) : WindowAcc :=
  {| acc_weeklyIncome := acc_weeklyIncome acc;
     acc_weeklyExpense := acc_weeklyExpense acc;
     acc_yearlyIncome := acc_yearlyIncome acc;
     acc_yearlyExpense := acc_yearlyExpense acc;
     acc_breakdown := acc_breakdown acc;
     acc_weeklySeongyo := acc_weeklySeongyo acc;
     acc_weeklyGeonchuk := acc_weeklyGeonchuk acc + amount |}.

(** The yearly half of the loop body (lines 363-366). *)
Definition yearlyStep (yearStartStr : string) (acc : WindowAcc) (tx : Transaction) : WindowAcc :=
  let amount := tx_amount tx in
  if Str.ge (tx_date tx) yearStartStr then
    match tx_type tx with
    | income => addYearlyIncome amount acc
    | expense => addYearlyExpense amount acc
    end
  else acc.

(** The weekly half of the loop body (lines 367-380). *)
Definition weeklyStep (weekStartStr : string) (acc : WindowAcc) (tx : Transaction) : WindowAcc :=
  let amount := tx_amount tx in
  if Str.ge (tx_date tx) weekStartStr then
    match tx_type tx with
    | income =>
        let acc := addWeeklyIncome amount acc in
        if includes gyeongsangbiCategories (tx_category tx)
        then addBreakdown (tx_category tx) amount acc
        else if Str.eq (tx_category tx) "선교헌금" then addWeeklySeongyo amount acc
        else if Str.eq (tx_category tx) "건축헌금" then addWeeklyGeonchuk amount acc
        else acc
    | expense => addWeeklyExpense amount acc
    end
  else acc.

Definition windowStep (yearStartStr weekStartStr : string)
    (acc : WindowAcc) (tx : Transaction) : WindowAcc :=
  weeklyStep weekStartStr (yearlyStep yearStartStr acc tx) tx.

Section Windows.
Variable LocalTZA : Z -> bool -> Z.

(** [today.getFullYear() + '-01-01'], [today] being the time value of
    [new Date(todayStr)] *)
Definition yearStartOf (today : Z) : string :=
  pretty (Date.getFullYear LocalTZA today) +:+ "-01-01".

(** lines 345-347 *)
Definition weekStartOf (today : Z) : string :=
  let weekStart :=
    Date.setDate LocalTZA today
      (Date.getDate LocalTZA today - Date.getDay LocalTZA today) in
  String.substring 0 10 (Date.toISOString weekStart).

(** The accumulators after the loop.  [None] when [todayStr] is not a
    date: [toISOString] of the invalid [weekStart] throws a
    [RangeError].  [todayStr] is [todayString()] in the source, which
    always is a date. *)
Definition windowTotals (transactions : list Transaction) (todayStr : string)
  : option WindowAcc :=
  today ← Date.parse todayStr;
  Some (fold_left (windowStep (yearStartOf today) (weekStartOf today))
                  transactions initialWindowAcc).

Definition periodicalSummary (transactions : list Transaction) (todayStr : string)
  : option PeriodicalSummary :=
  acc ← windowTotals transactions todayStr;
  Some {| weeklyIncome := acc_weeklyIncome acc;
          weeklyExpense := acc_weeklyExpense acc;
          yearlyIncome := acc_yearlyIncome acc;
          yearlyExpense := acc_yearlyExpense acc;
          weeklyBalance := acc_weeklyIncome acc - acc_weeklyExpense acc;
          yearlyBalance := acc_yearlyIncome acc - acc_yearlyExpense acc |}.

Definition weeklyCategoryTotals (transactions : list Transaction) (todayStr : string)
  : option WeeklyCategoryTotals :=
  acc ← windowTotals transactions todayStr;
  Some {| weeklyGyeongsangbiBreakdown := acc_breakdown acc;
          weeklySeongyo := acc_weeklySeongyo acc;
          weeklyGeonchuk := acc_weeklyGeonchuk acc |}.
End Windows.

(** ** Search (lines 898-922) *)

Inductive SearchType := byName | byCategory.

(** [filteredTransactions] *)
Definition filteredTransactions (transactions : list Transaction)
    (startDate endDate : string) : list Transaction :=
  List.filter (fun tx => Str.ge (tx_date tx) startDate && Str.le (tx_date tx) endDate)
              transactions.

Record SearchResult := {
  sr_transactions : list Transaction;
  sr_total : Z
}.

(** [result.reduce((sum, tx) => sum + tx.amount, 0)] *)
Definition total (result : list Transaction) : Z :=
  fold_left (fun sum tx => sum + tx_amount tx) result 0.

Definition memberIdIs (tx : Transaction) (q : Z) : bool :=
  match tx_memberId tx with
  | Some i => i =? q
  | None => false
  end.

(** [nameSearchResult]; [nameQuery = None] is the empty selection [''],
    and the result [None] is [null]. *)
Definition nameSearchResult (transactions : list Transaction)
    (startDate endDate : string) (searchType : SearchType) (nameQuery : option Z)
    : option SearchResult :=
  match searchType, nameQuery with
  | byName, Some q =>
      let result :=
        List.filter (fun tx => memberIdIs tx q && TxType_eqb (tx_type tx) income)
                    (filteredTransactions transactions startDate endDate) in
      Some {| sr_transactions := result; sr_total := total result |}
  | _, _ => None
  end.

(** ** Roster editing (lines 133-164) *)

Record AppState := {
  st_members : list Member;
  st_transactions : list Transaction;
  st_expenseCategories : list string;
  st_password : option string
}.

(** [setMembers(prev => prev.filter(m => m.id !== id))] *)
Definition handleDeleteMember (id : Z) (st : AppState) : AppState :=
  {| st_members := List.filter (fun m => negb (m_id m =? id)) (st_members st);
     st_transactions := st_transactions st;
     st_expenseCategories := st_expenseCategories st;
     st_password := st_password st |}.

(** ** Notions the statements use *)

(** The signed sum of a list of entries: income amounts added, expense
    amounts subtracted. *)
Definition signedSum (l : list Transaction) : Z :=
  foldr (fun tx s => signedAmount tx + s) 0 l.

(** The plain sum of the amounts. *)
Definition amountSum (l : list Transaction) : Z :=
  foldr (fun tx s => tx_amount tx + s) 0 l.

Definition isIncome (tx : Transaction) : bool := TxType_eqb (tx_type tx) income.
Definition isExpense (tx : Transaction) : bool := TxType_eqb (tx_type tx) expense.

(** The entry's date is a date: [new Date(tx.date)] is valid. *)
Definition validDate (tx : Transaction) : bool :=
  match Date.parse (tx_date tx) with
  | Some _ => true
  | None => false
  end.

(** The time value of a valid date. *)
Definition timeOf (tx : Transaction) : Z :=
  match Date.parse (tx_date tx) with
  | Some t => t
  | None => 0
  end.

(** Chronological order of two entries. *)
Definition dateLe (a b : Transaction) : Prop := timeOf a <= timeOf b.


(** An entry dated [lo] or later. *)
Definition fromDate (lo : string) (tx : Transaction) : bool :=
  Str.le lo (tx_date tx).

(** The date part of [toISOString] for day number [day]. *)
Definition isoDate (day : Z) : string :=
  String.substring 0 10 (Date.toISOString (day * Date.msPerDay)).

(** At [today], a midnight UTC, the host is at or east of Greenwich, and
    the offset it applies on the first day of the week, at the same
    local time of day, is not above the offset at [today]: the clock was
    not put back in between. *)
Definition steadyWeek (LocalTZA : Z -> bool -> Z) (today : Z) : Prop :=
  0 <= LocalTZA today true < Date.msPerDay
  /\ 0 <= LocalTZA today true
          - LocalTZA ((Date.Day today - Date.WeekDay today) * Date.msPerDay
                      + LocalTZA today true) false
       < Date.msPerDay.

(** The host reads the local midnight [t] as an instant of the same
    local day. *)
Definition keepsLocalDay (LocalTZA : Z -> bool -> Z) (t : Z) : Prop :=
  0 <= LocalTZA (Date.UTC LocalTZA t) true - LocalTZA t false < Date.msPerDay.

(** The day number of a valid entry date. *)
Definition dayOf (tx : Transaction) : Z := Date.Day (timeOf tx).

(** An income entry of category [k] dated [lo] or later. *)
Definition countsFor (k lo : string) (tx : Transaction) : bool :=
  isIncome tx && fromDate lo tx && Str.eq (tx_category tx) k.

(** The predicate of the by-person search: an income entry of person [q]
    dated within [[startDate, endDate]], both ends included. *)
Definition matchesPerson (q : Z) (startDate endDate : string) (tx : Transaction) : bool :=
  isIncome tx && memberIdIs tx q
  && Str.le startDate (tx_date tx) && Str.le (tx_date tx) endDate.

(** The order of two dates given by their fields (year, month, day). *)
Definition fieldsCompare (f1 f2 : Z * Z * Z) : comparison :=
  match f1, f2 with
  | (y1, m1, d1), (y2, m2, d2) =>
      match y1 ?= y2 with
      | Eq => match m1 ?= m2 with
              | Eq => d1 ?= d2
              | c => c
              end
      | c => c
      end
  end.

(** [Number::toString] and the four digits of [toISOString] agree on the
    [n] years from [y]. *)
Fixpoint checkYears (n : nat) (y : Z) : bool :=
  match n with
  | O => true
  | S n' => String.eqb (pretty y) (Date.digits4 y) && checkYears n' (y + 1)
  end.

(** What ECMAScript asks of a comparator, here of [localeCompare]: the
    sign flips with the arguments and the induced order is transitive. *)
Record ConsistentComparator (c : string -> string -> Z) : Prop := {
  cc_antisym : forall x y, Z.sgn (c y x) = - Z.sgn (c x y);
  cc_trans : forall x y z, c x y <= 0 -> c y z <= 0 -> c x z <= 0
}.

(** A collation to run the engine with: the order of the code units. *)
Definition codeUnitCompare (a b : string) : Z :=
  match String.compare a b with
  | Lt => -1
  | Eq => 0
  | Gt => 1
  end.

(** ** Sample data *)

Module Sample.

(** Korea Standard Time, nine hours east of Greenwich. *)
Definition KST : Z -> bool -> Z := Date.constantTZA 32400000.

(** Central European time in 2024: two hours east of Greenwich from 31
    March 01:00 UTC to 27 October 01:00 UTC, one hour otherwise; local
    times change at 03:00 of these days. *)
Definition Berlin (t : Z) (isUTC : bool) : Z :=
  if isUTC
  then if (1711846800000 <=? t) && (t <? 1729990800000) then 7200000 else 3600000
  else if (1711854000000 <=? t) && (t <? 1729998000000) then 7200000 else 3600000.

Definition entry (i : Z) (ty : TxType) (d c : string) (a : Z) (m : option Z)
  : Transaction :=
  {| tx_id := i; tx_type := ty; tx_date := d; tx_category := c;
     tx_amount := a; tx_memberId := m; tx_memo := None |}.

Definition roster : list Member :=
  [ {| m_id := 1; m_name := "김은혜"; m_position := "집사" |};
    {| m_id := 2; m_name := "박소망"; m_position := "권사" |} ].

(** Sunday 7 January 2024 and the Saturday before. *)
Definition ledger : list Transaction :=
  [ entry 10 income "2024-01-07" "십일조" 1000 (Some 1);
    entry 11 expense "2024-01-07" "운영비" 300 None;
    entry 12 income "2024-01-06" "십일조" 500 (Some 2) ].

(** Two entries dated after Sunday 7 January 2024. *)
Definition postdated : list Transaction :=
  [ entry 20 income "2024-01-10" "감사헌금" 100 (Some 1);
    entry 21 expense "2024-01-09" "운영비" 40 None ].

(** The second entry has a negative amount. *)
Definition withNegative : list Transaction :=
  [ entry 1 income "2024-01-05" "십일조" 100 (Some 1);
    entry 2 income "2024-01-06" "십일조" (-50) (Some 1);
    entry 3 income "2024-01-07" "십일조" 30 (Some 1) ].

(** The second entry has amount 0. *)
Definition withZero : list Transaction :=
  [ entry 1 income "2024-01-05" "십일조" 100 (Some 1);
    entry 2 income "2024-01-06" "십일조" 0 (Some 1);
    entry 3 income "2024-01-07" "십일조" 30 (Some 1) ].

Definition notSecond (tx : Transaction) : bool := negb (tx_id tx =? 2).

Definition state : AppState :=
  {| st_members := roster; st_transactions := ledger;
     st_expenseCategories := ["운영비"; "선교비"; "구제비"];
     st_password := None |}.

End Sample.

(** * The rest of the source *)

(** ** The weekday label (lines 26-34) *)

Module DateTime.
Import Date.

(** The string without its first [n] characters. *)
Fixpoint dropChars (n : nat) (s : string) : string :=
  match n, s with
  | O, _ => s
  | S n', String _ s' => dropChars n' s'
  | S _, EmptyString => EmptyString
  end.

(** The time part [THH:mm:ss] of the date-time form, in milliseconds. *)
Definition parseTime (s : string) : option Z :=
  match s with
  | String t (String h1 (String h2 (String sep1
    (String m1 (String m2 (String sep2
    (String s1 (String s2 EmptyString)))))))) =>
      if Ascii.eqb t "T" && Ascii.eqb sep1 ":" && Ascii.eqb sep2 ":" then
        a ← digit h1; b ← digit h2; c ← digit m1; d ← digit m2;
        e ← digit s1; f ← digit s2;
        let hh := 10 * a + b in
        let mm := 10 * c + d in
        let ss := 10 * e + f in
        if (hh <=? 23) && (mm <=? 59) && (ss <=? 59)
           || (hh =? 24) && (mm =? 0) && (ss =? 0)
        then Some (hh * 3600000 + mm * 60000 + ss * 1000)
        else None
      else None
  | _ => None
  end.

(** [Date.parse] of the date-time form [YYYY-MM-DDTHH:mm:ss], which has
    no offset and is read as local time.  As for the date-only form,
    the model returns [None] for any other string and for a field out of
    range. *)
Definition parseLocal (LocalTZA : Z -> bool -> Z) (s : string) : option Z :=
  match parseFields (String.substring 0 10 s), parseTime (dropChars 10 s) with
  | Some (y, m, d), Some time =>
      Some (UTC LocalTZA (MakeDate (MakeDay y (m - 1) d) time))
  | _, _ => None
  end.

End DateTime.

Definition days : list string := ["일"; "월"; "화"; "수"; "목"; "금"; "토"].

(** [getDayOfWeek] *)
Definition getDayOfWeek (LocalTZA : Z -> bool -> Z) (dateString : string) : string :=
  if Str.eq dateString "" then ""
  else
    match DateTime.parseLocal LocalTZA (dateString +:+ "T00:00:00") with
    | None => ""      (* [isNaN(date.getTime())] *)
    | Some date =>
        "(" +:+ nth (Z.to_nat (Date.getDay LocalTZA date)) days "undefined" +:+ ")"
    end.

(** ** The password modal and protected actions (lines 69-84 and 179-205) *)

Inductive ModalMode := create | enter.

(** What [handleSubmit] of the modal does: it shows an error, or calls
    [onConfirm] with the password. *)
Inductive ModalOutcome :=
  | ShowError (message : string)
  | Confirm (password : string).

Definition isDigit (c : ascii) : bool :=
  match Date.digit c with
  | Some _ => true
  | None => false
  end.

(** [/^\d{4}$/.test(s)] *)
Definition isFourDigits (s : string) : bool :=
  match s with
  | String a (String b (String c (String d EmptyString))) =>
      isDigit a && isDigit b && isDigit c && isDigit d
  | _ => false
  end.

Definition ModalMode_eqb (a b : ModalMode) : bool :=
  match a, b with
  | create, create | enter, enter => true
  | _, _ => false
  end.

(** lines 69-84 *)
Definition modalSubmit (mode : ModalMode) (password confirmPassword : string)
  : ModalOutcome :=
  if negb (isFourDigits password)
  then ShowError "비밀번호는 4자리 숫자여야 합니다."
  else if ModalMode_eqb mode create && negb (Str.eq password confirmPassword)
  then ShowError "비밀번호가 일치하지 않습니다."
  else Confirm password.

(** [if (password)]: a stored password that is not [null] and not empty *)
Definition storedPassword (st : AppState) : option string :=
  match st_password st with
  | Some p => if Str.eq p "" then None else Some p
  | None => None
  end.

Definition setPassword (p : string) (st : AppState) : AppState :=
  {| st_members := st_members st;
     st_transactions := st_transactions st;
     st_expenseCategories := st_expenseCategories st;
     st_password := Some p |}.

(** [runProtectedAction(action)] followed by one submission of the modal
    it opens: the state afterwards, and whether [action] was run.
    [action] is given as what it does to the state. *)
Definition runProtectedAction (action : AppState -> AppState)
    (password confirmPassword : string) (st : AppState) : AppState * bool :=
  match storedPassword st with
  | Some stored =>
      match modalSubmit enter password confirmPassword with
      | Confirm enteredPassword =>
          if Str.eq enteredPassword stored then (action st, true) else (st, false)
      | ShowError _ => (st, false)
      end
  | None =>
      match modalSubmit create password confirmPassword with
      | Confirm newPassword => (action (setPassword newPassword st), true)
      | ShowError _ => (st, false)
      end
  end.

(** One use of a protected action: the action, and what is typed into
    the modal. *)
Record Submission := {
  sub_action : AppState -> AppState;
  sub_password : string;
  sub_confirmPassword : string
}.

(** The uses one after the other. *)
Definition runProtectedActions (attempts : list Submission) (st : AppState)
  : AppState :=
  fold_left
    (fun s a => fst (runProtectedAction (sub_action a) (sub_password a)
                                        (sub_confirmPassword a) s))
    attempts st.

(** ** Adding and editing members (lines 146-160 and 816-823) *)

Definition setMembers (members : list Member) (st : AppState) : AppState :=
  {| st_members := members;
     st_transactions := st_transactions st;
     st_expenseCategories := st_expenseCategories st;
     st_password := st_password st |}.

Section Roster.
(** [String.prototype.trim], the host's. *)
Variable trim : string -> string.
Variable localeCompare : string -> string -> Z.

(** [(a, b) => a.name.localeCompare(b.name, 'ko')] *)
Definition byMemberName (a b : Member) : Number :=
  Num (localeCompare (m_name a) (m_name b)).

(** [handleAddMember]; [now] is [Date.now()]. *)
Definition handleAddMember (now : Z) (name position : string) (st : AppState)
  : AppState :=
  if Str.eq (trim name) "" then st
  else
    let newMember := {| m_id := now; m_name := name; m_position := position |} in
    setMembers (sort byMemberName (st_members st ++ [newMember])) st.

(** [handleUpdateMember] *)
Definition handleUpdateMember (id : Z) (name position : string) (st : AppState)
  : AppState :=
  setMembers
    (sort byMemberName
       (map (fun m => if m_id m =? id
                      then {| m_id := m_id m; m_name := name; m_position := position |}
                      else m)
            (st_members st)))
    st.

(** [handleEditSave] of the edit modal; [editingId] is [null] or an id, and
    the id 0 is falsy like [null]. *)
Definition handleEditSave (editingId : option Z) (editName editPosition : string)
    (st : AppState) : AppState :=
  match editingId with
  | Some id =>
      if negb (id =? 0) && negb (Str.eq (trim editName) "")
      then handleUpdateMember id (trim editName) editPosition st
      else st
  | None => st
  end.
End Roster.

(** ** Adding entries (lines 167-169, 571-580 and 625-635) *)

(** [Omit<Transaction, 'id'>] *)
Record TransactionInput := {
  in_type : TxType;
  in_date : string;
  in_category : string;
  in_amount : Z;
  in_memberId : option Z;
  in_memo : option string
}.

Definition setTransactions (transactions : list Transaction) (st : AppState) : AppState :=
  {| st_members := st_members st;
     st_transactions := transactions;
     st_expenseCategories := st_expenseCategories st;
     st_password := st_password st |}.

(** [{ ...tx, id: Date.now() }] *)
Definition withId (now : Z) (tx : TransactionInput) : Transaction :=
  {| tx_id := now; tx_type := in_type tx; tx_date := in_date tx;
     tx_category := in_category tx; tx_amount := in_amount tx;
     tx_memberId := in_memberId tx; tx_memo := in_memo tx |}.

(** [handleAddTransaction] *)
Definition handleAddTransaction (now : Z) (tx : TransactionInput) (st : AppState)
  : AppState :=
  setTransactions (st_transactions st ++ [withId now tx]) st.

(** [handleSubmit] of the income form; [None] is the empty field [''].
    The object it passes has no [memo]. *)
Definition incomeSubmit (now : Z) (date category : string)
    (memberId amount : option Z) (st : AppState) : AppState :=
  match amount, memberId with
  | Some a, Some m =>
      if a <=? 0 then st
      else handleAddTransaction now
             {| in_type := income; in_date := date; in_category := category;
                in_amount := a; in_memberId := Some m; in_memo := None |} st
  | _, _ => st
  end.

(** [handleSubmit] of the expense form. *)
Definition expenseSubmit (now : Z) (date category : string)
    (memberId amount : option Z) (memo : string) (st : AppState) : AppState :=
  match amount with
  | Some a =>
      if (a <=? 0) || Str.eq category "" then st
      else handleAddTransaction now
             {| in_type := expense; in_date := date; in_category := category;
                in_amount := a; in_memberId := memberId; in_memo := Some memo |} st
  | None => st
  end.

(** ** Expense categories (lines 172-176 and 620-623) *)

Definition setExpenseCategories (categories : list string) (st : AppState) : AppState :=
  {| st_members := st_members st;
     st_transactions := st_transactions st;
     st_expenseCategories := categories;
     st_password := st_password st |}.

(** [handleAddExpenseCategory] *)
Definition handleAddExpenseCategory (category : string) (st : AppState) : AppState :=
  if negb (Str.eq category "") && negb (includes (st_expenseCategories st) category)
  then setExpenseCategories (st_expenseCategories st ++ [category]) st
  else st.

(** [handleAddCategory] of the expense form; [answer] is what [prompt]
    returned, [None] for [null]. *)
Definition handleAddCategory (trim : string -> string) (answer : option string)
    (st : AppState) : AppState :=
  match answer with
  | Some newCategory =>
      if Str.eq newCategory "" then st
      else handleAddExpenseCategory (trim newCategory) st
  | None => st
  end.

(** ** The protected actions (lines 208-267 and 412) *)

(** The file to load after [JSON.parse]: its three keys, each [None]
    when it is missing or falsy.  Nothing else of the data is checked
    (lines 247-252). *)
Record ParsedData := {
  pd_members : option (list Member);
  pd_transactions : option (list Transaction);
  pd_expenseCategories : option (list string)
}.

(** [performSave] writes a file; the state stays as it is. *)
Definition performSave (st : AppState) : AppState := st.

(** [performLoad]; [confirmed] is the answer to [window.confirm], and
    [parsedData] is [None] when the file is not text or not JSON. *)
Definition performLoad (confirmed : bool) (parsedData : option ParsedData)
    (st : AppState) : AppState :=
  if confirmed then
    match parsedData with
    | Some data =>
        match pd_members data, pd_transactions data, pd_expenseCategories data with
        | Some members, Some transactions, Some expenseCategories =>
            setExpenseCategories expenseCategories
              (setTransactions transactions (setMembers members st))
        | _, _, _ => st
        end
    | None => st
    end
  else st.

(** [() => setView('editMembers')]; the view is not part of [AppState]. *)
Definition openEditMembers (st : AppState) : AppState := st.

(** ** The list by date (line 271) *)

(** [new Date(b.date).getTime() - new Date(a.date).getTime() || b.id - a.id]:
    a difference that is 0 or [NaN] is falsy. *)
Definition newestFirst (a b : Transaction) : Number :=
  match getTime (tx_date b), getTime (tx_date a) with
  | Num tb, Num ta => if tb - ta =? 0 then Num (tx_id b - tx_id a) else Num (tb - ta)
  | _, _ => Num (tx_id b - tx_id a)
  end.

Definition sortedTransactions (transactions : list Transaction) : list Transaction :=
  sort newestFirst transactions.

(** ** Totals of today and search by category (lines 902-929) *)

(** [todaysTotals]: [(totalIncome, totalExpense)] *)
Definition todaysTotals (transactions : list Transaction) (today : string) : Z * Z :=
  let todaysTransactions :=
    List.filter (fun tx => Str.eq (tx_date tx) today) transactions in
  (total (List.filter (fun tx => TxType_eqb (tx_type tx) income) todaysTransactions),
   total (List.filter (fun tx => TxType_eqb (tx_type tx) expense) todaysTransactions)).

Definition SearchType_eqb (a b : SearchType) : bool :=
  match a, b with
  | byName, byName | byCategory, byCategory => true
  | _, _ => false
  end.

(** [categorySearchResult] *)
Definition categorySearchResult (transactions : list Transaction)
    (startDate endDate : string) (searchType : SearchType)
    (categoryType : TxType) (categoryQuery : string) : option SearchResult :=
  if negb (SearchType_eqb searchType byCategory) || Str.eq categoryQuery ""
  then None
  else
    let result :=
      List.filter (fun tx => TxType_eqb (tx_type tx) categoryType
                             && Str.eq (tx_category tx) categoryQuery)
                  (filteredTransactions transactions startDate endDate) in
    Some {| sr_transactions := result; sr_total := total result |}.

(** ** Pages of the list (lines 682-699) *)

Definition ITEMS_PER_PAGE : Z := 20.

(** [Array.prototype.slice(start, end)]: a negative index counts from the
    end, and both are clamped to the array. *)
Definition slice {A : Type} (start finish : Z) (l : list A) : list A :=
  let len := Z.of_nat (length l) in
  let k := if start <? 0 then Z.max (len + start) 0 else Z.min start len in
  let final := if finish <? 0 then Z.max (len + finish) 0 else Z.min finish len in
  take (Z.to_nat (final - k)) (drop (Z.to_nat k) l).

(** [Math.ceil(transactions.length / ITEMS_PER_PAGE)] *)
Definition totalPages {A : Type} (l : list A) : Z :=
  (Z.of_nat (length l) + ITEMS_PER_PAGE - 1) / ITEMS_PER_PAGE.

Definition paginatedTransactions {A : Type} (currentPage : Z) (l : list A) : list A :=
  slice ((currentPage - 1) * ITEMS_PER_PAGE) (currentPage * ITEMS_PER_PAGE) l.

(** [handlePageChange]: the current page afterwards *)
Definition handlePageChange {A : Type} (l : list A) (page currentPage : Z) : Z :=
  if (1 <=? page) && (page <=? totalPages l) then page else currentPage.

(** ** Notions the statements on these use *)

(** Every amount is positive, and an income entry names a member: what
    the forms accept. *)
Definition fromForms (tx : Transaction) : Prop :=
  0 < tx_amount tx /\ (tx_type tx = income -> tx_memberId tx <> None).

(** An income entry dated [lo] or later that is in neither group of the
    weekly category summary. *)
Definition uncategorised (lo : string) (tx : Transaction) : bool :=
  isIncome tx && fromDate lo tx
  && negb (includes gyeongsangbiCategories (tx_category tx))
  && negb (Str.eq (tx_category tx) "선교헌금")
  && negb (Str.eq (tx_category tx) "건축헌금").

(** The sum of the values of the breakdown over the recurring categories. *)
Definition breakdownSum (m : gmap string Z) : Z :=
  foldr (fun k s => default 0 (m !! k) + s) 0 gyeongsangbiCategories.

(** [trim] for the samples: spaces off both ends. *)
Fixpoint trimStartSpaces (s : string) : string :=
  match s with
  | String " " s' => trimStartSpaces s'
  | _ => s
  end.

Definition reverseString (s : string) : string :=
  string_of_list_ascii (rev (list_ascii_of_string s)).

Definition trimSpaces (s : string) : string :=
  reverseString (trimStartSpaces (reverseString (trimStartSpaces s))).

(** The order of the roster: by name, in the order of the collation. *)
Definition nameOrder (localeCompare : string -> string -> Z) (a b : Member) : Prop :=
  localeCompare (m_name a) (m_name b) <= 0.

(** No member of the roster has the empty name. *)
Definition allNamed (members : list Member) : Prop :=
  Forall (fun m => m_name m <> "") members.

(** [a] comes before [b] in the list by date: its date is later, or it is
    the same and the id of [a] is not the smaller one. *)
Definition newerFirst (a b : Transaction) : Prop :=
  timeOf b < timeOf a \/ (timeOf a = timeOf b /\ tx_id b <= tx_id a).

(** [a] may be shown above [b] in the list of entries: on a later date;
    or on the same date as an expense above an income, as an expense
    above an expense of a smaller id, or as an income above an income of
    a smaller category index, then of a later name, then of a smaller
    id. *)
Definition shownAbove (localeCompare : string -> string -> Z) (members : list Member)
    (a b : Transaction) : Prop :=
  timeOf b < timeOf a
  \/ (timeOf a = timeOf b /\
      match tx_type a, tx_type b with
      | expense, income => True
      | income, expense => False
      | expense, expense => tx_id b <= tx_id a
      | income, income =>
          effectiveIndex (tx_category b) < effectiveIndex (tx_category a)
          \/ (effectiveIndex (tx_category a) = effectiveIndex (tx_category b) /\
              let nameA := getMemberNameForSort members (tx_memberId a) in
              let nameB := getMemberNameForSort members (tx_memberId b) in
              localeCompare nameA nameB < 0
              \/ (localeCompare nameA nameB = 0 /\ tx_id b <= tx_id a))
      end).

(** The action leaves the password as it is. *)
Definition keepsPassword (action : AppState -> AppState) : Prop :=
  forall st, st_password (action st) = st_password st.

(** The predicate of the search by category: an entry of the given type
    and category dated within [[startDate, endDate]], both ends included. *)
Definition matchesCategory (categoryType : TxType) (categoryQuery : string)
    (startDate endDate : string) (tx : Transaction) : bool :=
  TxType_eqb (tx_type tx) categoryType && Str.eq (tx_category tx) categoryQuery
  && Str.le startDate (tx_date tx) && Str.le (tx_date tx) endDate.

(** ** Further sample data *)

Module Cases.

(** The sample state with the password 1234 stored. *)
Definition locked : AppState := setPassword "1234" Sample.state.

(** The sample roster and a member whose name is empty. *)
Definition withBlank : list Member :=
  Sample.roster ++ [ {| m_id := 3; m_name := ""; m_position := "성도" |} ].

(** A file to load. *)
Definition backup : ParsedData :=
  {| pd_members := Some [];
     pd_transactions := Some Sample.postdated;
     pd_expenseCategories := Some ["운영비"] |}.

(** Uses of the protected actions with what is typed into the modal. *)
Definition attempts : list Submission :=
  [ {| sub_action := performSave;
       sub_password := "12"; sub_confirmPassword := "12" |};
    {| sub_action := performLoad true (Some backup);
       sub_password := "1234"; sub_confirmPassword := "1235" |};
    {| sub_action := performLoad true (Some backup);
       sub_password := "4321"; sub_confirmPassword := "4321" |};
    {| sub_action := openEditMembers;
       sub_password := "0000"; sub_confirmPassword := "0000" |} ].

(** Income of every kind, dated Sunday 7 January 2024; the last
    category is not one of [categoryOrder]. *)
Definition offerings : list Transaction :=
  [ Sample.entry 30 income "2024-01-07" "십일조" 1000 (Some 1);
    Sample.entry 31 income "2024-01-07" "선교헌금" 200 (Some 1);
    Sample.entry 32 income "2024-01-07" "건축헌금" 300 (Some 2);
    Sample.entry 33 income "2024-01-07" "절기헌금" 50 (Some 2);
    Sample.entry 34 income "2024-01-07" "특별헌금" 25 (Some 1) ].

(** Around the new year: Sunday 31 December 2023 and Monday 1 January
    2024. *)
Definition newYear : list Transaction :=
  [ Sample.entry 40 income "2023-12-31" "십일조" 700 (Some 1);
    Sample.entry 41 income "2024-01-01" "십일조" 200 (Some 2) ].

(** A list of forty-five rows. *)
Definition rows : list nat := seq 0 45.

End Cases.

(** * Properties *)

(** ** The order of strings *)

Module StrFacts.

Lemma compare_refl (a : string) : String.compare a a = Eq.
Proof.
  induction a as [|c a IH]; simpl; [reflexivity|].
  unfold Ascii.compare. rewrite N.compare_refl. exact IH.
Qed.

Lemma compare_lt_trans (a b c : string) :
  String.compare a b = Lt -> String.compare b c = Lt -> String.compare a c = Lt.
Proof.
  revert b c. induction a as [|x a IH]; intros [|y b] [|z c]; simpl; try congruence.
  unfold Ascii.compare.
  destruct (N.compare_spec (N_of_ascii x) (N_of_ascii y)) as [Hxy|Hxy|Hxy];
    destruct (N.compare_spec (N_of_ascii y) (N_of_ascii z)) as [Hyz|Hyz|Hyz];
    try congruence; intros Hab Hbc.
  - rewrite Hxy, Hyz, N.compare_refl. eauto.
  - rewrite Hxy. apply N.compare_lt_iff in Hyz. rewrite Hyz. reflexivity.
  - rewrite <- Hyz. apply N.compare_lt_iff in Hxy. rewrite Hxy. reflexivity.
  - assert (H : (N_of_ascii x < N_of_ascii z)%N) by lia.
    apply N.compare_lt_iff in H. rewrite H. reflexivity.
Qed.

Lemma lt_irrefl (a : string) : Str.lt a a = false.
Proof. unfold Str.lt, String.ltb. rewrite compare_refl. reflexivity. Qed.

Lemma lt_asym (a b : string) : Str.lt a b = true -> Str.lt b a = false.
Proof.
  unfold Str.lt, String.ltb. rewrite (String.compare_antisym b a).
  destruct (String.compare a b); simpl; congruence.
Qed.

(** [a < b] and [b <= c] give [a < c]. *)
Lemma lt_le_trans (a b c : string) :
  Str.lt a b = true -> Str.le b c = true -> Str.lt a c = true.
Proof.
  unfold Str.le, Str.lt, String.ltb. intros Hab Hbc.
  destruct (String.compare c b) eqn:Hcb; try discriminate.
  - apply String.compare_eq_iff in Hcb. subst c. exact Hab.
  - assert (Hbc' : String.compare b c = Lt).
    { rewrite String.compare_antisym, Hcb. reflexivity. }
    rewrite (compare_lt_trans a b c); auto.
    destruct (String.compare a b); congruence.
Qed.

Lemma eq_true (a b : string) : Str.eq a b = true <-> a = b.
Proof. apply String.eqb_eq. Qed.

(** The three outcomes of comparing a date with today are exclusive. *)
Lemma trichotomy (a b : string) :
  (Str.lt a b = true /\ Str.eq a b = false /\ Str.lt b a = false) \/
  (Str.lt a b = false /\ Str.eq a b = true /\ Str.lt b a = false) \/
  (Str.lt a b = false /\ Str.eq a b = false /\ Str.lt b a = true).
Proof.
  unfold Str.lt, Str.eq, String.ltb.
  rewrite (String.compare_antisym b a).
  destruct (String.compare a b) eqn:H; simpl.
  - right; left. apply String.compare_eq_iff in H. subst.
    rewrite String.eqb_refl. auto.
  - left. repeat split. apply String.eqb_neq. intros ->.
    rewrite compare_refl in H. discriminate.
  - right; right. repeat split. apply String.eqb_neq. intros ->.
    rewrite compare_refl in H. discriminate.
Qed.

End StrFacts.

(** ** The calendar *)

Module DateFacts.
Import Date.

(** *** Years *)

Lemma DayFromYear_succ (y : Z) : DayFromYear (y + 1) = DayFromYear y + DaysInYear y.
Proof.
  unfold DayFromYear, DaysInYear.
  destruct (Z.eqb_spec (y mod 4) 0); cbn [negb];
    [destruct (Z.eqb_spec (y mod 100) 0); cbn [negb];
     [destruct (Z.eqb_spec (y mod 400) 0); cbn [negb]|]|];
    Z.div_mod_to_equations; lia.
Qed.

Lemma InLeapYear_range (y : Z) : 0 <= InLeapYear y <= 1.
Proof. unfold InLeapYear. destruct (DaysInYear y =? 366); lia. Qed.

Lemma DaysInYear_leap (y : Z) : DaysInYear y = 365 + InLeapYear y.
Proof.
  unfold InLeapYear, DaysInYear.
  repeat match goal with
  | |- context [if negb ?b then _ else _] => destruct b; cbn [negb]
  end; reflexivity.
Qed.

(** [n] years have between [365 * n] and [366 * n] days. *)
Lemma DayFromYear_growth (y n : Z) :
  0 <= n -> 365 * n <= DayFromYear (y + n) - DayFromYear y <= 366 * n.
Proof.
  intros Hn. pattern n. apply natlike_ind; [| |exact Hn].
  - rewrite Z.add_0_r. lia.
  - intros x Hx IH. replace (y + Z.succ x) with ((y + x) + 1) by lia.
    rewrite DayFromYear_succ, DaysInYear_leap.
    pose proof (InLeapYear_range (y + x)). lia.
Qed.

Lemma DayFromYear_mono (y1 y2 : Z) : y1 <= y2 -> DayFromYear y1 <= DayFromYear y2.
Proof.
  intros H. pose proof (DayFromYear_growth y1 (y2 - y1)) as G.
  replace (y1 + (y2 - y1)) with y2 in G by lia. lia.
Qed.

(** The search finds the year of [d] from any start at or above it, with
    fuel for the distance. *)
Lemma yearSearch_correct (fuel : nat) :
  forall y0 y d : Z,
    DayFromYear y <= d < DayFromYear (y + 1) ->
    y <= y0 -> y0 - y < Z.of_nat fuel ->
    yearSearch fuel y0 d = y.
Proof.
  induction fuel as [|fuel IH]; intros y0 y d Hd Hle Hf; [lia|].
  simpl. destruct (Z.leb_spec (DayFromYear y0) d) as [H|H].
  - destruct (Z.eq_dec y0 y); [assumption|].
    pose proof (DayFromYear_mono (y + 1) y0). lia.
  - apply IH; try lia.
    destruct (Z.eq_dec y0 y); [subst; lia|lia].
Qed.

(** [YearFromDay d] is the year whose days include [d]. *)
Lemma YearFromDay_unique (y d : Z) :
  DayFromYear y <= d < DayFromYear (y + 1) -> YearFromDay d = y.
Proof.
  intros Hd. unfold YearFromDay.
  assert (H1970 : DayFromYear 1970 = 0) by reflexivity.
  destruct (Z.leb_spec 0 d) as [H0|H0].
  - assert (Hy : 1970 <= y).
    { destruct (Z.le_gt_cases 1970 y); [assumption|].
      pose proof (DayFromYear_mono (y + 1) 1970). lia. }
    pose proof (DayFromYear_growth 1970 (y - 1970)) as G1.
    pose proof (DayFromYear_growth 1970 (y + 1 - 1970)) as G2.
    replace (1970 + (y - 1970)) with y in G1 by lia.
    replace (1970 + (y + 1 - 1970)) with (y + 1) in G2 by lia.
    rewrite H1970 in *.
    apply yearSearch_correct; [assumption| |].
    + Z.div_mod_to_equations. lia.
    + rewrite Z.abs_eq by lia. rewrite Z2Nat.id by (Z.div_mod_to_equations; lia).
      Z.div_mod_to_equations. lia.
  - assert (Hy : y < 1970).
    { destruct (Z.lt_ge_cases y 1970); [assumption|].
      pose proof (DayFromYear_mono 1970 y). lia. }
    pose proof (DayFromYear_growth y (1970 - y)) as G1.
    pose proof (DayFromYear_growth (y + 1) (1970 - (y + 1))) as G2.
    replace (y + (1970 - y)) with 1970 in G1 by lia.
    replace (y + 1 + (1970 - (y + 1))) with 1970 in G2 by lia.
    rewrite H1970 in *.
    apply yearSearch_correct; [assumption| |].
    + Z.div_mod_to_equations. lia.
    + rewrite Z.abs_neq by lia. rewrite Z2Nat.id by (Z.div_mod_to_equations; lia).
      Z.div_mod_to_equations. lia.
Qed.

(** Every day lies in a year. *)
Lemma year_exists (d : Z) : exists y, DayFromYear y <= d < DayFromYear (y + 1).
Proof.
  assert (H : forall (n : nat) (lo : Z),
             DayFromYear lo <= d < DayFromYear (lo + Z.of_nat n) ->
             exists y, DayFromYear y <= d < DayFromYear (y + 1)).
  { induction n as [|n IH]; intros lo Hlo.
    - rewrite Z.add_0_r in Hlo. lia.
    - destruct (Z.lt_ge_cases d (DayFromYear (lo + Z.of_nat n))) as [Hc|Hc].
      + apply (IH lo). lia.
      + exists (lo + Z.of_nat n). split; [lia|].
        replace (lo + Z.of_nat n + 1) with (lo + Z.of_nat (S n)) by lia. lia. }
  assert (H1970 : DayFromYear 1970 = 0) by reflexivity.
  apply (H (Z.to_nat (2 * Z.abs d + 2)) (1970 - Z.abs d - 1)).
  pose proof (DayFromYear_growth (1970 - Z.abs d - 1) (Z.abs d + 1)) as G1.
  replace (1970 - Z.abs d - 1 + (Z.abs d + 1)) with 1970 in G1 by lia.
  pose proof (DayFromYear_growth 1970 (Z.abs d + 1)) as G2.
  rewrite Z2Nat.id by lia.
  replace (1970 - Z.abs d - 1 + (2 * Z.abs d + 2)) with (1970 + (Z.abs d + 1)) by lia.
  lia.
Qed.

(** [YearFromDay d] is the largest year that starts on or before [d]. *)
Lemma YearFromDay_spec (d : Z) :
  DayFromYear (YearFromDay d) <= d < DayFromYear (YearFromDay d + 1).
Proof.
  destruct (year_exists d) as [y Hy].
  rewrite (YearFromDay_unique y d Hy). exact Hy.
Qed.

Lemma YearFromDay_mono (d1 d2 : Z) : d1 <= d2 -> YearFromDay d1 <= YearFromDay d2.
Proof.
  intros H. pose proof (YearFromDay_spec d1) as H1. pose proof (YearFromDay_spec d2) as H2.
  destruct (Z.le_gt_cases (YearFromDay d1) (YearFromDay d2)); [assumption|].
  pose proof (DayFromYear_mono (YearFromDay d2 + 1) (YearFromDay d1)). lia.
Qed.

Lemma Day_of_day (d : Z) : Day (d * msPerDay) = d.
Proof. unfold Day. apply Z.div_mul. unfold msPerDay. lia. Qed.

(** *** Months and days *)

Ltac month_cases m :=
  assert (m = 0 \/ m = 1 \/ m = 2 \/ m = 3 \/ m = 4 \/ m = 5 \/ m = 6 \/
          m = 7 \/ m = 8 \/ m = 9 \/ m = 10 \/ m = 11) as Hmc by lia;
  destruct Hmc as [->|[->|[->|[->|[->|[->|[->|[->|[->|[->|[->| ->]]]]]]]]]]].

Ltac split_ltb :=
  repeat match goal with
  | |- context [Z.ltb ?x ?y] => destruct (Z.ltb_spec x y)
  end.

Lemma monthOfDayWithinYear_range (leap d : Z) :
  0 <= monthOfDayWithinYear leap d <= 11.
Proof.
  unfold monthOfDayWithinYear.
  repeat match goal with
  | |- context [Z.ltb ?x ?y] => destruct (Z.ltb x y)
  end; lia.
Qed.

(** [MakeDay] for a month within the year. *)
Lemma MakeDay_eq (y m dd : Z) :
  0 <= m <= 11 ->
  MakeDay y m dd = DayFromYear y + monthStart (InLeapYear y) m + dd - 1.
Proof.
  intros Hm. unfold MakeDay.
  rewrite Z.div_small, Z.mod_small by lia. rewrite Z.add_0_r. reflexivity.
Qed.

(** Going back [n] days from the date of [t] within [MakeDay]. *)
Lemma MakeDay_back (t n : Z) :
  MakeDay (YearFromTime t) (MonthFromTime t) (DateFromTime t - n) = Day t - n.
Proof.
  unfold MakeDay, DateFromTime, DayWithinYear.
  pose proof (monthOfDayWithinYear_range
                (InLeapYear (YearFromTime t)) (DayWithinYear t)) as Hm.
  fold (MonthFromTime t) in Hm.
  rewrite (Z.div_small (MonthFromTime t) 12) by lia.
  rewrite (Z.mod_small (MonthFromTime t) 12) by lia.
  rewrite Z.add_0_r. lia.
Qed.

(** The fields of a day are a valid date, and [MakeDay] gives the day back. *)
Lemma fields_of_day (d : Z) :
  let t := d * msPerDay in
  0 <= MonthFromTime t <= 11
  /\ 1 <= DateFromTime t <= DaysInMonth (YearFromTime t) (MonthFromTime t)
  /\ MakeDay (YearFromTime t) (MonthFromTime t) (DateFromTime t) = d.
Proof.
  intros t.
  pose proof (MakeDay_back t 0) as Hb. rewrite !Z.sub_0_r in Hb.
  unfold t in Hb at 4. rewrite Day_of_day in Hb.
  split; [apply monthOfDayWithinYear_range|]. split; [|exact Hb].
  unfold DateFromTime, MonthFromTime, DayWithinYear, YearFromTime, DaysInMonth.
  unfold t. rewrite Day_of_day.
  pose proof (YearFromDay_spec d) as Hy.
  rewrite DayFromYear_succ, DaysInYear_leap in Hy.
  pose proof (InLeapYear_range (YearFromDay d)) as Hl.
  set (leap := InLeapYear (YearFromDay d)) in *.
  set (w := d - DayFromYear (YearFromDay d)) in *.
  assert (Hw : 0 <= w < 365 + leap) by (unfold w; lia).
  clearbody w leap. clear Hy Hb t.
  unfold monthOfDayWithinYear.
  split_ltb; simpl; lia.
Qed.

(** The fields of the day [MakeDay] makes of a valid date are that date. *)
Lemma day_of_fields (y m dd : Z) :
  0 <= m <= 11 -> 1 <= dd <= DaysInMonth y m ->
  let t := MakeDay y m dd * msPerDay in
  YearFromTime t = y /\ MonthFromTime t = m /\ DateFromTime t = dd.
Proof.
  intros Hm Hd t.
  assert (HM : MakeDay y m dd = DayFromYear y + monthStart (InLeapYear y) m + dd - 1).
  { unfold MakeDay. rewrite Z.div_small, Z.mod_small by lia. rewrite Z.add_0_r. reflexivity. }
  pose proof (InLeapYear_range y) as Hl.
  assert (Hw : 0 <= monthStart (InLeapYear y) m + dd - 1 < 365 + InLeapYear y).
  { unfold DaysInMonth in Hd. month_cases m; simpl in *; lia. }
  assert (Hy : YearFromTime t = y).
  { unfold YearFromTime, t. rewrite Day_of_day. apply YearFromDay_unique.
    rewrite DayFromYear_succ, DaysInYear_leap. lia. }
  assert (Hdw : DayWithinYear t = monthStart (InLeapYear y) m + dd - 1).
  { unfold DayWithinYear. rewrite Hy. unfold t. rewrite Day_of_day. lia. }
  assert (Hmo : MonthFromTime t = m).
  { unfold MonthFromTime. rewrite Hy, Hdw. unfold monthOfDayWithinYear, DaysInMonth in *.
    month_cases m; simpl in *; split_ltb; lia. }
  split; [exact Hy|]. split; [exact Hmo|].
  unfold DateFromTime. rewrite Hy, Hmo, Hdw. lia.
Qed.

(** A valid date of year [y] is a day of year [y]. *)
Lemma MakeDay_within_year (y m dd : Z) :
  0 <= m <= 11 -> 1 <= dd <= DaysInMonth y m ->
  DayFromYear y <= MakeDay y m dd < DayFromYear (y + 1).
Proof.
  intros Hm Hd. rewrite MakeDay_eq by exact Hm.
  rewrite DayFromYear_succ, DaysInYear_leap.
  pose proof (InLeapYear_range y). unfold DaysInMonth in Hd.
  month_cases m; simpl in *; lia.
Qed.

(** Within a year, the days of an earlier month come first. *)
Lemma MakeDay_month_mono (y m1 d1 m2 d2 : Z) :
  0 <= m1 < m2 -> m2 <= 11 ->
  1 <= d1 <= DaysInMonth y m1 -> 1 <= d2 ->
  MakeDay y m1 d1 < MakeDay y m2 d2.
Proof.
  intros Hm Hm2 Hd1 Hd2. rewrite !MakeDay_eq by lia.
  pose proof (InLeapYear_range y). unfold DaysInMonth in Hd1.
  month_cases m1; month_cases m2; simpl in *; lia.
Qed.

(** *** [setDate] and the start of the week *)

(** [d.setDate(d.getDate() - n)] moves [d] back by [n] days. *)
Lemma setDate_back (LocalTZA : Z -> bool -> Z) (t n : Z) :
  setDate LocalTZA t (getDate LocalTZA t - n)
  = UTC LocalTZA (LocalTime LocalTZA t - n * msPerDay).
Proof.
  unfold setDate, getDate, MakeDate. rewrite MakeDay_back. f_equal.
  generalize (LocalTime LocalTZA t). intros lt.
  unfold Day, TimeWithinDay.
  pose proof (Z.div_mod lt msPerDay) as H.
  unfold msPerDay in *. lia.
Qed.

(** A date-only string is read as midnight UTC. *)
Lemma parse_midnight (s : string) (t : Z) :
  parse s = Some t -> t = Day t * msPerDay.
Proof.
  unfold parse. destruct (parseFields s) as [[[y m] d]|]; [|discriminate].
  intros [= <-]. unfold MakeDate, Day.
  rewrite Z.add_0_r, Z.div_mul by (unfold msPerDay; lia). reflexivity.
Qed.

(** East of Greenwich by less than a day, the local date at midnight UTC
    is the UTC date. *)
Lemma Day_offset (d o : Z) : 0 <= o < msPerDay -> Day (d * msPerDay + o) = d.
Proof.
  intros Hz. unfold Day. rewrite Z.add_comm, Z.div_add by (unfold msPerDay; lia).
  rewrite Z.div_small by exact Hz. lia.
Qed.

Lemma Day_LocalTime (LocalTZA : Z -> bool -> Z) (t : Z) :
  0 <= LocalTZA t true < msPerDay -> t = Day t * msPerDay ->
  Day (LocalTime LocalTZA t) = Day t.
Proof.
  intros Hz Ht. unfold LocalTime. rewrite Ht at 1. apply Day_offset. exact Hz.
Qed.

Lemma WeekDay_range (t : Z) : 0 <= WeekDay t <= 6.
Proof. unfold WeekDay. pose proof (Z.mod_pos_bound (Day t + 4) 7). lia. Qed.

(** Going back by the weekday index reaches a Sunday. *)
Lemma WeekDay_weekStart (t : Z) :
  WeekDay ((Day t - WeekDay t) * msPerDay) = 0.
Proof.
  unfold WeekDay at 1. unfold Day at 1.
  rewrite Z.div_mul by (unfold msPerDay; lia).
  unfold WeekDay.
  replace (Day t - (Day t + 4) mod 7 + 4)
    with ((Day t + 4) - (Day t + 4) mod 7) by lia.
  rewrite Zminus_mod_idemp_r, Z.sub_diag. reflexivity.
Qed.

(** *** Date strings *)

Lemma digitChar_code (n : Z) :
  N_of_ascii (digitChar n) = Z.to_N (48 + n mod 10).
Proof.
  unfold digitChar. apply N_ascii_embedding.
  pose proof (Z.mod_pos_bound n 10). lia.
Qed.

Lemma digit_digitChar (n : Z) : digit (digitChar n) = Some (n mod 10).
Proof.
  unfold digit. rewrite digitChar_code.
  pose proof (Z.mod_pos_bound n 10) as H.
  rewrite Z2N.id by lia.
  destruct (Z.leb_spec 48 (48 + n mod 10)); [|lia].
  destruct (Z.leb_spec (48 + n mod 10) 57); [|lia].
  simpl. f_equal. lia.
Qed.

Lemma digit_code (c : ascii) (a : Z) :
  digit c = Some a -> 0 <= a <= 9 /\ Z.of_N (N_of_ascii c) = 48 + a.
Proof.
  unfold digit.
  destruct (Z.leb_spec 48 (Z.of_N (N_of_ascii c))); [|discriminate].
  destruct (Z.leb_spec (Z.of_N (N_of_ascii c)) 57); [|discriminate].
  simpl. intros [= <-]. lia.
Qed.

(** The fields of a well-formed date string. *)
Lemma parseFields_inv (s : string) (y m dd : Z) :
  parseFields s = Some (y, m, dd) ->
  0 <= y <= 9999 /\ 1 <= m <= 12 /\ 1 <= dd <= DaysInMonth y (m - 1).
Proof.
  unfold parseFields.
  destruct s as [|c1 [|c2 [|c3 [|c4 [|c5 [|c6 [|c7 [|c8 [|c9 [|c10 [|]]]]]]]]]]];
    try discriminate.
  destruct (Ascii.eqb c5 "-" && Ascii.eqb c8 "-"); [|discriminate].
  destruct (digit c1) as [a1|] eqn:E1; [|discriminate].
  destruct (digit c2) as [a2|] eqn:E2; [|discriminate].
  destruct (digit c3) as [a3|] eqn:E3; [|discriminate].
  destruct (digit c4) as [a4|] eqn:E4; [|discriminate].
  destruct (digit c6) as [a6|] eqn:E6; [|discriminate].
  destruct (digit c7) as [a7|] eqn:E7; [|discriminate].
  destruct (digit c9) as [a9|] eqn:E9; [|discriminate].
  destruct (digit c10) as [a10|] eqn:E10; [|discriminate].
  cbn [mbind option_bind].
  apply digit_code in E1, E2, E3, E4, E6, E7, E9, E10.
  match goal with
  | |- context [if ?b then _ else _] => destruct b eqn:Hb; [|discriminate]
  end.
  rewrite !andb_true_iff, !Z.leb_le in Hb.
  intros [= <- <- <-]. lia.
Qed.

Lemma parse_fields_time (s : string) (t : Z) :
  parse s = Some t ->
  exists y m dd,
    0 <= y <= 9999 /\ 1 <= m <= 12 /\ 1 <= dd <= DaysInMonth y (m - 1)
    /\ t = MakeDay y (m - 1) dd * msPerDay.
Proof.
  unfold parse. destruct (parseFields s) as [[[y m] dd]|] eqn:P; [|discriminate].
  intros [= <-]. apply parseFields_inv in P.
  exists y, m, dd. unfold MakeDate. rewrite Z.add_0_r. tauto.
Qed.

(** The year of a date string is the year it spells. *)
Lemma parse_year (s : string) (t : Z) :
  parse s = Some t -> 0 <= YearFromTime t <= 9999.
Proof.
  intros H. destruct (parse_fields_time s t H) as (y & m & dd & Hy & Hm & Hd & ->).
  destruct (day_of_fields y (m - 1) dd ltac:(lia) Hd) as (-> & _). exact Hy.
Qed.

Lemma digits_of_2 (n : Z) :
  0 <= n <= 99 -> 10 * ((n / 10) mod 10) + n mod 10 = n.
Proof. intros H. Z.div_mod_to_equations. lia. Qed.

Lemma digits_of_4 (n : Z) :
  0 <= n <= 9999 ->
  1000 * ((n / 1000) mod 10) + 100 * ((n / 100) mod 10)
  + 10 * ((n / 10) mod 10) + n mod 10 = n.
Proof. intros H. Z.div_mod_to_equations. lia. Qed.

(** Reading back the date that [toISOString] writes. *)
Lemma parseFields_digits (y m dd : Z) :
  0 <= y <= 9999 -> 1 <= m <= 12 -> 1 <= dd <= DaysInMonth y (m - 1) ->
  parseFields (digits4 y +:+ "-" +:+ digits2 m +:+ "-" +:+ digits2 dd)
  = Some (y, m, dd).
Proof.
  intros Hy Hm Hd.
  assert (Hdd : dd <= 31).
  { unfold DaysInMonth in Hd. pose proof (InLeapYear_range y).
    repeat match goal with
    | H : context [match ?x with _ => _ end] |- _ => destruct x
    end; lia. }
  unfold digits4, digits3, digits2. cbv [String.append]. unfold parseFields.
  change (Ascii.eqb "-" "-") with true. cbn [andb].
  rewrite !digit_digitChar. cbn [mbind option_bind].
  rewrite (digits_of_4 y), (digits_of_2 m), (digits_of_2 dd) by lia.
  destruct (Z.leb_spec 1 m); [|lia]. destruct (Z.leb_spec m 12); [|lia].
  destruct (Z.leb_spec 1 dd); [|lia].
  destruct (Z.leb_spec dd (DaysInMonth y (m - 1))); [|lia].
  reflexivity.
Qed.

Lemma isoDateOfDay_digits (d : Z) :
  0 <= YearFromDay d <= 9999 ->
  isoDateOfDay d
  = digits4 (YearFromDay d) +:+ "-" +:+
    digits2 (MonthFromTime (d * msPerDay) + 1) +:+ "-" +:+
    digits2 (DateFromTime (d * msPerDay)).
Proof.
  intros Hy. unfold isoDateOfDay, isoYear, YearFromTime. rewrite Day_of_day.
  destruct (Z.leb_spec 0 (YearFromDay d)); [|lia].
  destruct (Z.leb_spec (YearFromDay d) 9999); [|lia].
  reflexivity.
Qed.

(** [Date.parse] reads the date part of [toISOString] back. *)
Lemma parse_isoDateOfDay (d : Z) :
  0 <= YearFromDay d <= 9999 -> parse (isoDateOfDay d) = Some (d * msPerDay).
Proof.
  intros Hy. rewrite isoDateOfDay_digits by exact Hy.
  destruct (fields_of_day d) as (Hm & Hd & HM).
  unfold YearFromTime in *. rewrite Day_of_day in *.
  unfold parse. rewrite parseFields_digits.
  - replace (MonthFromTime (d * msPerDay) + 1 - 1) with (MonthFromTime (d * msPerDay)) by lia.
    rewrite HM. unfold MakeDate. rewrite Z.add_0_r. reflexivity.
  - exact Hy.
  - lia.
  - replace (MonthFromTime (d * msPerDay) + 1 - 1) with (MonthFromTime (d * msPerDay)) by lia.
    exact Hd.
Qed.

(** [toISOString().slice(0, 10)] is the date part. *)
Lemma toISOString_date (t : Z) :
  0 <= YearFromTime t <= 9999 ->
  String.substring 0 10 (toISOString t) = isoDateOfDay (Day t).
Proof.
  intros Hy. unfold toISOString. unfold YearFromTime in Hy.
  rewrite isoDateOfDay_digits by exact Hy.
  reflexivity.
Qed.

(** The date part depends on the day only, whatever the year. *)
Lemma toISOString_day (t : Z) :
  String.substring 0 10 (toISOString t)
  = String.substring 0 10 (toISOString (Day t * msPerDay)).
Proof.
  unfold toISOString. rewrite Day_of_day.
  generalize (TimeWithinDay t) (TimeWithinDay (Day t * msPerDay)). intros ms ms'.
  unfold isoDateOfDay, isoYear.
  destruct ((0 <=? YearFromTime (Day t * msPerDay))
            && (YearFromTime (Day t * msPerDay) <=? 9999)); [reflexivity|].
  destruct (YearFromTime (Day t * msPerDay) <? 0); reflexivity.
Qed.

Lemma checkYears_sound (n : nat) :
  forall y0 y, checkYears n y0 = true -> y0 <= y < y0 + Z.of_nat n ->
    pretty y = digits4 y.
Proof.
  induction n as [|n IH]; intros y0 y Hc Hy; [lia|].
  simpl in Hc. apply andb_true_iff in Hc. destruct Hc as [H1 H2].
  destruct (Z.eq_dec y y0) as [->|Hne].
  - apply String.eqb_eq. exact H1.
  - apply (IH (y0 + 1)); [exact H2|lia].
Qed.

(** A year of four digits is written by [Number::toString] as by
    [toISOString]. *)
Lemma pretty_year (y : Z) : 1000 <= y <= 9999 -> pretty y = digits4 y.
Proof.
  intros Hy.
  apply (checkYears_sound (Z.to_nat 9000) 1000); [vm_compute; reflexivity|lia].
Qed.

(** *** The order of date strings *)

Lemma digit_compare (c c' : ascii) (a a' : Z) :
  digit c = Some a -> digit c' = Some a' -> Ascii.compare c c' = (a ?= a').
Proof.
  intros H H'. apply digit_code in H, H'. destruct H as [_ H], H' as [_ H'].
  unfold Ascii.compare. rewrite <- N2Z.inj_compare, H, H'.
  apply Z.add_compare_mono_l.
Qed.

(** Two date strings compare as their fields do ... *)
Lemma parseFields_compare (s1 s2 : string) (f1 f2 : Z * Z * Z) :
  parseFields s1 = Some f1 -> parseFields s2 = Some f2 ->
  String.compare s1 s2 = fieldsCompare f1 f2.
Proof.
  unfold parseFields.
  destruct s1 as [|c1 [|c2 [|c3 [|c4 [|c5 [|c6 [|c7 [|c8 [|c9 [|c10 [|]]]]]]]]]]];
    try discriminate.
  destruct s2 as [|e1 [|e2 [|e3 [|e4 [|e5 [|e6 [|e7 [|e8 [|e9 [|e10 [|]]]]]]]]]]];
    try discriminate.
  destruct (Ascii.eqb_spec c5 "-"); [subst c5|discriminate].
  destruct (Ascii.eqb_spec c8 "-"); [subst c8|discriminate].
  destruct (Ascii.eqb_spec e5 "-"); [subst e5|discriminate].
  destruct (Ascii.eqb_spec e8 "-"); [subst e8|discriminate].
  cbn [andb].
  destruct (digit c1) as [a1|] eqn:C1; [|discriminate].
  destruct (digit c2) as [a2|] eqn:C2; [|discriminate].
  destruct (digit c3) as [a3|] eqn:C3; [|discriminate].
  destruct (digit c4) as [a4|] eqn:C4; [|discriminate].
  destruct (digit c6) as [a6|] eqn:C6; [|discriminate].
  destruct (digit c7) as [a7|] eqn:C7; [|discriminate].
  destruct (digit c9) as [a9|] eqn:C9; [|discriminate].
  destruct (digit c10) as [a10|] eqn:C10; [|discriminate].
  destruct (digit e1) as [b1|] eqn:E1; [|discriminate].
  destruct (digit e2) as [b2|] eqn:E2; [|discriminate].
  destruct (digit e3) as [b3|] eqn:E3; [|discriminate].
  destruct (digit e4) as [b4|] eqn:E4; [|discriminate].
  destruct (digit e6) as [b6|] eqn:E6; [|discriminate].
  destruct (digit e7) as [b7|] eqn:E7; [|discriminate].
  destruct (digit e9) as [b9|] eqn:E9; [|discriminate].
  destruct (digit e10) as [b10|] eqn:E10; [|discriminate].
  cbn [mbind option_bind].
  repeat match goal with
  | |- context [if ?b then _ else _] => destruct b; [|discriminate]
  end.
  intros [= <-] [= <-].
  cbn [String.compare].
  rewrite (digit_compare _ _ _ _ C1 E1), (digit_compare _ _ _ _ C2 E2),
    (digit_compare _ _ _ _ C3 E3), (digit_compare _ _ _ _ C4 E4),
    (digit_compare _ _ _ _ C6 E6), (digit_compare _ _ _ _ C7 E7),
    (digit_compare _ _ _ _ C9 E9), (digit_compare _ _ _ _ C10 E10).
  change (Ascii.compare "-" "-") with Eq. cbn iota.
  apply digit_code in C1, C2, C3, C4, C6, C7, C9, C10, E1, E2, E3, E4, E6, E7, E9, E10.
  unfold fieldsCompare.
  repeat match goal with
  | |- context [Z.compare ?a ?b] => destruct (Z.compare_spec a b)
  end; try reflexivity; lia.
Qed.

(** ... and the fields of two valid dates compare as their days do. *)
Lemma fieldsCompare_MakeDay (y1 m1 d1 y2 m2 d2 : Z) :
  1 <= m1 <= 12 -> 1 <= d1 <= DaysInMonth y1 (m1 - 1) ->
  1 <= m2 <= 12 -> 1 <= d2 <= DaysInMonth y2 (m2 - 1) ->
  fieldsCompare (y1, m1, d1) (y2, m2, d2)
  = (MakeDay y1 (m1 - 1) d1 ?= MakeDay y2 (m2 - 1) d2).
Proof.
  intros Hm1 Hd1 Hm2 Hd2. unfold fieldsCompare.
  pose proof (MakeDay_within_year y1 (m1 - 1) d1 ltac:(lia) Hd1) as W1.
  pose proof (MakeDay_within_year y2 (m2 - 1) d2 ltac:(lia) Hd2) as W2.
  symmetry.
  destruct (Z.compare_spec y1 y2) as [Hy|Hy|Hy].
  - subst y2.
    destruct (Z.compare_spec m1 m2) as [Hm|Hm|Hm].
    + subst m2. rewrite !MakeDay_eq by lia.
      destruct (Z.compare_spec d1 d2); [apply Z.compare_eq_iff|apply Z.compare_lt_iff|apply Z.compare_gt_iff]; lia.
    + apply Z.compare_lt_iff. apply MakeDay_month_mono; lia.
    + apply Z.compare_gt_iff. apply MakeDay_month_mono; lia.
  - apply Z.compare_lt_iff.
    pose proof (DayFromYear_mono (y1 + 1) y2). lia.
  - apply Z.compare_gt_iff.
    pose proof (DayFromYear_mono (y2 + 1) y1). lia.
Qed.

(** On date strings the order of the code units is the order of time. *)
Lemma parse_compare (s1 s2 : string) (t1 t2 : Z) :
  parse s1 = Some t1 -> parse s2 = Some t2 ->
  String.compare s1 s2 = (t1 ?= t2).
Proof.
  unfold parse.
  destruct (parseFields s1) as [[[y1 m1] d1]|] eqn:P1; [|discriminate].
  destruct (parseFields s2) as [[[y2 m2] d2]|] eqn:P2; [|discriminate].
  intros [= <-] [= <-].
  rewrite (parseFields_compare _ _ _ _ P1 P2).
  apply parseFields_inv in P1, P2.
  rewrite fieldsCompare_MakeDay by lia.
  unfold MakeDate. rewrite !Z.add_0_r.
  apply Zmult_compare_compat_r. unfold msPerDay. lia.
Qed.

Lemma compare_days (s1 s2 : string) (d1 d2 : Z) :
  parse s1 = Some (d1 * msPerDay) -> parse s2 = Some (d2 * msPerDay) ->
  String.compare s1 s2 = (d1 ?= d2).
Proof.
  intros H1 H2. rewrite (parse_compare s1 s2 _ _ H1 H2).
  symmetry. apply Zmult_compare_compat_r. unfold msPerDay. lia.
Qed.

(** The relational operators on two date strings decide the order of
    their days. *)
Lemma lt_days (s1 s2 : string) (d1 d2 : Z) :
  parse s1 = Some (d1 * msPerDay) -> parse s2 = Some (d2 * msPerDay) ->
  Str.lt s1 s2 = (d1 <? d2).
Proof.
  intros H1 H2. unfold Str.lt, String.ltb, Z.ltb.
  rewrite (compare_days s1 s2 d1 d2 H1 H2). reflexivity.
Qed.

Lemma le_days (s1 s2 : string) (d1 d2 : Z) :
  parse s1 = Some (d1 * msPerDay) -> parse s2 = Some (d2 * msPerDay) ->
  Str.le s1 s2 = (d1 <=? d2).
Proof.
  intros H1 H2. unfold Str.le, String.ltb, Z.leb.
  rewrite (compare_days s2 s1 d2 d1 H2 H1), (Z.compare_antisym d1 d2).
  destruct (d1 ?= d2); reflexivity.
Qed.

Lemma eq_days (s1 s2 : string) (d1 d2 : Z) :
  parse s1 = Some (d1 * msPerDay) -> parse s2 = Some (d2 * msPerDay) ->
  Str.eq s1 s2 = (d1 =? d2).
Proof.
  intros H1 H2. unfold Str.eq.
  pose proof (compare_days s1 s2 d1 d2 H1 H2) as Hc.
  destruct (String.eqb_spec s1 s2) as [->|Hne]; destruct (Z.eqb_spec d1 d2) as [->|Hd];
    try reflexivity.
  - rewrite StrFacts.compare_refl in Hc. symmetry in Hc.
    apply Z.compare_eq_iff in Hc. contradiction.
  - rewrite Z.compare_refl in Hc. apply String.compare_eq_iff in Hc. contradiction.
Qed.

End DateFacts.

(** ** Entry dates as days *)

Lemma validDate_parse (tx : Transaction) :
  validDate tx = true ->
  Date.parse (tx_date tx) = Some (dayOf tx * Date.msPerDay).
Proof.
  unfold validDate, dayOf, timeOf.
  destruct (Date.parse (tx_date tx)) as [t|] eqn:P; [|discriminate].
  intros _. f_equal. apply DateFacts.parse_midnight in P. exact P.
Qed.

(** On a list of entries with valid dates, a filter may read the dates as
    strings or as days. *)
Lemma filter_valid (p q : Transaction -> bool) (l : list Transaction) :
  Forall (fun tx => validDate tx = true) l ->
  (forall tx, validDate tx = true -> p tx = q tx) ->
  List.filter p l = List.filter q l.
Proof.
  intros Hv H. apply List.filter_ext_in. intros tx Htx. apply H.
  rewrite List.Forall_forall in Hv. auto.
Qed.

Lemma fromDate_day (lo : string) (d : Z) (tx : Transaction) :
  Date.parse lo = Some (d * Date.msPerDay) -> validDate tx = true ->
  fromDate lo tx = (d <=? dayOf tx).
Proof.
  intros Hlo Hv. unfold fromDate.
  apply DateFacts.le_days; [exact Hlo|apply validDate_parse; exact Hv].
Qed.

(** The strings the window loop compares with are the dates of the week
    start and of January 1. *)
Lemma weekStartOf_day (LocalTZA : Z -> bool -> Z) (today : Z) (todayStr : string) :
  steadyWeek LocalTZA today ->
  Date.parse todayStr = Some today ->
  weekStartOf LocalTZA today = isoDate (Date.Day today - Date.WeekDay today).
Proof.
  intros [Hz Hs] Hp.
  pose proof (DateFacts.parse_midnight _ _ Hp) as Hmid.
  pose proof (DateFacts.Day_LocalTime LocalTZA today Hz Hmid) as Hday.
  unfold weekStartOf, isoDate. rewrite DateFacts.setDate_back.
  rewrite DateFacts.toISOString_day. do 3 f_equal.
  unfold Date.getDay, Date.WeekDay. rewrite Hday.
  fold (Date.WeekDay today). unfold Date.LocalTime, Date.UTC.
  assert (Etl : today + LocalTZA today true - Date.WeekDay today * Date.msPerDay
                = (Date.Day today - Date.WeekDay today) * Date.msPerDay
                  + LocalTZA today true)
    by (unfold Date.msPerDay in *; lia).
  rewrite Etl.
  etransitivity; [|exact (DateFacts.Day_offset _ _ Hs)].
  f_equal. lia.
Qed.

Lemma weekStartOf_parse (LocalTZA : Z -> bool -> Z) (today : Z) (todayStr : string) :
  steadyWeek LocalTZA today ->
  Date.parse todayStr = Some today -> 1000 <= Date.YearFromTime today ->
  weekStartOf LocalTZA today = isoDate (Date.Day today - Date.WeekDay today)
  /\ Date.parse (weekStartOf LocalTZA today)
     = Some ((Date.Day today - Date.WeekDay today) * Date.msPerDay).
Proof.
  intros Hz Hp Hy.
  pose proof (DateFacts.parse_midnight _ _ Hp) as Hmid.
  pose proof (DateFacts.parse_year _ _ Hp) as Hy2.
  pose proof (DateFacts.WeekDay_range today) as Hw.
  pose proof (weekStartOf_day LocalTZA today todayStr Hz Hp) as Hws.
  split; [exact Hws|]. rewrite Hws. unfold isoDate.
  set (W := Date.Day today - Date.WeekDay today) in *.
  assert (HyW : 0 <= Date.YearFromDay W <= 9999).
  { unfold Date.YearFromTime in *. split.
    - assert (H999 : Date.YearFromDay (Date.DayFromYear 999) = 999)
        by (apply DateFacts.YearFromDay_unique; vm_compute; split; [discriminate|reflexivity]).
      pose proof (DateFacts.YearFromDay_spec (Date.Day today)) as Hs.
      pose proof (DateFacts.DayFromYear_mono 1000 (Date.YearFromDay (Date.Day today)) Hy) as Hm.
      assert (H1000 : Date.DayFromYear 1000 = Date.DayFromYear 999 + 365) by reflexivity.
      pose proof (DateFacts.YearFromDay_mono (Date.DayFromYear 999) W) as Hmono.
      unfold W in *. lia.
    - pose proof (DateFacts.YearFromDay_mono W (Date.Day today)) as Hmono.
      unfold W in *. lia. }
  rewrite DateFacts.toISOString_date
    by (unfold Date.YearFromTime; rewrite DateFacts.Day_of_day; exact HyW).
  rewrite DateFacts.Day_of_day. apply DateFacts.parse_isoDateOfDay. exact HyW.
Qed.

Lemma yearStartOf_parse (LocalTZA : Z -> bool -> Z) (today : Z) (todayStr : string) :
  0 <= LocalTZA today true < Date.msPerDay ->
  Date.parse todayStr = Some today -> 1000 <= Date.YearFromTime today ->
  Date.parse (yearStartOf LocalTZA today)
  = Some (Date.MakeDay (Date.YearFromTime today) 0 1 * Date.msPerDay).
Proof.
  intros Hz Hp Hy.
  pose proof (DateFacts.parse_midnight _ _ Hp) as Hmid.
  pose proof (DateFacts.Day_LocalTime LocalTZA today Hz Hmid) as Hday.
  pose proof (DateFacts.parse_year _ _ Hp) as Hy2.
  unfold yearStartOf, Date.getFullYear. unfold Date.YearFromTime at 1.
  rewrite Hday. fold (Date.YearFromTime today).
  rewrite DateFacts.pretty_year by lia.
  change "-01-01" with ("-" +:+ Date.digits2 1 +:+ "-" +:+ Date.digits2 1).
  unfold Date.parse. rewrite DateFacts.parseFields_digits.
  - unfold Date.MakeDate. rewrite Z.add_0_r. reflexivity.
  - exact Hy2.
  - lia.
  - simpl. lia.
Qed.

(** ** The sort *)

Section SortFacts.
Context {A : Type} (comparefn : A -> A -> Number).

Abbreviation le := (fun x y => SortCompare comparefn x y <= 0).

Lemma insert_Permutation (x : A) (l : list A) :
  Permutation (insert comparefn x l) (x :: l).
Proof.
  induction l as [|y l IH]; simpl; [reflexivity|].
  destruct (SortCompare comparefn x y <=? 0); [reflexivity|].
  rewrite IH. apply perm_swap.
Qed.

Lemma sort_Permutation (l : list A) : Permutation (sort comparefn l) l.
Proof.
  induction l as [|x l IH]; simpl; [reflexivity|].
  rewrite insert_Permutation. constructor. exact IH.
Qed.

(** Sortedness for any relation [R] that the comparator decides on the
    elements of a domain [D]: [R] may be the comparator's own order or a
    coarser one, such as the order of the dates alone. *)
Section Sorted.
Variable D : A -> Prop.
Variable R : A -> A -> Prop.
Hypothesis R_trans : forall x y z, D x -> D y -> D z -> R x y -> R y z -> R x z.
Hypothesis R_le : forall x y, D x -> D y -> SortCompare comparefn x y <= 0 -> R x y.
Hypothesis R_gt : forall x y, D x -> D y -> SortCompare comparefn x y > 0 -> R y x.

Lemma insert_StronglySorted (x : A) (l : list A) :
  D x -> Forall D l -> StronglySorted R l ->
  StronglySorted R (insert comparefn x l).
Proof.
  intros Dx. induction l as [|y l IH]; intros Dl Hs; simpl.
  - repeat constructor.
  - inversion Dl as [|? ? Dy Dl']; subst.
    inversion Hs as [|? ? Hs' Hy]; subst.
    destruct (Z.leb_spec (SortCompare comparefn x y) 0) as [Hle|Hgt].
    + constructor; [exact Hs|]. constructor; [auto|].
      rewrite List.Forall_forall in *. intros z Hz.
      apply (R_trans x y z); auto.
    + constructor; [auto|].
      assert (Hp : Permutation (insert comparefn x l) (x :: l))
        by apply insert_Permutation.
      rewrite List.Forall_forall. intros z Hz.
      apply (Permutation_in _ Hp) in Hz. destruct Hz as [<-|Hz].
      * apply R_gt; auto. lia.
      * rewrite List.Forall_forall in Hy. auto.
Qed.

Lemma sort_StronglySorted (l : list A) :
  Forall D l -> StronglySorted R (sort comparefn l).
Proof.
  induction l as [|x l IH]; intros Dl; simpl; [constructor|].
  inversion Dl; subst. apply insert_StronglySorted; auto.
  rewrite List.Forall_forall in *. intros z Hz.
  apply (Permutation_in _ (sort_Permutation l)) in Hz. auto.
Qed.
End Sorted.

(** A consistent comparator on a domain [D]. *)
Section Consistent.
Variable D : A -> Prop.
Hypothesis le_trans : forall x y z, D x -> D y -> D z -> le x y -> le y z -> le x z.
Hypothesis le_total : forall x y, D x -> D y -> le x y \/ le y x.

Lemma sort_sorted (l : list A) :
  Forall D l -> StronglySorted le (sort comparefn l).
Proof.
  apply sort_StronglySorted with (D := D); auto.
  intros x y Dx Dy H. destruct (le_total x y Dx Dy); [lia|assumption].
Qed.

Lemma insert_head (x : A) (l : list A) :
  Forall (fun y => SortCompare comparefn x y <= 0) l -> insert comparefn x l = x :: l.
Proof.
  destruct l as [|y l]; simpl; [reflexivity|].
  intros H. inversion H; subst.
  destruct (Z.leb_spec (SortCompare comparefn x y) 0); [reflexivity|lia].
Qed.

(** The stable sort commutes with filtering. *)
Lemma insert_filter_keep (p : A -> bool) (x : A) (l : list A) :
  p x = true -> D x -> Forall D l -> StronglySorted le l ->
  List.filter p (insert comparefn x l) = insert comparefn x (List.filter p l).
Proof.
  intros Hp Dx. induction l as [|y l IH]; intros Dl Hs; simpl.
  - rewrite Hp. reflexivity.
  - inversion Dl as [|? ? Dy Dl']; subst.
    inversion Hs as [|? ? Hs' Hy]; subst.
    destruct (Z.leb_spec (SortCompare comparefn x y) 0) as [Hle|Hgt].
    + simpl. rewrite Hp. destruct (p y) eqn:Hpy.
      * simpl. destruct (Z.leb_spec (SortCompare comparefn x y) 0); [reflexivity|lia].
      * rewrite insert_head; [reflexivity|].
        rewrite List.Forall_forall in *. intros z Hz.
        apply List.filter_In in Hz. destruct Hz as [Hz _].
        apply (le_trans x y z); auto.
    + simpl. destruct (p y) eqn:Hpy.
      * simpl. destruct (Z.leb_spec (SortCompare comparefn x y) 0); [lia|].
        f_equal. auto.
      * auto.
Qed.

Lemma insert_filter_drop (p : A -> bool) (x : A) (l : list A) :
  p x = false ->
  List.filter p (insert comparefn x l) = List.filter p l.
Proof.
  intros Hp. induction l as [|y l IH]; simpl.
  - rewrite Hp. reflexivity.
  - destruct (SortCompare comparefn x y <=? 0); simpl.
    + rewrite Hp. reflexivity.
    + rewrite IH. reflexivity.
Qed.

Lemma sort_filter (p : A -> bool) (l : list A) :
  Forall D l ->
  List.filter p (sort comparefn l) = sort comparefn (List.filter p l).
Proof.
  induction l as [|x l IH]; intros Dl; simpl; [reflexivity|].
  inversion Dl as [|? ? Dx Dl']; subst.
  destruct (p x) eqn:Hp; simpl.
  - rewrite <- IH by assumption.
    apply insert_filter_keep; auto using sort_sorted.
    rewrite List.Forall_forall in *. intros z Hz.
    apply (Permutation_in _ (sort_Permutation l)) in Hz. auto.
  - rewrite insert_filter_drop by assumption. auto.
Qed.

(** When ties are impossible the sorted arrangement is unique: the
    result does not depend on the order of the input, nor on the sort
    algorithm. *)
Hypothesis le_antisym : forall x y, D x -> D y -> le x y -> le y x -> x = y.

Lemma sorted_unique (l1 l2 : list A) :
  Forall D l1 -> Permutation l1 l2 ->
  StronglySorted le l1 -> StronglySorted le l2 -> l1 = l2.
Proof.
  revert l2. induction l1 as [|x l1 IH]; intros l2 Dl Hp H1 H2.
  - apply Permutation_nil in Hp. congruence.
  - destruct l2 as [|y l2].
    { apply Permutation_sym, Permutation_nil in Hp. discriminate. }
    inversion Dl as [|? ? Dx Dl1]; subst.
    inversion H1 as [|? ? H1' Hx]; subst.
    inversion H2 as [|? ? H2' Hy]; subst.
    assert (Dy : D y).
    { rewrite List.Forall_forall in Dl. apply Dl.
      apply (Permutation_in _ (Permutation_sym Hp)). left; reflexivity. }
    assert (Hxy : x = y).
    { assert (Hin1 : In y (x :: l1))
        by (apply (Permutation_in _ (Permutation_sym Hp)); left; reflexivity).
      assert (Hin2 : In x (y :: l2))
        by (apply (Permutation_in _ Hp); left; reflexivity).
      destruct Hin1 as [->|Hin1]; [reflexivity|].
      destruct Hin2 as [->|Hin2]; [reflexivity|].
      rewrite List.Forall_forall in Hx, Hy.
      apply le_antisym; auto. }
    subst y. f_equal. apply IH; auto.
    apply Permutation_cons_inv in Hp. exact Hp.
Qed.

(** Any sorted arrangement of the input is the one the model computes. *)
Lemma sort_is_the_sorted_permutation (l l' : list A) :
  Forall D l -> Permutation l' l -> StronglySorted le l' ->
  l' = sort comparefn l.
Proof.
  intros Dl Hp Hs.
  apply sorted_unique; auto using sort_sorted.
  - rewrite List.Forall_forall in *. intros z Hz.
    apply Dl, (Permutation_in _ Hp), Hz.
  - rewrite Hp. symmetry. apply sort_Permutation.
Qed.

Lemma sort_Permutation_invariant (l1 l2 : list A) :
  Forall D l1 -> Permutation l1 l2 ->
  sort comparefn l1 = sort comparefn l2.
Proof.
  intros Dl Hp.
  assert (Dl2 : Forall D l2).
  { rewrite List.Forall_forall in *. intros z Hz.
    apply Dl, (Permutation_in _ (Permutation_sym Hp)), Hz. }
  apply sorted_unique; auto using sort_sorted.
  - rewrite List.Forall_forall in *. intros z Hz.
    apply Dl, (Permutation_in _ (sort_Permutation l1)), Hz.
  - rewrite sort_Permutation, Hp. symmetry. apply sort_Permutation.
Qed.
End Consistent.
End SortFacts.

(** ** The running balance *)

Section FeedFacts.
Variable localeCompare : string -> string -> Z.
Variable members : list Member.

Lemma signedSum_Permutation (l1 l2 : list Transaction) :
  Permutation l1 l2 -> signedSum l1 = signedSum l2.
Proof. induction 1; simpl; lia. Qed.

Lemma attachBalance_tx (rb : Z) (l : list Transaction) :
  map twb_tx (attachBalance rb l) = l.
Proof.
  revert rb. induction l as [|x l IH]; intros rb; simpl; [reflexivity|].
  f_equal. apply IH.
Qed.

Lemma attachBalance_lookup (l : list Transaction) :
  forall (rb : Z) (i : nat) (e : TransactionWithBalance),
    attachBalance rb l !! i = Some e ->
    balance e = rb + signedSum (take (S i) l).
Proof.
  induction l as [|x l IH]; intros rb i e H; [discriminate|].
  destruct i as [|i]; simpl in H.
  - inversion H; subst. simpl. lia.
  - apply IH in H. rewrite H. simpl. lia.
Qed.

Lemma attachBalance_last (l : list Transaction) :
  forall (rb : Z) (e : TransactionWithBalance),
    last (attachBalance rb l) = Some e -> balance e = rb + signedSum l.
Proof.
  induction l as [|x l IH]; intros rb e H; [discriminate|].
  destruct l as [|y l].
  - simpl in H. inversion H; subst. simpl. lia.
  - change (last (attachBalance (rb + signedAmount x) (y :: l)) = Some e) in H.
    apply IH in H. rewrite H. simpl. lia.
Qed.

Lemma rev_withBalance (txs : list Transaction) :
  rev (withBalance localeCompare members txs)
  = attachBalance 0 (sort (compareTx localeCompare members) txs).
Proof. unfold withBalance. apply rev_involutive. Qed.

Lemma withBalance_tx (txs : list Transaction) :
  map twb_tx (rev (withBalance localeCompare members txs))
  = sort (compareTx localeCompare members) txs.
Proof. rewrite rev_withBalance. apply attachBalance_tx. Qed.

(** The comparator agrees with the order of the dates. *)
Lemma compareTx_le_date (a b : Transaction) :
  validDate a = true -> validDate b = true ->
  SortCompare (compareTx localeCompare members) a b <= 0 -> dateLe a b.
Proof.
  unfold validDate, dateLe, timeOf, SortCompare, compareTx, getTime.
  destruct (Date.parse (tx_date a)) as [ta|]; [|discriminate].
  destruct (Date.parse (tx_date b)) as [tb|]; [|discriminate].
  intros _ _. destruct (Z.eqb_spec (ta - tb) 0); simpl; lia.
Qed.

Lemma compareTx_gt_date (a b : Transaction) :
  validDate a = true -> validDate b = true ->
  SortCompare (compareTx localeCompare members) a b > 0 -> dateLe b a.
Proof.
  unfold validDate, dateLe, timeOf, SortCompare, compareTx, getTime.
  destruct (Date.parse (tx_date a)) as [ta|]; [|discriminate].
  destruct (Date.parse (tx_date b)) as [tb|]; [|discriminate].
  intros _ _. destruct (Z.eqb_spec (ta - tb) 0); simpl; lia.
Qed.

Lemma sort_chronological (txs : list Transaction) :
  Forall (fun tx => validDate tx = true) txs ->
  StronglySorted dateLe (sort (compareTx localeCompare members) txs).
Proof.
  apply sort_StronglySorted.
  - unfold dateLe. intros; lia.
  - intros x y Hx Hy. apply compareTx_le_date; assumption.
  - intros x y Hx Hy. apply compareTx_gt_date; assumption.
Qed.
End FeedFacts.

(** ** The comparator is a consistent comparator *)

Section ComparatorFacts.
Variable localeCompare : string -> string -> Z.
Variable members : list Member.
Hypothesis collation : ConsistentComparator localeCompare.

Abbreviation cmp := (SortCompare (compareTx localeCompare members)).

Lemma collate_flip (x y : string) :
  (localeCompare x y < 0 <-> localeCompare y x > 0) /\
  (localeCompare x y = 0 <-> localeCompare y x = 0).
Proof.
  pose proof (cc_antisym _ collation x y) as H.
  destruct (localeCompare x y), (localeCompare y x); simpl in H; lia.
Qed.

Ltac unfold_cmp :=
  unfold SortCompare, compareTx, incomeTieBreak, byId, getTime, validDate in *.

Ltac split_tests :=
  cbn [TxType_eqb negb];
  repeat match goal with
  | |- context [effectiveIndex ?c] => generalize (effectiveIndex c); intro
  | |- context [Z.eqb ?x ?y] => destruct (Z.eqb_spec x y); cbn [negb]
  end.

(** The comparator separates any two entries with distinct ids. *)
Lemma compareTx_zero_id (a b : Transaction) :
  validDate a = true -> validDate b = true ->
  cmp a b = 0 -> tx_id a = tx_id b.
Proof.
  unfold_cmp.
  destruct (Date.parse (tx_date a)) as [ta|]; [|discriminate].
  destruct (Date.parse (tx_date b)) as [tb|]; [|discriminate].
  intros _ _.
  destruct (tx_type a), (tx_type b); split_tests; lia.
Qed.

Lemma compareTx_total (a b : Transaction) :
  validDate a = true -> validDate b = true ->
  cmp a b <= 0 \/ cmp b a <= 0.
Proof.
  unfold_cmp.
  destruct (Date.parse (tx_date a)) as [ta|]; [|discriminate].
  destruct (Date.parse (tx_date b)) as [tb|]; [|discriminate].
  intros _ _.
  pose proof (collate_flip
    (getMemberNameForSort members (tx_memberId a))
    (getMemberNameForSort members (tx_memberId b))).
  destruct (tx_type a), (tx_type b); split_tests; lia.
Qed.

Lemma compareTx_antisym (a b : Transaction) :
  validDate a = true -> validDate b = true ->
  cmp a b <= 0 -> cmp b a <= 0 -> tx_id a = tx_id b.
Proof.
  unfold_cmp.
  destruct (Date.parse (tx_date a)) as [ta|]; [|discriminate].
  destruct (Date.parse (tx_date b)) as [tb|]; [|discriminate].
  intros _ _.
  pose proof (collate_flip
    (getMemberNameForSort members (tx_memberId a))
    (getMemberNameForSort members (tx_memberId b))).
  destruct (tx_type a), (tx_type b); split_tests; lia.
Qed.

Lemma compareTx_trans (a b c : Transaction) :
  validDate a = true -> validDate b = true -> validDate c = true ->
  cmp a b <= 0 -> cmp b c <= 0 -> cmp a c <= 0.
Proof.
  unfold_cmp.
  destruct (Date.parse (tx_date a)) as [ta|]; [|discriminate].
  destruct (Date.parse (tx_date b)) as [tb|]; [|discriminate].
  destruct (Date.parse (tx_date c)) as [tc|]; [|discriminate].
  intros _ _ _.
  set (na := getMemberNameForSort members (tx_memberId a)).
  set (nb := getMemberNameForSort members (tx_memberId b)).
  set (nc := getMemberNameForSort members (tx_memberId c)).
  pose proof (collate_flip na nb). pose proof (collate_flip nb nc).
  pose proof (collate_flip na nc).
  pose proof (cc_trans _ collation nc nb na).
  pose proof (cc_trans _ collation na nc nb).
  pose proof (cc_trans _ collation nb na nc).
  destruct (tx_type a), (tx_type b), (tx_type c); split_tests;
    solve [clear H H0 H1 H2 H3 H4; lia | lia].
Qed.
End ComparatorFacts.

(** ** The display feed *)

(** C10: the display feed is a permutation of the input entries, each
    carried over with all its fields and only a balance added: it has the
    length of the input, and dropping the balances gives back the input
    entries up to their order. *)
Theorem C10_feed_is_permutation_of_input
    (localeCompare : string -> string -> Z) (members : list Member)
    (transactions : list Transaction) :
  Permutation (map twb_tx (withBalance localeCompare members transactions))
              transactions
  /\ length (withBalance localeCompare members transactions) = length transactions.
Proof.
  assert (H : Permutation
                (map twb_tx (withBalance localeCompare members transactions))
                transactions).
  { unfold withBalance. rewrite map_rev, attachBalance_tx.
    rewrite <- Permutation_rev. apply sort_Permutation. }
  split; [exact H|].
  apply Permutation_length in H. rewrite length_map in H. exact H.
Qed.

(** C2: read in chronological order (the feed reversed), the entries are
    the input entries, sorted by ascending date when the dates are valid;
    the balance of each entry is the signed sum of the entries up to and
    including it, and the balance of the chronologically last entry (the
    head of the feed) is the signed sum of the whole list. *)
Theorem C2_balance_is_prefix_sum
    (localeCompare : string -> string -> Z) (members : list Member)
    (transactions : list Transaction) :
  let feed := withBalance localeCompare members transactions in
  let chronological := rev feed in
  Permutation (map twb_tx chronological) transactions
  /\ (Forall (fun tx => validDate tx = true) transactions ->
      StronglySorted dateLe (map twb_tx chronological))
  /\ (forall (i : nat) (e : TransactionWithBalance),
        chronological !! i = Some e ->
        balance e = signedSum (take (S i) (map twb_tx chronological)))
  /\ (forall e : TransactionWithBalance,
        head feed = Some e -> balance e = signedSum transactions).
Proof.
  intros feed chronological.
  assert (Hc : chronological
               = attachBalance 0 (sort (compareTx localeCompare members) transactions))
    by apply rev_withBalance.
  assert (Htx : map twb_tx chronological
                = sort (compareTx localeCompare members) transactions)
    by apply withBalance_tx.
  repeat split.
  - rewrite Htx. apply sort_Permutation.
  - intros Hvalid. rewrite Htx. apply sort_chronological. exact Hvalid.
  - intros i e Hi. rewrite Htx. rewrite Hc in Hi.
    apply attachBalance_lookup in Hi. rewrite Hi. lia.
  - intros e He.
    assert (Hl : last chronological = Some e).
    { unfold chronological. destruct feed as [|e' feed']; [discriminate|].
      simpl in *. rewrite last_snoc. exact He. }
    rewrite Hc in Hl. apply attachBalance_last in Hl. rewrite Hl.
    rewrite (signedSum_Permutation _ transactions); [lia|apply sort_Permutation].
Qed.

(** ** Determinism of the feed *)

Lemma NoDup_map_inj_in {A B : Type} (f : A -> B) (l : list A) (a b : A) :
  List.NoDup (map f l) -> In a l -> In b l -> f a = f b -> a = b.
Proof.
  induction l as [|x l IH]; simpl; intros Hnd Ha Hb Hf; [contradiction|].
  apply List.NoDup_cons_iff in Hnd. destruct Hnd as [Hx Hnd].
  destruct Ha as [->|Ha], Hb as [->|Hb]; auto.
  - exfalso. apply Hx. rewrite Hf. apply in_map. exact Hb.
  - exfalso. apply Hx. rewrite <- Hf. apply in_map. exact Ha.
Qed.

(** C7: with a consistent collation, valid dates and unique ids, the
    comparator is a total order on the entries of the list (total,
    transitive, and never 0 on two distinct entries), so the feed, entries
    and balances, is the same for every arrangement of the same input; two
    calls on the same input give the same feed. *)
Theorem C7_feed_deterministic
    (localeCompare : string -> string -> Z) (members : list Member)
    (transactions : list Transaction) :
  ConsistentComparator localeCompare ->
  Forall (fun tx => validDate tx = true) transactions ->
  List.NoDup (map tx_id transactions) ->
  let cmp := SortCompare (compareTx localeCompare members) in
  (forall a b, In a transactions -> In b transactions -> cmp a b = 0 -> a = b)
  /\ (forall a b, In a transactions -> In b transactions ->
        cmp a b <= 0 \/ cmp b a <= 0)
  /\ (forall a b c, In a transactions -> In b transactions -> In c transactions ->
        cmp a b <= 0 -> cmp b c <= 0 -> cmp a c <= 0)
  /\ (forall transactions', Permutation transactions transactions' ->
        withBalance localeCompare members transactions'
        = withBalance localeCompare members transactions).
Proof.
  intros Hc Hv Hnd cmp.
  rewrite List.Forall_forall in Hv.
  repeat split.
  - intros a b Ha Hb H0.
    apply (NoDup_map_inj_in tx_id transactions); auto.
    apply (compareTx_zero_id localeCompare members); auto.
  - intros a b Ha Hb. apply compareTx_total; auto.
  - intros a b c Ha Hb Hc'. apply compareTx_trans; auto.
  - intros l' Hp. unfold withBalance. do 2 f_equal. symmetry.
    apply sort_Permutation_invariant with (D := fun tx => In tx transactions).
    + intros a b c Ha Hb Hc'. apply compareTx_trans; auto.
    + intros a b Ha Hb. apply compareTx_total; auto.
    + intros a b Ha Hb H1 H2.
      apply (NoDup_map_inj_in tx_id transactions); auto.
      apply (compareTx_antisym localeCompare members); auto.
    + apply List.Forall_forall. auto.
    + exact Hp.
Qed.

(** ** Entries of amount zero *)

Lemma attachBalance_filter (keep : Transaction -> bool) (l : list Transaction) :
  forall rb : Z,
    (forall tx, In tx l -> keep tx = false -> tx_amount tx = 0) ->
    List.filter (fun e => keep (twb_tx e)) (attachBalance rb l)
    = attachBalance rb (List.filter keep l).
Proof.
  induction l as [|x l IH]; intros rb H; simpl; [reflexivity|].
  destruct (keep x) eqn:Hk; simpl.
  - f_equal. apply IH. intros tx Htx. apply H. right; exact Htx.
  - assert (Hz : signedAmount x = 0).
    { unfold signedAmount. rewrite (H x (or_introl eq_refl) Hk).
      destruct (tx_type x); reflexivity. }
    rewrite Hz, Z.add_0_r. apply IH. intros tx Htx. apply H. right; exact Htx.
Qed.

Lemma filter_rev' {A : Type} (p : A -> bool) (l : list A) :
  List.filter p (rev l) = rev (List.filter p l).
Proof.
  induction l as [|x l IH]; simpl; [reflexivity|].
  rewrite List.filter_app, IH. simpl. destruct (p x); simpl.
  - reflexivity.
  - rewrite app_nil_r. reflexivity.
Qed.

(** C3 as amended: the running balance adds every entry's signed amount
    as it is, so only an entry of amount 0 contributes nothing; with a
    consistent collation and valid dates, the entries that remain when any
    set of entries of amount 0 is left out of the feed carry the balances
    of the feed computed without those entries. *)
Theorem C3_zero_amount_is_noop
    (localeCompare : string -> string -> Z) (members : list Member)
    (transactions : list Transaction) (keep : Transaction -> bool) :
  ConsistentComparator localeCompare ->
  Forall (fun tx => validDate tx = true) transactions ->
  (forall tx, In tx transactions -> keep tx = false -> tx_amount tx = 0) ->
  List.filter (fun e => keep (twb_tx e))
              (withBalance localeCompare members transactions)
  = withBalance localeCompare members (List.filter keep transactions).
Proof.
  intros Hc Hv Hz. unfold withBalance.
  rewrite filter_rev'. f_equal.
  rewrite attachBalance_filter.
  - f_equal.
    apply sort_filter with (D := fun tx => validDate tx = true); auto.
    + intros a b c. apply compareTx_trans; auto.
    + intros a b. apply compareTx_total; auto.
  - intros tx Htx. apply Hz.
    apply (Permutation_in _ (sort_Permutation (compareTx localeCompare members) transactions)).
    exact Htx.
Qed.

(** ** The name tie-break *)

Lemma findName_absent (members : list Member) (id : Z) (fallback : string) :
  (forall m, In m members -> m_id m <> id) ->
  findName members id fallback = fallback.
Proof.
  intros H. unfold findName.
  destruct (List.find (fun m => m_id m =? id) members) as [m|] eqn:Hf; [|reflexivity].
  apply List.find_some in Hf. destruct Hf as [Hin Heq].
  apply Z.eqb_eq in Heq. exfalso. exact (H m Hin Heq).
Qed.

Lemma compareTx_same_date_income
    (localeCompare : string -> string -> Z) (members : list Member)
    (a b : Transaction) :
  validDate a = true -> tx_date a = tx_date b ->
  tx_type a = income -> tx_type b = income ->
  tx_category a = tx_category b ->
  compareTx localeCompare members a b
  = let nameCompare :=
      localeCompare (getMemberNameForSort members (tx_memberId b))
                    (getMemberNameForSort members (tx_memberId a)) in
    if nameCompare =? 0 then Num (tx_id a - tx_id b) else Num nameCompare.
Proof.
  unfold validDate, compareTx, incomeTieBreak, byId, getTime.
  intros Hv Hd Ha Hb Hc. rewrite <- Hd, Ha, Hb, <- Hc.
  destruct (Date.parse (tx_date a)) as [t|]; [|discriminate].
  rewrite Z.sub_diag. cbn [Z.eqb negb TxType_eqb].
  rewrite (Z.eqb_refl (effectiveIndex (tx_category a))). cbn [negb].
  destruct (localeCompare (getMemberNameForSort members (tx_memberId b))
                          (getMemberNameForSort members (tx_memberId a)) =? 0);
    reflexivity.
Qed.

(** C4 as amended: for two income entries of one valid date and one
    category the comparator is [localeCompare(nameB, nameA)], the names
    compared descending, and the difference of the ids when that is 0; the
    key of an entry is the name of the first member with its [memberId]
    when that name is not empty, the sentinel ["무명"] when the entry has no
    [memberId], and the different sentinel ["미지정"] when its [memberId]
    is the id of no member, or when the first member with that id has the
    empty name. *)
Theorem C4_name_key_and_sentinels
    (localeCompare : string -> string -> Z) (members : list Member)
    (a b : Transaction) :
  validDate a = true -> tx_date a = tx_date b ->
  tx_type a = income -> tx_type b = income ->
  tx_category a = tx_category b ->
  let nameA := getMemberNameForSort members (tx_memberId a) in
  let nameB := getMemberNameForSort members (tx_memberId b) in
  compareTx localeCompare members a b
    = (if localeCompare nameB nameA =? 0 then Num (tx_id a - tx_id b)
       else Num (localeCompare nameB nameA))
  /\ getMemberNameForSort members None = "무명"
  /\ (forall i, (forall m, In m members -> m_id m <> i) ->
        getMemberNameForSort members (Some i) = "미지정")
  /\ (forall i m, List.find (fun m => m_id m =? i) members = Some m ->
        m_name m <> "" -> getMemberNameForSort members (Some i) = m_name m)
  /\ (forall i m, List.find (fun m => m_id m =? i) members = Some m ->
        m_name m = "" -> getMemberNameForSort members (Some i) = "미지정")
  /\ "무명" <> "미지정".
Proof.
  intros Hv Hd Ha Hb Hc nameA nameB.
  split; [apply compareTx_same_date_income; assumption|].
  split; [reflexivity|]. split; [|split; [|split]].
  - intros i Hi. simpl. apply findName_absent. exact Hi.
  - intros i m Hf Hn. simpl. unfold findName. rewrite Hf.
    destruct (Str.eq (m_name m) "") eqn:E; [|reflexivity].
    apply StrFacts.eq_true in E. contradiction.
  - intros i m Hf Hn. simpl. unfold findName. rewrite Hf, Hn. reflexivity.
  - discriminate.
Qed.

(** ** The today-split *)

Lemma balanceStep_fold (todayStr : string) (l : list Transaction) (p c : Z) :
  fold_left (balanceStep todayStr) l (p, c)
  = (p + signedSum (List.filter (fun tx => Str.lt (tx_date tx) todayStr) l),
     c + signedSum (List.filter (fun tx => Str.eq (tx_date tx) todayStr) l)).
Proof.
  revert p c. induction l as [|tx l IH]; intros p c; simpl.
  - f_equal; lia.
  - unfold balanceStep at 2. simpl.
    destruct (StrFacts.trichotomy (tx_date tx) todayStr)
      as [(-> & -> & _)|[(-> & -> & _)|(-> & -> & _)]];
      rewrite IH; simpl; f_equal; lia.
Qed.

Lemma filter_filter_same {A : Type} (p q : A -> bool) (l : list A) :
  (forall x, q x = true -> p x = true) ->
  List.filter q (List.filter p l) = List.filter q l.
Proof.
  intros H. induction l as [|x l IH]; simpl; [reflexivity|].
  destruct (p x) eqn:Hp; simpl.
  - destruct (q x); [f_equal|]; exact IH.
  - destruct (q x) eqn:Hq; [|exact IH].
    apply H in Hq. congruence.
Qed.

Lemma signedSum_by_type (p : Transaction -> bool) (l : list Transaction) :
  signedSum (List.filter p l)
  = amountSum (List.filter (fun tx => isIncome tx && p tx) l)
    - amountSum (List.filter (fun tx => isExpense tx && p tx) l).
Proof.
  unfold signedSum, amountSum.
  induction l as [|x l IH]; [reflexivity|].
  cbn [List.filter].
  change (isIncome x) with (TxType_eqb (tx_type x) income).
  change (isExpense x) with (TxType_eqb (tx_type x) expense).
  destruct (p x); rewrite ?andb_true_r, ?andb_false_r; [|exact IH].
  cbn [foldr]. rewrite IH.
  change (signedAmount x)
    with (match tx_type x with income => tx_amount x | expense => - tx_amount x end).
  destruct (tx_type x); cbn [TxType_eqb foldr]; lia.
Qed.

(** C5: [previousBalance] is the signed sum of the entries dated strictly
    before today, [todaysChange] the signed sum of the entries dated
    today, [todaysBalance] their sum; entries dated after today count in
    none of the three: the split is the one of the list without them.  The
    loop compares date strings; for entries with valid dates that is the
    comparison of the days.  A signed sum is the sum of the amounts of the
    income entries less the sum of the amounts of the expense entries. *)
Theorem C5_today_split (transactions : list Transaction) (todayStr : string) :
  let r := balanceData transactions todayStr in
  previousBalance r
    = signedSum (List.filter (fun tx => Str.lt (tx_date tx) todayStr) transactions)
  /\ todaysChange r
    = signedSum (List.filter (fun tx => Str.eq (tx_date tx) todayStr) transactions)
  /\ todaysBalance r = previousBalance r + todaysChange r
  /\ balanceData
       (List.filter (fun tx => negb (Str.lt todayStr (tx_date tx))) transactions)
       todayStr = r
  /\ (forall today : Z,
        Date.parse todayStr = Some today ->
        Forall (fun tx => validDate tx = true) transactions ->
        previousBalance r
          = signedSum (List.filter (fun tx => dayOf tx <? Date.Day today) transactions)
        /\ todaysChange r
          = signedSum (List.filter (fun tx => dayOf tx =? Date.Day today) transactions))
  /\ previousBalance r
     = amountSum (List.filter (fun tx => isIncome tx && Str.lt (tx_date tx) todayStr)
                              transactions)
       - amountSum (List.filter (fun tx => isExpense tx && Str.lt (tx_date tx) todayStr)
                                transactions)
  /\ todaysChange r
     = amountSum (List.filter (fun tx => isIncome tx && Str.eq (tx_date tx) todayStr)
                              transactions)
       - amountSum (List.filter (fun tx => isExpense tx && Str.eq (tx_date tx) todayStr)
                                transactions).
Proof.
  unfold balanceData. rewrite !balanceStep_fold. simpl.
  split; [lia|]. split; [lia|]. split; [lia|].
  split; [|split; [|split; rewrite Z.add_0_l;
    [exact (signedSum_by_type (fun tx => Str.lt (tx_date tx) todayStr) transactions)
    |exact (signedSum_by_type (fun tx => Str.eq (tx_date tx) todayStr) transactions)]]].
  - rewrite !filter_filter_same; [reflexivity| |].
    + intros tx H.
      destruct (StrFacts.trichotomy (tx_date tx) todayStr)
        as [(_ & _ & ->)|[(_ & _ & ->)|(_ & E & _)]]; auto. congruence.
    + intros tx H. rewrite (StrFacts.lt_asym _ _ H). reflexivity.
  - intros today Hp Hv.
    pose proof (DateFacts.parse_midnight _ _ Hp) as Hmid. rewrite Hmid in Hp.
    split; rewrite Z.add_0_l; f_equal; apply filter_valid; try exact Hv;
      intros tx Htx; apply validDate_parse in Htx.
    + apply DateFacts.lt_days; assumption.
    + apply DateFacts.eq_days; assumption.
Qed.

(** ** The window totals *)

Lemma ge_fromDate (lo : string) (tx : Transaction) :
  Str.ge (tx_date tx) lo = fromDate lo tx.
Proof. reflexivity. Qed.

Lemma windowStep_totals (ys ws : string) (l : list Transaction) :
  forall acc : WindowAcc,
    let r := fold_left (windowStep ys ws) l acc in
    acc_yearlyIncome r = acc_yearlyIncome acc
      + amountSum (List.filter (fun tx => isIncome tx && fromDate ys tx) l)
    /\ acc_yearlyExpense r = acc_yearlyExpense acc
      + amountSum (List.filter (fun tx => isExpense tx && fromDate ys tx) l)
    /\ acc_weeklyIncome r = acc_weeklyIncome acc
      + amountSum (List.filter (fun tx => isIncome tx && fromDate ws tx) l)
    /\ acc_weeklyExpense r = acc_weeklyExpense acc
      + amountSum (List.filter (fun tx => isExpense tx && fromDate ws tx) l).
Proof.
  induction l as [|tx l IH]; intros acc; simpl.
  - lia.
  - destruct (IH (windowStep ys ws acc tx)) as (H1 & H2 & H3 & H4).
    rewrite H1, H2, H3, H4. clear.
    unfold windowStep, weeklyStep, yearlyStep, isIncome, isExpense.
    rewrite !ge_fromDate.
    destruct (tx_type tx), (fromDate ys tx), (fromDate ws tx); cbn [TxType_eqb andb];
      repeat match goal with
      | |- context [if ?b then _ else _] => destruct b
      end; simpl; lia.
Qed.

Lemma windowStep_dom (ys ws : string) (l : list Transaction) :
  forall acc : WindowAcc,
    dom (acc_breakdown (fold_left (windowStep ys ws) l acc))
    = dom (acc_breakdown acc).
Proof.
  induction l as [|tx l IH]; intros acc; simpl; [reflexivity|].
  rewrite IH. unfold windowStep, weeklyStep, yearlyStep.
  repeat match goal with
  | |- context [if ?b then _ else _] => destruct b
  | |- context [match tx_type tx with _ => _ end] => destruct (tx_type tx)
  end; simpl; rewrite ?dom_alter_L; reflexivity.
Qed.

Lemma includes_In (l : list string) (x : string) :
  includes l x = true <-> In x l.
Proof.
  unfold includes. rewrite existsb_exists. split.
  - intros (y & Hy & E). apply StrFacts.eq_true in E. subst. exact Hy.
  - intros H. exists x. split; [exact H|]. apply StrFacts.eq_true. reflexivity.
Qed.

Lemma windowStep_breakdown (ys ws k : string) (l : list Transaction) :
  In k gyeongsangbiCategories ->
  forall acc : WindowAcc,
    acc_breakdown (fold_left (windowStep ys ws) l acc) !! k
    = (fun v => v + amountSum (List.filter (countsFor k ws) l))
        <$> (acc_breakdown acc !! k).
Proof.
  intros Hk. induction l as [|tx l IH]; intros acc; simpl.
  - destruct (acc_breakdown acc !! k); simpl; f_equal; lia.
  - rewrite IH. clear IH.
    unfold windowStep, weeklyStep, yearlyStep, countsFor, isIncome.
    rewrite !ge_fromDate.
    assert (Hy : forall a, acc_breakdown
              (if fromDate ys tx
               then match tx_type tx with
                    | income => addYearlyIncome (tx_amount tx) a
                    | expense => addYearlyExpense (tx_amount tx) a
                    end
               else a) = acc_breakdown a).
    { intros a. destruct (fromDate ys tx), (tx_type tx); reflexivity. }
    destruct (fromDate ws tx); [|rewrite Hy, andb_false_r; cbn [andb];
      destruct (acc_breakdown acc !! k); simpl; f_equal; lia].
    destruct (tx_type tx); cbn [TxType_eqb andb];
      [|simpl; rewrite Hy; destruct (acc_breakdown acc !! k); simpl; f_equal; lia].
    destruct (Str.eq (tx_category tx) k) eqn:E.
    + apply StrFacts.eq_true in E.
      assert (Hi : includes gyeongsangbiCategories (tx_category tx) = true)
        by (apply includes_In; rewrite E; exact Hk).
      rewrite Hi. simpl. rewrite Hy, E, lookup_alter_eq.
      destruct (acc_breakdown acc !! k); simpl; f_equal; lia.
    + assert (Hne : tx_category tx <> k).
      { intros Heq. apply StrFacts.eq_true in Heq. congruence. }
      assert (Hsame : forall a,
        acc_breakdown
          (if includes gyeongsangbiCategories (tx_category tx)
           then addBreakdown (tx_category tx) (tx_amount tx) a
           else if Str.eq (tx_category tx) "선교헌금"
                then addWeeklySeongyo (tx_amount tx) a
                else if Str.eq (tx_category tx) "건축헌금"
                     then addWeeklyGeonchuk (tx_amount tx) a
                     else a) !! k
        = acc_breakdown a !! k).
      { intros a.
        destruct (includes gyeongsangbiCategories (tx_category tx)); simpl.
        - rewrite lookup_alter_ne by exact Hne. reflexivity.
        - destruct (Str.eq (tx_category tx) "선교헌금"); [reflexivity|].
          destruct (Str.eq (tx_category tx) "건축헌금"); reflexivity. }
      rewrite Hsame. simpl. rewrite Hy.
      destruct (acc_breakdown acc !! k); simpl; f_equal; lia.
Qed.

Lemma initialBreakdown_lookup (k : string) :
  In k gyeongsangbiCategories -> initialBreakdown !! k = Some 0.
Proof.
  unfold gyeongsangbiCategories. simpl.
  intros [<-|[<-|[<-|[<-|[<-|[<-|[]]]]]]]; vm_compute; reflexivity.
Qed.

Lemma initialBreakdown_dom :
  dom initialBreakdown = list_to_set gyeongsangbiCategories.
Proof.
  unfold initialBreakdown. rewrite dom_list_to_map_L.
  rewrite <- list_fmap_compose. f_equal.
Qed.

Lemma amountSum_nonneg (l : list Transaction) :
  Forall (fun tx => 0 <= tx_amount tx) l -> 0 <= amountSum l.
Proof. induction 1; simpl; lia. Qed.

Lemma Forall_filter' {A : Type} (P : A -> Prop) (p : A -> bool) (l : list A) :
  Forall P l -> Forall P (List.filter p l).
Proof.
  induction 1 as [|x l Hx Hl IH]; simpl; [constructor|].
  destruct (p x); [constructor|]; assumption.
Qed.

(** C6: whatever the entries, the weekly breakdown of the recurring
    categories is a mapping whose keys are exactly the six recurring
    category names, so that looking up any of the six succeeds; each key
    is mapped to the sum of the amounts of the income entries of that
    category in the weekly window, which is 0 when there is none (so also
    for the empty list) and at least 0 when no amount is negative. *)
Theorem C6_breakdown_has_six_keys
    (LocalTZA : Z -> bool -> Z) (transactions : list Transaction) (todayStr : string) (today : Z) :
  Date.parse todayStr = Some today ->
  exists r : WeeklyCategoryTotals,
    weeklyCategoryTotals LocalTZA transactions todayStr = Some r
    /\ dom (weeklyGyeongsangbiBreakdown r) = list_to_set gyeongsangbiCategories
    /\ length gyeongsangbiCategories = 6%nat
    /\ List.NoDup gyeongsangbiCategories
    /\ (forall k, In k gyeongsangbiCategories ->
          weeklyGyeongsangbiBreakdown r !! k
          = Some (amountSum (List.filter (countsFor k (weekStartOf LocalTZA today))
                                         transactions)))
    /\ (forall k, In k gyeongsangbiCategories ->
          (forall tx, In tx transactions ->
             countsFor k (weekStartOf LocalTZA today) tx = false) ->
          weeklyGyeongsangbiBreakdown r !! k = Some 0)
    /\ (Forall (fun tx => 0 <= tx_amount tx) transactions ->
        forall k v, weeklyGyeongsangbiBreakdown r !! k = Some v -> 0 <= v).
Proof.
  intros Hp. unfold weeklyCategoryTotals, windowTotals. rewrite Hp. simpl.
  eexists. split; [reflexivity|]. simpl.
  set (acc := fold_left (windowStep (yearStartOf LocalTZA today)
                                    (weekStartOf LocalTZA today))
                        transactions initialWindowAcc).
  assert (Hdom : dom (acc_breakdown acc) = list_to_set gyeongsangbiCategories).
  { unfold acc. rewrite windowStep_dom. apply initialBreakdown_dom. }
  assert (Hl : forall k, In k gyeongsangbiCategories ->
    acc_breakdown acc !! k
    = Some (amountSum (List.filter (countsFor k (weekStartOf LocalTZA today))
                                   transactions))).
  { intros k Hk. unfold acc. rewrite windowStep_breakdown by exact Hk.
    simpl. rewrite initialBreakdown_lookup by exact Hk. simpl. f_equal. }
  split; [exact Hdom|]. split; [reflexivity|]. split; [|split; [exact Hl|split]].
  - unfold gyeongsangbiCategories.
    repeat (constructor; [simpl; intuition discriminate|]). constructor.
  - intros k Hk Hnone. rewrite Hl by exact Hk. f_equal.
    assert (Hnil : List.filter (countsFor k (weekStartOf LocalTZA today)) transactions = []).
    { clear acc Hdom Hl. induction transactions as [|tx l IH]; simpl; [reflexivity|].
      rewrite (Hnone tx (or_introl eq_refl)). apply IH.
      intros tx' Htx'. apply Hnone. right; exact Htx'. }
    rewrite Hnil. reflexivity.
  - intros Hnn k v Hkv.
    assert (Hk : In k gyeongsangbiCategories).
    { assert (Hin : k ∈ dom (acc_breakdown acc)) by (apply elem_of_dom; eauto).
      rewrite Hdom in Hin. apply elem_of_list_to_set in Hin.
      apply list_elem_of_In. exact Hin. }
    rewrite (Hl k Hk) in Hkv. injection Hkv as <-.
    apply amountSum_nonneg, Forall_filter'. exact Hnn.
Qed.


(** West of Greenwich the local date of midnight UTC is the day before,
    and the loop starts the week, and on January 1 the year, elsewhere:
    with an offset of five hours behind, on Sunday 7 January 2024 the week
    starts on Monday 1 January, and on 1 January 2024 the year starts in
    2023. *)
Example windows_west_of_Greenwich :
  weekStartOf (Date.constantTZA (-18000000)) 1704585600000 = "2024-01-01"
  /\ Date.parse "2024-01-01" = Some 1704067200000
  /\ yearStartOf (Date.constantTZA (-18000000)) 1704067200000 = "2023-01-01".
Proof. repeat split; vm_compute; reflexivity. Qed.

(** Where the clock was put back during the week, the loop starts the
    week a day early: in Berlin on Wednesday 30 October 2024 the local
    time 01:00 of Sunday 27 October is still summer time, 23:00 UTC of
    the Saturday, and the week starts on 26 October. *)
Example week_across_clock_change :
  Date.parse "2024-10-30" = Some 1730246400000
  /\ weekStartOf Sample.Berlin 1730246400000 = "2024-10-26"
  /\ Date.parse "2024-10-26" = Some 1729900800000
  /\ Date.WeekDay 1729900800000 = 6
  /\ ~ steadyWeek Sample.Berlin 1730246400000.
Proof.
  repeat (split; [vm_compute; reflexivity|]).
  intros [_ [H _]]. vm_compute in H. apply H. reflexivity.
Qed.

(** ** The by-person search *)

Lemma total_amountSum (l : list Transaction) : total l = amountSum l.
Proof.
  unfold total.
  assert (H : forall s, fold_left (fun sum tx => sum + tx_amount tx) l s
                        = s + amountSum l).
  { induction l as [|x l IH]; intros s; simpl; [lia|]. rewrite IH. lia. }
  rewrite H. lia.
Qed.

Lemma filter_filter_andb {A : Type} (p q : A -> bool) (l : list A) :
  List.filter p (List.filter q l) = List.filter (fun x => q x && p x) l.
Proof.
  induction l as [|x l IH]; simpl; [reflexivity|].
  destruct (q x); simpl; [destruct (p x)|]; rewrite IH; reflexivity.
Qed.

Lemma nameSearch_filter (transactions : list Transaction)
    (q : Z) (startDate endDate : string) :
  List.filter (fun tx => memberIdIs tx q && TxType_eqb (tx_type tx) income)
              (filteredTransactions transactions startDate endDate)
  = List.filter (matchesPerson q startDate endDate) transactions.
Proof.
  unfold filteredTransactions. rewrite filter_filter_andb.
  apply List.filter_ext. intros tx.
  unfold matchesPerson, isIncome, Str.ge, Str.le.
  generalize (memberIdIs tx q) (TxType_eqb (tx_type tx) income)
    (String.ltb (tx_date tx) startDate) (String.ltb endDate (tx_date tx)).
  intros [] [] [] []; reflexivity.
Qed.

(** C8: the by-person search returns the entries of the list that are
    income entries of the given person dated within the range, both ends
    included, in their order, and the sum of their amounts; it holds no
    expense entry; when [startDate > endDate] it returns no entry and the
    total 0.  The filter compares date strings; for valid dates that is
    the comparison of the days. *)
Theorem C8_search_by_person (transactions : list Transaction)
    (q : Z) (startDate endDate : string) :
  exists r : SearchResult,
    nameSearchResult transactions startDate endDate byName (Some q) = Some r
    /\ sr_transactions r
       = List.filter (matchesPerson q startDate endDate) transactions
    /\ sr_total r = amountSum (sr_transactions r)
    /\ (forall tx, In tx (sr_transactions r) <->
          In tx transactions /\ tx_type tx = income /\ tx_memberId tx = Some q
          /\ Str.le startDate (tx_date tx) = true
          /\ Str.le (tx_date tx) endDate = true)
    /\ (Str.lt endDate startDate = true ->
          sr_transactions r = [] /\ sr_total r = 0)
    /\ (forall ds de : Z,
          Date.parse startDate = Some (ds * Date.msPerDay) ->
          Date.parse endDate = Some (de * Date.msPerDay) ->
          Forall (fun tx => validDate tx = true) transactions ->
          sr_transactions r
          = List.filter (fun tx => isIncome tx && memberIdIs tx q
                                   && (ds <=? dayOf tx) && (dayOf tx <=? de))
                        transactions).
Proof.
  eexists. split; [reflexivity|]. simpl.
  rewrite nameSearch_filter, total_amountSum.
  split; [reflexivity|]. split; [reflexivity|]. split; [|split].
  - intros tx. rewrite List.filter_In.
    unfold matchesPerson, isIncome, memberIdIs.
    rewrite !andb_true_iff.
    destruct (tx_type tx), (tx_memberId tx) as [i|]; simpl;
      try destruct (Z.eqb_spec i q); intuition congruence.
  - intros Hinv.
    assert (Hnil : List.filter (matchesPerson q startDate endDate) transactions = []).
    { induction transactions as [|tx l IH]; simpl; [reflexivity|].
      destruct (matchesPerson q startDate endDate tx) eqn:Hm; [|exact IH].
      exfalso. unfold matchesPerson in Hm. rewrite !andb_true_iff in Hm.
      destruct Hm as [[_ Hs] He].
      pose proof (StrFacts.lt_le_trans _ _ _ Hinv Hs) as H1.
      unfold Str.le in He. unfold Str.lt in H1. rewrite H1 in He. discriminate. }
    rewrite Hnil. split; reflexivity.
  - intros ds de Hs He Hv. apply filter_valid; [exact Hv|].
    intros tx Htx. unfold matchesPerson. apply validDate_parse in Htx.
    rewrite (DateFacts.le_days _ _ _ _ Hs Htx), (DateFacts.le_days _ _ _ _ Htx He).
    reflexivity.
Qed.

(** ** Deleting a member *)

Lemma find_filter_other (members : list Member) (id j : Z) :
  j <> id ->
  List.find (fun m => m_id m =? j)
            (List.filter (fun m => negb (m_id m =? id)) members)
  = List.find (fun m => m_id m =? j) members.
Proof.
  intros Hne. induction members as [|m l IH]; simpl; [reflexivity|].
  destruct (Z.eqb_spec (m_id m) id) as [E|E]; simpl.
  - destruct (Z.eqb_spec (m_id m) j); [congruence|exact IH].
  - destruct (Z.eqb_spec (m_id m) j); [reflexivity|exact IH].
Qed.

Lemma filter_all {A : Type} (p : A -> bool) (l : list A) :
  (forall x, In x l -> p x = true) -> List.filter p l = l.
Proof.
  induction l as [|x l IH]; intros H; simpl; [reflexivity|].
  rewrite (H x (or_introl eq_refl)). f_equal. apply IH.
  intros y Hy. apply H. right; exact Hy.
Qed.

(** C9: deleting a member removes from the roster the members with that
    id and no other (when one member has the id, the roster is what it
    was without that member, in the same order), and leaves the entry
    list as it is; afterwards the display name of an entry that refers to
    the deleted id is the sentinel ["미지정"], and the names of all other
    ids are what they were. *)
Theorem C9_delete_member_keeps_entries (id : Z) (st : AppState) :
  let st' := handleDeleteMember id st in
  st_transactions st' = st_transactions st
  /\ (forall m, In m (st_members st') <-> In m (st_members st) /\ m_id m <> id)
  /\ (forall (l1 : list Member) (m : Member) (l2 : list Member),
        st_members st = (l1 ++ m :: l2)%list -> m_id m = id ->
        (forall m', In m' (l1 ++ l2)%list -> m_id m' <> id) ->
        st_members st' = (l1 ++ l2)%list)
  /\ getMemberName (st_members st') (Some id) = "미지정"
  /\ (forall tx, In tx (st_transactions st') -> tx_memberId tx = Some id ->
        getMemberName (st_members st') (tx_memberId tx) = "미지정")
  /\ (forall j, j <> id ->
        getMemberName (st_members st') (Some j)
        = getMemberName (st_members st) (Some j)).
Proof.
  simpl.
  assert (Hgone : getMemberName
            (List.filter (fun m => negb (m_id m =? id)) (st_members st)) (Some id)
            = "미지정").
  { simpl. apply findName_absent. intros m Hm.
    apply List.filter_In in Hm. destruct Hm as [_ Hm].
    destruct (Z.eqb_spec (m_id m) id); [discriminate|assumption]. }
  split; [reflexivity|]. split; [|split; [|split; [exact Hgone|split]]].
  - intros m. rewrite List.filter_In.
    destruct (Z.eqb_spec (m_id m) id); simpl; intuition congruence.
  - intros l1 m l2 -> Hm Hothers.
    rewrite List.filter_app. simpl.
    destruct (Z.eqb_spec (m_id m) id); [simpl|contradiction].
    rewrite <- List.filter_app. apply filter_all.
    intros m' Hm'. apply Hothers in Hm'.
    destruct (Z.eqb_spec (m_id m') id); [contradiction|reflexivity].
  - intros tx _ ->. exact Hgone.
  - intros j Hj. unfold getMemberName, findName.
    rewrite find_filter_other by assumption. reflexivity.
Qed.

(** ** The collation of the samples *)

Lemma codeUnitCompare_consistent : ConsistentComparator codeUnitCompare.
Proof.
  split.
  - intros x y. unfold codeUnitCompare. rewrite (String.compare_antisym x y).
    destruct (String.compare y x); reflexivity.
  - intros x y z. unfold codeUnitCompare.
    destruct (String.compare x y) eqn:Hxy; try lia;
      destruct (String.compare y z) eqn:Hyz; try lia; intros _ _.
    + apply String.compare_eq_iff in Hxy, Hyz. subst.
      rewrite StrFacts.compare_refl. lia.
    + apply String.compare_eq_iff in Hxy. subst. rewrite Hyz. lia.
    + apply String.compare_eq_iff in Hyz. subst. rewrite Hxy. lia.
    + rewrite (StrFacts.compare_lt_trans x y z Hxy Hyz). lia.
Qed.

(** ** The theorems at the samples *)

Ltac all_valid := repeat (constructor; [vm_compute; reflexivity|]); constructor.

Lemma C2_balance_is_prefix_sum_witness :
  map (fun e => (tx_id (twb_tx e), balance e))
      (withBalance codeUnitCompare Sample.roster Sample.ledger)
  = [(11, 1200); (10, 1500); (12, 500)]
  /\ StronglySorted dateLe
       (map twb_tx (rev (withBalance codeUnitCompare Sample.roster Sample.ledger)))
  /\ (forall e : TransactionWithBalance,
        head (withBalance codeUnitCompare Sample.roster Sample.ledger) = Some e ->
        balance e = signedSum Sample.ledger).
Proof.
  split; [vm_compute; reflexivity|].
  destruct (C2_balance_is_prefix_sum codeUnitCompare Sample.roster Sample.ledger)
    as (_ & Hsorted & _ & Hlast).
  split; [apply Hsorted; all_valid|exact Hlast].
Defined.

Lemma C7_feed_deterministic_witness :
  List.NoDup (map tx_id Sample.ledger)
  /\ withBalance codeUnitCompare Sample.roster (rev Sample.ledger)
     = withBalance codeUnitCompare Sample.roster Sample.ledger.
Proof.
  assert (Hnd : List.NoDup (map tx_id Sample.ledger)).
  { simpl. repeat (constructor; [simpl; intuition discriminate|]). constructor. }
  split; [exact Hnd|].
  apply (C7_feed_deterministic codeUnitCompare Sample.roster Sample.ledger).
  - exact codeUnitCompare_consistent.
  - all_valid.
  - exact Hnd.
  - apply Permutation_rev.
Defined.

(** C3, the claim as stated, fails: with the entry of amount -50 in the
    list the later entry carries the balance 80, without it 130. *)
Lemma C3_counterexample :
  In (Sample.entry 2 income "2024-01-06" "십일조" (-50) (Some 1)) Sample.withNegative
  /\ map balance
       (List.filter (fun e => Sample.notSecond (twb_tx e))
          (withBalance codeUnitCompare Sample.roster Sample.withNegative))
     = [80; 100]
  /\ map balance
       (withBalance codeUnitCompare Sample.roster
          (List.filter Sample.notSecond Sample.withNegative))
     = [130; 100]
  /\ List.filter (fun e => Sample.notSecond (twb_tx e))
       (withBalance codeUnitCompare Sample.roster Sample.withNegative)
     <> withBalance codeUnitCompare Sample.roster
          (List.filter Sample.notSecond Sample.withNegative).
Proof.
  split; [simpl; tauto|]. split; [vm_compute; reflexivity|].
  split; [vm_compute; reflexivity|]. vm_compute. discriminate.
Qed.

Lemma C3_zero_amount_is_noop_witness :
  List.filter (fun e => Sample.notSecond (twb_tx e))
              (withBalance codeUnitCompare Sample.roster Sample.withZero)
  = withBalance codeUnitCompare Sample.roster
      (List.filter Sample.notSecond Sample.withZero).
Proof.
  apply (C3_zero_amount_is_noop codeUnitCompare Sample.roster Sample.withZero
           Sample.notSecond).
  - exact codeUnitCompare_consistent.
  - all_valid.
  - intros tx [<-|[<-|[<-|[]]]]; vm_compute; intros H; congruence.
Defined.

(** C4, the claim as stated, fails: an entry without [memberId] and an
    entry whose [memberId] is the id of no member are both unresolved
    (their display name is the same sentinel), and their comparison keys
    differ, so that the names, not the ids, decide their order. *)
Lemma C4_counterexample :
  let a := Sample.entry 30 income "2024-01-07" "십일조" 100 None in
  let b := Sample.entry 31 income "2024-01-07" "십일조" 100 (Some 99) in
  getMemberName Sample.roster (tx_memberId a)
  = getMemberName Sample.roster (tx_memberId b)
  /\ getMemberNameForSort Sample.roster (tx_memberId a) = "무명"
  /\ getMemberNameForSort Sample.roster (tx_memberId b) = "미지정"
  /\ getMemberNameForSort Sample.roster (tx_memberId a)
     <> getMemberNameForSort Sample.roster (tx_memberId b)
  /\ compareTx codeUnitCompare Sample.roster a b = Num 1
  /\ byId a b = Num (-1).
Proof. repeat split; vm_compute; congruence. Qed.

Lemma C4_name_key_and_sentinels_witness :
  compareTx codeUnitCompare Sample.roster
    (Sample.entry 10 income "2024-01-07" "십일조" 1000 (Some 1))
    (Sample.entry 13 income "2024-01-07" "십일조" 700 (Some 2))
  = Num (codeUnitCompare "박소망" "김은혜")
  /\ getMemberNameForSort Cases.withBlank (Some 3) = "미지정"
  /\ getMemberNameForSort Cases.withBlank (Some 4) = "미지정"
  /\ getMemberNameForSort Cases.withBlank (Some 2) = "박소망"
  /\ getMemberNameForSort Cases.withBlank None = "무명".
Proof.
  destruct (C4_name_key_and_sentinels codeUnitCompare Sample.roster
              (Sample.entry 10 income "2024-01-07" "십일조" 1000 (Some 1))
              (Sample.entry 13 income "2024-01-07" "십일조" 700 (Some 2)))
    as (Hcmp & _); [vm_compute; reflexivity..|].
  destruct (C4_name_key_and_sentinels codeUnitCompare Cases.withBlank
              (Sample.entry 10 income "2024-01-07" "십일조" 1000 (Some 1))
              (Sample.entry 13 income "2024-01-07" "십일조" 700 (Some 2)))
    as (_ & Hnone & Habsent & Hnamed & Hblank & _); [vm_compute; reflexivity..|].
  split; [exact Hcmp|]. split; [|split; [|split]].
  - apply (Hblank 3 {| m_id := 3; m_name := ""; m_position := "성도" |}); reflexivity.
  - apply Habsent. intros m [<-|[<-|[<-|[]]]]; cbn; lia.
  - apply (Hnamed 2 {| m_id := 2; m_name := "박소망"; m_position := "권사" |});
      [reflexivity|discriminate].
  - exact Hnone.
Defined.

Lemma C6_breakdown_has_six_keys_witness :
  exists r : WeeklyCategoryTotals,
    weeklyCategoryTotals Sample.KST Sample.ledger "2024-01-07" = Some r
    /\ dom (weeklyGyeongsangbiBreakdown r) = list_to_set gyeongsangbiCategories
    /\ weeklyGyeongsangbiBreakdown r !! "십일조" = Some 1000
    /\ (forall k v, weeklyGyeongsangbiBreakdown r !! k = Some v -> 0 <= v).
Proof.
  destruct (C6_breakdown_has_six_keys Sample.KST Sample.ledger "2024-01-07"
              1704585600000) as (r & Hr & Hdom & _ & _ & Hsum & _ & Hnn).
  - vm_compute; reflexivity.
  - exists r. split; [exact Hr|]. split; [exact Hdom|]. split.
    + rewrite Hsum by (simpl; tauto). vm_compute; reflexivity.
    + apply Hnn. repeat (constructor; [vm_compute; discriminate|]); constructor.
Defined.



Lemma C5_today_split_witness :
  previousBalance (balanceData (Sample.ledger ++ Sample.postdated) "2024-01-07")
  = signedSum (List.filter (fun tx => dayOf tx <? 19729)
                           (Sample.ledger ++ Sample.postdated))
  /\ todaysChange (balanceData (Sample.ledger ++ Sample.postdated) "2024-01-07")
     = amountSum (List.filter (fun tx => isIncome tx && Str.eq (tx_date tx) "2024-01-07")
                              (Sample.ledger ++ Sample.postdated))
       - amountSum (List.filter (fun tx => isExpense tx && Str.eq (tx_date tx) "2024-01-07")
                                (Sample.ledger ++ Sample.postdated))
  /\ previousBalance (balanceData (Sample.ledger ++ Sample.postdated) "2024-01-07") = 500
  /\ todaysChange (balanceData (Sample.ledger ++ Sample.postdated) "2024-01-07") = 700
  /\ todaysBalance (balanceData (Sample.ledger ++ Sample.postdated) "2024-01-07") = 1200
  /\ previousBalance (balanceData (Sample.ledger ++ Sample.postdated) "2024-01-10") = 1160
  /\ todaysChange (balanceData (Sample.ledger ++ Sample.postdated) "2024-01-10") = 100.
Proof.
  destruct (C5_today_split (Sample.ledger ++ Sample.postdated) "2024-01-07")
    as (_ & _ & _ & _ & Hdays & _ & Hchange).
  destruct (Hdays 1704585600000) as [Hp _].
  - vm_compute; reflexivity.
  - all_valid.
  - split; [exact Hp|]. split; [exact Hchange|].
    repeat split; vm_compute; reflexivity.
Defined.

Lemma C8_search_by_person_witness :
  (exists r : SearchResult,
     nameSearchResult Sample.ledger "2024-12-31" "2024-01-01" byName (Some 1) = Some r
     /\ sr_transactions r = [] /\ sr_total r = 0)
  /\ (exists r : SearchResult,
     nameSearchResult Sample.ledger "2024-01-07" "2024-01-07" byName (Some 1) = Some r
     /\ sr_transactions r
        = List.filter (fun tx => isIncome tx && memberIdIs tx 1
                                 && (19729 <=? dayOf tx) && (dayOf tx <=? 19729))
                      Sample.ledger).
Proof.
  split.
  - destruct (C8_search_by_person Sample.ledger 1 "2024-12-31" "2024-01-01")
      as (r & Hr & _ & _ & _ & Hinv & _).
    exists r. split; [exact Hr|]. apply Hinv. vm_compute; reflexivity.
  - destruct (C8_search_by_person Sample.ledger 1 "2024-01-07" "2024-01-07")
      as (r & Hr & _ & _ & _ & _ & Hdays).
    exists r. split; [exact Hr|]. apply Hdays.
    + vm_compute; reflexivity.
    + vm_compute; reflexivity.
    + all_valid.
Defined.

Lemma C9_delete_member_keeps_entries_witness :
  st_transactions (handleDeleteMember 1 Sample.state) = Sample.ledger
  /\ st_members (handleDeleteMember 1 Sample.state)
     = [ {| m_id := 2; m_name := "박소망"; m_position := "권사" |} ]
  /\ getMemberName (st_members (handleDeleteMember 1 Sample.state)) (Some 1) = "미지정"
  /\ getMemberName (st_members (handleDeleteMember 1 Sample.state)) (Some 2) = "박소망".
Proof.
  destruct (C9_delete_member_keeps_entries 1 Sample.state)
    as (Htx & _ & Hrest & Hgone & _ & Hother).
  split; [exact Htx|]. split; [|split; [exact Hgone|]].
  - apply (Hrest [] {| m_id := 1; m_name := "김은혜"; m_position := "집사" |}
                 [ {| m_id := 2; m_name := "박소망"; m_position := "권사" |} ]).
    + reflexivity.
    + reflexivity.
    + intros m' [<-|[]]. simpl. lia.
  - rewrite Hother by lia. vm_compute; reflexivity.
Defined.

(** * Further properties *)

(** ** The weekday label *)

Lemma parseLocal_midnight (LocalTZA : Z -> bool -> Z) (s : string) (t : Z) :
  Date.parse s = Some t ->
  DateTime.parseLocal LocalTZA (s +:+ "T00:00:00") = Some (Date.UTC LocalTZA t).
Proof.
  unfold Date.parse. destruct (Date.parseFields s) as [[[y m] d]|] eqn:E; [|discriminate].
  intros [= <-].
  do 10 (destruct s as [|? s]; [discriminate E|]).
  destruct s; [|discriminate E].
  unfold DateTime.parseLocal.
  cbv [String.append]. cbn [String.substring DateTime.dropChars].
  rewrite E. reflexivity.
Qed.

Lemma getDay_local_midnight (LocalTZA : Z -> bool -> Z) (t : Z) :
  t = Date.Day t * Date.msPerDay -> keepsLocalDay LocalTZA t ->
  Date.getDay LocalTZA (Date.UTC LocalTZA t) = Date.WeekDay t.
Proof.
  intros Ht K. unfold Date.getDay, Date.LocalTime, Date.WeekDay. do 2 f_equal.
  unfold keepsLocalDay in K.
  etransitivity; [|exact (DateFacts.Day_offset (Date.Day t) _ K)].
  f_equal. unfold Date.UTC. lia.
Qed.

Lemma keepsLocalDay_constant (offset t : Z) : keepsLocalDay (Date.constantTZA offset) t.
Proof. unfold keepsLocalDay, Date.constantTZA, Date.msPerDay. lia. Qed.

(** X1: for a date, the weekday label is the name in [days] of the
    weekday of that calendar date, in brackets, on every host that reads
    the local midnight of the date as an instant of the same local day;
    every host with a constant offset does, whatever the offset is. *)
Theorem X1_weekday_label (LocalTZA : Z -> bool -> Z) (dateString : string) (t : Z) :
  Date.parse dateString = Some t ->
  (keepsLocalDay LocalTZA t ->
   exists day : string,
     days !! Z.to_nat (Date.WeekDay t) = Some day
     /\ getDayOfWeek LocalTZA dateString = "(" +:+ day +:+ ")")
  /\ (forall offset : Z, keepsLocalDay (Date.constantTZA offset) t).
Proof.
  intros H. split; [|intros offset; apply keepsLocalDay_constant]. intros K.
  assert (Hne : Str.eq dateString "" = false).
  { destruct dateString; [discriminate H|reflexivity]. }
  unfold getDayOfWeek. rewrite Hne, (parseLocal_midnight _ _ _ H).
  rewrite (getDay_local_midnight LocalTZA t (DateFacts.parse_midnight _ _ H) K).
  pose proof (DateFacts.WeekDay_range t) as R.
  assert (C : Date.WeekDay t = 0 \/ Date.WeekDay t = 1 \/ Date.WeekDay t = 2
              \/ Date.WeekDay t = 3 \/ Date.WeekDay t = 4 \/ Date.WeekDay t = 5
              \/ Date.WeekDay t = 6) by lia.
  destruct C as [->|[->|[->|[->|[->|[->| ->]]]]]];
    eexists; (split; [reflexivity|reflexivity]).
Qed.

(** X2: on a host at or east of Greenwich whose clock was not put back
    between the first day of the week and today, and which reads the
    local midnight of that first day as an instant of the same local
    day, the first day of the weekly window carries the label of
    Sunday. *)
Theorem X2_week_starts_on_sunday
    (LocalTZA : Z -> bool -> Z) (today : Z) (todayStr : string) :
  steadyWeek LocalTZA today ->
  keepsLocalDay LocalTZA ((Date.Day today - Date.WeekDay today) * Date.msPerDay) ->
  Date.parse todayStr = Some today -> 1000 <= Date.YearFromTime today ->
  getDayOfWeek LocalTZA (weekStartOf LocalTZA today) = "(일)".
Proof.
  intros Hs K Hp Hy.
  destruct (weekStartOf_parse LocalTZA today todayStr Hs Hp Hy) as [_ Hw].
  assert (Hne : Str.eq (weekStartOf LocalTZA today) "" = false).
  { destruct (weekStartOf LocalTZA today); [discriminate Hw|reflexivity]. }
  unfold getDayOfWeek. rewrite Hne, (parseLocal_midnight _ _ _ Hw).
  rewrite (getDay_local_midnight LocalTZA _ (DateFacts.parse_midnight _ _ Hw) K).
  rewrite DateFacts.WeekDay_weekStart. reflexivity.
Qed.

(** Where the clock was put back during the week the label is the one
    of Saturday: Berlin on Wednesday 30 October 2024. *)
Example week_label_across_clock_change :
  getDayOfWeek Sample.Berlin (weekStartOf Sample.Berlin 1730246400000) = "(토)".
Proof. vm_compute; reflexivity. Qed.

(** ** The password *)

Lemma modalSubmit_confirm (mode : ModalMode) (password confirmPassword p : string) :
  modalSubmit mode password confirmPassword = Confirm p <->
  p = password /\ isFourDigits password = true
  /\ (mode = create -> password = confirmPassword).
Proof.
  unfold modalSubmit.
  destruct (isFourDigits password); cbn [negb].
  - destruct mode; cbn [ModalMode_eqb andb].
    + destruct (Str.eq password confirmPassword) eqn:E; cbn [negb].
      * apply StrFacts.eq_true in E. split.
        -- intros [= <-]. auto.
        -- intros (-> & _ & _). reflexivity.
      * split; [discriminate|]. intros (_ & _ & H). specialize (H eq_refl).
        apply StrFacts.eq_true in H. congruence.
    + split.
      * intros [= <-]. repeat split. discriminate.
      * intros (-> & _ & _). reflexivity.
  - split; [discriminate|]. intros (_ & H & _). discriminate.
Qed.

Lemma storedPassword_setPassword (p : string) (st : AppState) :
  isFourDigits p = true -> storedPassword (setPassword p st) = Some p.
Proof.
  intros H. unfold storedPassword, setPassword. cbn [st_password].
  destruct p; [discriminate H|reflexivity].
Qed.

Lemma storedPassword_keeps (action : AppState -> AppState) (st : AppState) :
  keepsPassword action -> storedPassword (action st) = storedPassword st.
Proof. intros K. unfold storedPassword. rewrite K. reflexivity. Qed.

Lemma runProtectedAction_set (action : AppState -> AppState)
    (password confirmPassword stored : string) (st : AppState) :
  storedPassword st = Some stored ->
  fst (runProtectedAction action password confirmPassword st)
  = if isFourDigits password && Str.eq password stored then action st else st.
Proof.
  intros H. unfold runProtectedAction. rewrite H.
  destruct (modalSubmit enter password confirmPassword) as [msg|p] eqn:E.
  - destruct (isFourDigits password) eqn:F; [|reflexivity].
    assert (C : modalSubmit enter password confirmPassword = Confirm password).
    { apply modalSubmit_confirm. repeat split; [assumption|discriminate]. }
    congruence.
  - apply modalSubmit_confirm in E as (-> & -> & _). cbn [andb].
    destruct (Str.eq password stored); reflexivity.
Qed.

Lemma runProtectedAction_unset (action : AppState -> AppState)
    (password confirmPassword : string) (st : AppState) :
  storedPassword st = None ->
  fst (runProtectedAction action password confirmPassword st) = st
  \/ (isFourDigits password = true /\ confirmPassword = password
      /\ fst (runProtectedAction action password confirmPassword st)
         = action (setPassword password st)).
Proof.
  intros H. unfold runProtectedAction. rewrite H.
  destruct (modalSubmit create password confirmPassword) as [msg|p] eqn:E; cbn [fst].
  - left. reflexivity.
  - apply modalSubmit_confirm in E as (-> & H4 & Hc). right.
    specialize (Hc eq_refl). auto.
Qed.

Lemma runProtectedActions_set (attempts : list Submission) :
  Forall (fun a => keepsPassword (sub_action a)) attempts ->
  forall (st : AppState) (stored : string),
    storedPassword st = Some stored ->
    st_password (runProtectedActions attempts st) = st_password st.
Proof.
  unfold runProtectedActions.
  induction 1 as [|a attempts K _ IH]; intros st stored H; [reflexivity|].
  cbn [fold_left]. rewrite (runProtectedAction_set _ _ _ _ _ H).
  destruct (isFourDigits (sub_password a) && Str.eq (sub_password a) stored).
  - rewrite (IH (sub_action a st) stored); [apply K|].
    rewrite (storedPassword_keeps _ _ K). exact H.
  - exact (IH st stored H).
Qed.

Lemma source_actions_keep_password :
  keepsPassword performSave
  /\ (forall confirmed parsedData, keepsPassword (performLoad confirmed parsedData))
  /\ keepsPassword openEditMembers.
Proof.
  split; [intros st; reflexivity|]. split; [|intros st; reflexivity].
  intros confirmed parsedData st. unfold performLoad.
  destruct confirmed; [|reflexivity].
  destruct parsedData as [[[m|] [t|] [c|]]|]; reflexivity.
Qed.

(** X3: the protected action is run exactly when the submitted password
    has four digits and is the stored one or, when none is stored, is
    equal to its confirmation. *)
Theorem X3_protected_action_gate (action : AppState -> AppState)
    (password confirmPassword : string) (st : AppState) :
  snd (runProtectedAction action password confirmPassword st) = true <->
  isFourDigits password = true
  /\ match storedPassword st with
     | Some stored => password = stored
     | None => password = confirmPassword
     end.
Proof.
  unfold runProtectedAction.
  destruct (storedPassword st) as [stored|].
  - destruct (modalSubmit enter password confirmPassword) as [msg|p] eqn:E.
    + cbn [snd]. split; [discriminate|]. intros [H1 H2].
      assert (C : modalSubmit enter password confirmPassword = Confirm password).
      { apply modalSubmit_confirm. repeat split; [assumption|discriminate]. }
      congruence.
    + apply modalSubmit_confirm in E as (-> & H4 & _).
      destruct (Str.eq password stored) eqn:E; cbn [snd].
      * apply StrFacts.eq_true in E. tauto.
      * split; [discriminate|]. intros [_ H]. apply StrFacts.eq_true in H. congruence.
  - destruct (modalSubmit create password confirmPassword) as [msg|p] eqn:E.
    + cbn [snd]. split; [discriminate|]. intros [H1 H2].
      assert (C : modalSubmit create password confirmPassword = Confirm password).
      { apply modalSubmit_confirm. repeat split; auto. }
      congruence.
    + apply modalSubmit_confirm in E as (-> & H4 & H). cbn [snd]. tauto.
Qed.

(** X4: once a password is stored, it is never changed: a submission
    with another password changes nothing at all, one with the stored
    password does to the state what the protected action does, and none
    of the protected actions of the source (saving, loading a file,
    opening the editor of the members) sets the password; so after any
    sequence of uses of such actions the password is the one of
    before. *)
Theorem X4_password_is_never_changed
    (attempts : list Submission) (st : AppState) (stored : string) :
  storedPassword st = Some stored ->
  (forall action password confirmPassword,
     fst (runProtectedAction action password confirmPassword st)
     = if isFourDigits password && Str.eq password stored then action st else st)
  /\ (Forall (fun a => keepsPassword (sub_action a)) attempts ->
      st_password (runProtectedActions attempts st) = st_password st)
  /\ keepsPassword performSave
  /\ (forall confirmed parsedData, keepsPassword (performLoad confirmed parsedData))
  /\ keepsPassword openEditMembers.
Proof.
  intros H. split; [|split].
  - intros action password confirmPassword.
    apply runProtectedAction_set. exact H.
  - intros K. exact (runProtectedActions_set attempts K st stored H).
  - exact source_actions_keep_password.
Qed.

(** X5: while no password is stored, a submission that is turned down
    changes nothing, and the first one that is accepted stores its
    password before it runs the action.  With actions that do not set
    the password, the password stored after any sequence of uses has
    four digits and was submitted together with an equal confirmation;
    if none is stored, the state is the one of before. *)
Theorem X5_first_password_has_four_digits
    (attempts : list Submission) (st : AppState) :
  storedPassword st = None ->
  Forall (fun a => keepsPassword (sub_action a)) attempts ->
  (forall action password confirmPassword,
     fst (runProtectedAction action password confirmPassword st)
     = if isFourDigits password && Str.eq password confirmPassword
       then action (setPassword password st) else st)
  /\ match storedPassword (runProtectedActions attempts st) with
     | Some p =>
         isFourDigits p = true
         /\ exists a, In a attempts /\ sub_password a = p /\ sub_confirmPassword a = p
     | None => runProtectedActions attempts st = st
     end.
Proof.
  intros H K. split.
  - intros action password confirmPassword. unfold runProtectedAction. rewrite H.
    destruct (modalSubmit create password confirmPassword) as [msg|p] eqn:E; cbn [fst].
    + destruct (isFourDigits password) eqn:F; [|reflexivity].
      destruct (Str.eq password confirmPassword) eqn:Q; [|reflexivity].
      apply StrFacts.eq_true in Q.
      assert (C : modalSubmit create password confirmPassword = Confirm password).
      { apply modalSubmit_confirm. auto. }
      congruence.
    + apply modalSubmit_confirm in E as (-> & -> & Hc). specialize (Hc eq_refl).
      rewrite (proj2 (StrFacts.eq_true _ _) Hc). reflexivity.
  - revert st H. unfold runProtectedActions.
    induction K as [|a attempts Ka K IH]; intros st H.
    + cbn [fold_left]. rewrite H. reflexivity.
    + cbn [fold_left].
      destruct (runProtectedAction_unset (sub_action a) (sub_password a)
                  (sub_confirmPassword a) st H) as [E|(H4 & Hc & E)]; rewrite E.
      * specialize (IH st H). revert IH.
        destruct (storedPassword (fold_left _ _ _)); [|trivial].
        intros (D1 & b & Hb & D2). split; [exact D1|].
        exists b. split; [right; exact Hb|exact D2].
      * assert (S : storedPassword (sub_action a (setPassword (sub_password a) st))
                    = Some (sub_password a)).
        { rewrite (storedPassword_keeps _ _ Ka).
          apply storedPassword_setPassword. exact H4. }
        pose proof (runProtectedActions_set attempts K _ _ S) as P.
        unfold runProtectedActions in P.
        assert (S' : storedPassword
                       (fold_left
                          (fun s a => fst (runProtectedAction (sub_action a) (sub_password a)
                                                              (sub_confirmPassword a) s))
                          attempts (sub_action a (setPassword (sub_password a) st)))
                     = Some (sub_password a)).
        { unfold storedPassword in *. rewrite P. exact S. }
        rewrite S'. split; [exact H4|]. exists a. split; [left; reflexivity|].
        split; [reflexivity|exact Hc].
Qed.

(** ** Expense categories *)

Lemma handleAddExpenseCategory_cases (category : string) (st : AppState) :
  (handleAddExpenseCategory category st = st
   /\ (category = "" \/ In category (st_expenseCategories st)))
  \/ (handleAddExpenseCategory category st
      = setExpenseCategories (st_expenseCategories st ++ [category]) st
      /\ category <> "" /\ ~ In category (st_expenseCategories st)).
Proof.
  unfold handleAddExpenseCategory.
  destruct (Str.eq category "") eqn:E; cbn [negb andb].
  - left. apply StrFacts.eq_true in E. auto.
  - destruct (includes (st_expenseCategories st) category) eqn:I; cbn [negb].
    + left. apply includes_In in I. auto.
    + right. split; [reflexivity|]. split.
      * intros ->. discriminate E.
      * intros H. apply includes_In in H. congruence.
Qed.

(** X6: adding an expense category from the form keeps the categories
    distinct and free of the empty name: the answer of the prompt,
    trimmed, is appended when it is new and not empty, and nothing else
    of the state changes. *)
Theorem X6_expense_categories_stay_distinct
    (trim : string -> string) (answer : option string) (st : AppState) :
  List.NoDup (st_expenseCategories st) ->
  ~ In "" (st_expenseCategories st) ->
  let st' := handleAddCategory trim answer st in
  List.NoDup (st_expenseCategories st')
  /\ ~ In "" (st_expenseCategories st')
  /\ (st' = st
      \/ exists newCategory,
           answer = Some newCategory
           /\ ~ In (trim newCategory) (st_expenseCategories st)
           /\ st' = setExpenseCategories
                      (st_expenseCategories st ++ [trim newCategory]) st)
  /\ st_members st' = st_members st
  /\ st_transactions st' = st_transactions st
  /\ st_password st' = st_password st.
Proof.
  intros ND NE. cbv zeta. unfold handleAddCategory.
  destruct answer as [newCategory|]; [|auto 10].
  destruct (Str.eq newCategory ""); [auto 10|].
  destruct (handleAddExpenseCategory_cases (trim newCategory) st)
    as [[-> _]|(-> & H1 & H2)]; [auto 10|].
  cbn [setExpenseCategories st_expenseCategories st_members st_transactions st_password].
  split; [|split; [|split; [|auto]]].
  - apply List.NoDup_app; [assumption|repeat constructor; simpl; tauto|].
    intros x Hx [<-|[]]. contradiction.
  - rewrite in_app_iff. simpl. intros [H|[H|[]]]; [contradiction|congruence].
  - right. exists newCategory. auto.
Qed.

(** ** The roster *)

Lemma find_id_Permutation (l1 l2 : list Member) (j : Z) :
  Permutation l1 l2 -> List.NoDup (map m_id l1) ->
  List.find (fun m => m_id m =? j) l1 = List.find (fun m => m_id m =? j) l2.
Proof.
  induction 1 as [|x l1 l2 P IH|x y l|l1 l2 l3 P1 IH1 P2 IH2]; intros ND.
  - reflexivity.
  - cbn [List.find]. destruct (m_id x =? j); [reflexivity|].
    apply IH. cbn [map] in ND. apply List.NoDup_cons_iff in ND. tauto.
  - cbn [List.find].
    destruct (Z.eqb_spec (m_id x) j) as [Ex|], (Z.eqb_spec (m_id y) j) as [Ey|];
      try reflexivity.
    cbn [map] in ND. apply List.NoDup_cons_iff in ND as [N _].
    exfalso. apply N. left. congruence.
  - rewrite IH1 by assumption. apply IH2.
    eapply Permutation_NoDup; [apply Permutation_map; exact P1|exact ND].
Qed.

Lemma byMemberName_sorted (localeCompare : string -> string -> Z) (l : list Member) :
  ConsistentComparator localeCompare ->
  StronglySorted (nameOrder localeCompare) (sort (byMemberName localeCompare) l).
Proof.
  intros [antisym trans].
  apply (sort_StronglySorted (byMemberName localeCompare) (fun _ => True)
           (nameOrder localeCompare)).
  - intros x y z _ _ _. apply trans.
  - intros x y _ _ H. exact H.
  - intros x y _ _. unfold SortCompare, byMemberName, nameOrder. intros H.
    pose proof (antisym (m_name x) (m_name y)) as S.
    destruct (Z.sgn_spec (localeCompare (m_name x) (m_name y))) as [[? ?]|[[? ?]|[? ?]]];
      destruct (Z.sgn_spec (localeCompare (m_name y) (m_name x))) as [[? ?]|[[? ?]|[? ?]]];
      lia.
  - apply Forall_forall. trivial.
Qed.

Lemma find_update_other (id j : Z) (name position : string) (l : list Member) :
  j <> id ->
  List.find (fun m => m_id m =? j)
    (map (fun m => if m_id m =? id
                   then {| m_id := m_id m; m_name := name; m_position := position |}
                   else m) l)
  = List.find (fun m => m_id m =? j) l.
Proof.
  intros Hj. induction l as [|m l IH]; [reflexivity|].
  cbn [map List.find].
  destruct (Z.eqb_spec (m_id m) id) as [E|E]; cbn [m_id].
  - destruct (Z.eqb_spec (m_id m) j); [congruence|exact IH].
  - destruct (m_id m =? j); [reflexivity|exact IH].
Qed.

Lemma find_update_same (id : Z) (name position : string) (l : list Member) :
  In id (map m_id l) ->
  List.find (fun m => m_id m =? id)
    (map (fun m => if m_id m =? id
                   then {| m_id := m_id m; m_name := name; m_position := position |}
                   else m) l)
  = Some {| m_id := id; m_name := name; m_position := position |}.
Proof.
  induction l as [|m l IH]; [intros []|].
  cbn [map List.find In].
  destruct (Z.eqb_spec (m_id m) id) as [E|E]; cbn [m_id].
  - intros _. rewrite E, Z.eqb_refl. reflexivity.
  - destruct (Z.eqb_spec (m_id m) id); [contradiction|].
    intros [?|H]; [contradiction|]. exact (IH H).
Qed.

Lemma map_id_update (id : Z) (name position : string) (l : list Member) :
  map m_id
    (map (fun m => if m_id m =? id
                   then {| m_id := m_id m; m_name := name; m_position := position |}
                   else m) l)
  = map m_id l.
Proof.
  rewrite map_map. apply map_ext. intros m. destruct (m_id m =? id); reflexivity.
Qed.

Lemma update_absent (id : Z) (name position : string) (l : list Member) :
  ~ In id (map m_id l) ->
  map (fun m => if m_id m =? id
                then {| m_id := m_id m; m_name := name; m_position := position |}
                else m) l
  = l.
Proof.
  induction l as [|m l IH]; [reflexivity|]. cbn [map In]. intros H.
  destruct (Z.eqb_spec (m_id m) id); [tauto|]. f_equal. apply IH. tauto.
Qed.

(** X7: adding a member with a blank name does nothing; otherwise the
    roster is the old one with the new member, in the order of the names
    (for a consistent collation), and the rest of the state is as
    before. *)
Theorem X7_add_member_keeps_roster_sorted
    (trim : string -> string) (localeCompare : string -> string -> Z)
    (now : Z) (name position : string) (st : AppState) :
  let st' := handleAddMember trim localeCompare now name position st in
  let newMember := {| m_id := now; m_name := name; m_position := position |} in
  st_transactions st' = st_transactions st
  /\ st_expenseCategories st' = st_expenseCategories st
  /\ st_password st' = st_password st
  /\ (trim name = "" -> st' = st)
  /\ (trim name <> "" ->
      Permutation (st_members st') (newMember :: st_members st)
      /\ (ConsistentComparator localeCompare ->
          StronglySorted (nameOrder localeCompare) (st_members st'))).
Proof.
  cbv zeta. unfold handleAddMember.
  destruct (Str.eq (trim name) "") eqn:E.
  - apply StrFacts.eq_true in E.
    do 4 (split; [reflexivity|]). intros H. contradiction.
  - cbn [setMembers st_members st_transactions st_expenseCategories st_password].
    do 3 (split; [reflexivity|]). split.
    + intros H. apply StrFacts.eq_true in H. congruence.
    + intros _. split.
      * rewrite sort_Permutation. rewrite Permutation_app_comm. reflexivity.
      * apply byMemberName_sorted.
Qed.

(** X8: with distinct ids in the roster and a new id, a member added
    under a name that is not blank is shown under that name, every other
    id is shown as before, and the ids stay distinct. *)
Theorem X8_added_member_resolves_to_name
    (trim : string -> string) (localeCompare : string -> string -> Z)
    (now : Z) (name position : string) (st : AppState) :
  trim "" = "" -> trim name <> "" ->
  List.NoDup (map m_id (st_members st)) ->
  ~ In now (map m_id (st_members st)) ->
  let st' := handleAddMember trim localeCompare now name position st in
  getMemberName (st_members st') (Some now) = name
  /\ (forall j, j <> now ->
        getMemberName (st_members st') (Some j)
        = getMemberName (st_members st) (Some j))
  /\ List.NoDup (map m_id (st_members st')).
Proof.
  intros T0 Tn ND Fresh. cbv zeta. unfold handleAddMember.
  destruct (Str.eq (trim name) "") eqn:E.
  { apply StrFacts.eq_true in E. contradiction. }
  cbn [setMembers st_members].
  set (newMember := {| m_id := now; m_name := name; m_position := position |}).
  assert (P : Permutation (newMember :: st_members st)
                (sort (byMemberName localeCompare) (st_members st ++ [newMember]))).
  { rewrite sort_Permutation, Permutation_app_comm. reflexivity. }
  assert (ND' : List.NoDup (map m_id (newMember :: st_members st))).
  { cbn [map]. apply List.NoDup_cons; assumption. }
  assert (F : forall j fb,
            findName (sort (byMemberName localeCompare) (st_members st ++ [newMember])) j fb
            = findName (newMember :: st_members st) j fb).
  { intros j fb. unfold findName.
    rewrite <- (find_id_Permutation _ _ j P ND'). reflexivity. }
  assert (Hname : name <> "") by (intros ->; contradiction).
  split; [|split].
  - unfold getMemberName. rewrite F. unfold findName. cbn [List.find].
    subst newMember. cbn [m_id m_name]. rewrite Z.eqb_refl. cbn [m_name].
    destruct (Str.eq name "") eqn:En; [|reflexivity].
    apply StrFacts.eq_true in En. contradiction.
  - intros j Hj. unfold getMemberName. rewrite F. unfold findName.
    cbn [List.find]. subst newMember. cbn [m_id].
    destruct (Z.eqb_spec now j); [congruence|reflexivity].
  - eapply Permutation_NoDup; [apply Permutation_map; exact P|exact ND'].
Qed.

(** X9: an update removes and adds no member: the ids are those of
    before, the roster is again in the order of the names, and the
    entries are untouched.  With distinct ids, the member of the given id
    is shown under the new name and every other id as before; an id that
    is in no member only re-sorts the roster. *)
Theorem X9_update_member_keeps_ids
    (localeCompare : string -> string -> Z)
    (id : Z) (name position : string) (st : AppState) :
  let st' := handleUpdateMember localeCompare id name position st in
  st_transactions st' = st_transactions st
  /\ Permutation (map m_id (st_members st')) (map m_id (st_members st))
  /\ (ConsistentComparator localeCompare ->
      StronglySorted (nameOrder localeCompare) (st_members st'))
  /\ (~ In id (map m_id (st_members st)) ->
      Permutation (st_members st') (st_members st))
  /\ (List.NoDup (map m_id (st_members st)) ->
      (forall j, j <> id ->
         getMemberName (st_members st') (Some j)
         = getMemberName (st_members st) (Some j))
      /\ (In id (map m_id (st_members st)) -> name <> "" ->
          getMemberName (st_members st') (Some id) = name)).
Proof.
  cbv zeta. unfold handleUpdateMember.
  cbn [setMembers st_members st_transactions].
  set (f := fun m => if m_id m =? id
                     then {| m_id := m_id m; m_name := name; m_position := position |}
                     else m).
  split; [reflexivity|]. split; [|split; [|split]].
  - rewrite sort_Permutation. unfold f. rewrite map_id_update. reflexivity.
  - apply byMemberName_sorted.
  - intros H. rewrite sort_Permutation. unfold f. rewrite update_absent by assumption.
    reflexivity.
  - intros ND.
    assert (ND' : List.NoDup (map m_id (map f (st_members st)))).
    { unfold f. rewrite map_id_update. exact ND. }
    assert (F : forall j fb,
              findName (sort (byMemberName localeCompare) (map f (st_members st))) j fb
              = findName (map f (st_members st)) j fb).
    { intros j fb. unfold findName.
      rewrite <- (find_id_Permutation (map f (st_members st)) _ j); [reflexivity| |exact ND'].
      symmetry. apply sort_Permutation. }
    split.
    + intros j Hj. unfold getMemberName. rewrite F. unfold findName, f.
      rewrite find_update_other by assumption. reflexivity.
    + intros Hin Hname. unfold getMemberName. rewrite F. unfold findName, f.
      rewrite find_update_same by assumption. cbn [m_name].
      destruct (Str.eq name "") eqn:En; [|reflexivity].
      apply StrFacts.eq_true in En. contradiction.
Qed.

Lemma allNamed_Permutation (l1 l2 : list Member) :
  Permutation l1 l2 -> allNamed l1 -> allNamed l2.
Proof. intros P H. unfold allNamed in *. rewrite <- P. exact H. Qed.

Lemma find_named (members : list Member) (m : Member) :
  List.NoDup (map m_id members) -> In m members ->
  List.find (fun m' => m_id m' =? m_id m) members = Some m.
Proof.
  induction members as [|x l IH]; [intros _ []|].
  cbn [map List.find]. intros ND [->|H].
  - rewrite Z.eqb_refl. reflexivity.
  - apply List.NoDup_cons_iff in ND as [N ND].
    destruct (Z.eqb_spec (m_id x) (m_id m)) as [E|_]; [|auto].
    exfalso. apply N. rewrite E. apply in_map. exact H.
Qed.

(** X10: the edit modal saves only a name that is not blank, and saves it
    trimmed.  So a roster in which no name is empty stays so under
    adding, editing and deleting, and with distinct ids each of its
    members is shown under the member's own name, never under the
    placeholder. *)
Theorem X10_roster_names_are_never_empty
    (trim : string -> string) (localeCompare : string -> string -> Z)
    (st : AppState) :
  trim "" = "" -> allNamed (st_members st) ->
  (forall now name position,
     allNamed (st_members (handleAddMember trim localeCompare now name position st)))
  /\ (forall editingId editName editPosition,
        let st' := handleEditSave trim localeCompare editingId editName editPosition st in
        allNamed (st_members st')
        /\ (trim editName = "" -> st' = st)
        /\ (forall id, editingId = Some id -> id <> 0 -> trim editName <> "" ->
              st' = handleUpdateMember localeCompare id (trim editName) editPosition st))
  /\ (forall id, allNamed (st_members (handleDeleteMember id st)))
  /\ (List.NoDup (map m_id (st_members st)) ->
      forall m, In m (st_members st) ->
        getMemberName (st_members st) (Some (m_id m)) = m_name m).
Proof.
  intros T0 Named. split; [|split; [|split]].
  - intros now name position. unfold handleAddMember.
    destruct (Str.eq (trim name) "") eqn:E; [exact Named|].
    cbn [setMembers st_members].
    eapply allNamed_Permutation; [symmetry; apply sort_Permutation|].
    apply Forall_app. split; [exact Named|]. constructor; [|constructor].
    cbn [m_name]. intros ->. rewrite T0 in E. discriminate E.
  - intros editingId editName editPosition. cbv zeta. unfold handleEditSave.
    destruct editingId as [id|]; [|split; [exact Named|split; [reflexivity|discriminate]]].
    destruct (Z.eqb_spec id 0) as [Z0|Z0]; cbn [negb andb].
    { split; [exact Named|]. split; [reflexivity|]. intros ? [= <-]. contradiction. }
    destruct (Str.eq (trim editName) "") eqn:E; cbn [negb].
    { apply StrFacts.eq_true in E.
      split; [exact Named|]. split; [reflexivity|]. intros ? _ _ ?. contradiction. }
    split; [|split].
    + unfold handleUpdateMember. cbn [setMembers st_members].
      eapply allNamed_Permutation; [symmetry; apply sort_Permutation|].
      unfold allNamed in *. rewrite List.Forall_forall in *.
      intros m Hm. apply in_map_iff in Hm as (m0 & <- & Hm0).
      destruct (m_id m0 =? id); [|auto]. cbn [m_name].
      intros H. rewrite H in E. discriminate E.
    + intros H. rewrite H in E. discriminate E.
    + intros ? [= <-] _ _. reflexivity.
  - intros id. unfold handleDeleteMember. cbn [st_members].
    apply Forall_filter'. exact Named.
  - intros ND m Hm. unfold getMemberName, findName.
    rewrite (find_named _ _ ND Hm).
    unfold allNamed in Named. rewrite List.Forall_forall in Named.
    destruct (Str.eq (m_name m) "") eqn:E; [|reflexivity].
    apply StrFacts.eq_true in E. exfalso. exact (Named m Hm E).
Qed.

(** ** Entries from the forms *)

Lemma signedSum_app (l1 l2 : list Transaction) :
  signedSum (l1 ++ l2) = signedSum l1 + signedSum l2.
Proof. induction l1 as [|x l1 IH]; cbn [app signedSum foldr] in *; [reflexivity|]. fold (signedSum (l1 ++ l2)) (signedSum l1). lia. Qed.

Lemma filter_snoc {A : Type} (p : A -> bool) (l : list A) (x : A) :
  List.filter p (l ++ [x]) = (List.filter p l ++ (if p x then [x] else []))%list.
Proof. rewrite List.filter_app. reflexivity. Qed.

Lemma head_withBalance
    (localeCompare : string -> string -> Z) (members : list Member)
    (transactions : list Transaction) :
  transactions <> [] ->
  exists e, head (withBalance localeCompare members transactions) = Some e
            /\ balance e = signedSum transactions.
Proof.
  intros Hne.
  pose proof (rev_withBalance localeCompare members transactions) as Hc.
  destruct (withBalance localeCompare members transactions) as [|e feed] eqn:F.
  - exfalso. apply Hne.
    pose proof (attachBalance_tx 0 (sort (compareTx localeCompare members) transactions))
      as T.
    rewrite <- Hc in T. cbn [rev map] in T.
    pose proof (sort_Permutation (compareTx localeCompare members) transactions) as PL.
    rewrite <- T in PL. apply Permutation_nil. exact PL.
  - exists e. split; [reflexivity|].
    assert (Hl : last (attachBalance 0 (sort (compareTx localeCompare members) transactions))
                 = Some e).
    { rewrite <- Hc. cbn [rev]. apply last_snoc. }
    apply attachBalance_last in Hl. rewrite Hl.
    rewrite (signedSum_Permutation _ transactions); [lia|apply sort_Permutation].
Qed.

(** X11: the two forms add an entry only with an amount above zero, the
    income form only with a member chosen and the expense form only with
    a category.  So if every entry has a positive amount and every
    income entry a member, this is still so after a submission; a
    submission that is turned down changes nothing, and an accepted one
    appends one entry with the id [now]. *)
Theorem X11_forms_accept_positive_amounts_only
    (now : Z) (date category : string) (memberId amount : option Z) (memo : string)
    (st : AppState) :
  Forall fromForms (st_transactions st) ->
  let viaIncome := incomeSubmit now date category memberId amount st in
  let viaExpense := expenseSubmit now date category memberId amount memo st in
  Forall fromForms (st_transactions viaIncome)
  /\ Forall fromForms (st_transactions viaExpense)
  /\ (viaIncome = st
      \/ exists a m, amount = Some a /\ memberId = Some m /\ 0 < a
           /\ viaIncome
              = setTransactions
                  (st_transactions st
                   ++ [{| tx_id := now; tx_type := income; tx_date := date;
                          tx_category := category; tx_amount := a;
                          tx_memberId := Some m; tx_memo := None |}]) st)
  /\ (viaExpense = st
      \/ exists a, amount = Some a /\ 0 < a /\ category <> ""
           /\ viaExpense
              = setTransactions
                  (st_transactions st
                   ++ [{| tx_id := now; tx_type := expense; tx_date := date;
                          tx_category := category; tx_amount := a;
                          tx_memberId := memberId; tx_memo := Some memo |}]) st).
Proof.
  intros Inv. cbv zeta. unfold incomeSubmit, expenseSubmit, handleAddTransaction, withId.
  cbn [in_type in_date in_category in_amount in_memberId in_memo].
  destruct amount as [a|]; [|auto].
  destruct (Z.leb_spec a 0) as [Ha|Ha]; cbn [orb].
  { destruct memberId; auto. }
  assert (I : forall tx, fromForms tx ->
                Forall fromForms (st_transactions st ++ [tx])).
  { intros tx Htx. apply Forall_app. split; [exact Inv|]. constructor; [exact Htx|constructor]. }
  split; [|split; [|split]].
  - destruct memberId as [m|]; [|exact Inv].
    cbn [setTransactions st_transactions]. apply I.
    split; cbn [tx_amount tx_type tx_memberId]; [lia|discriminate].
  - destruct (Str.eq category ""); [exact Inv|].
    cbn [setTransactions st_transactions]. apply I.
    split; cbn [tx_amount tx_type tx_memberId]; [lia|discriminate].
  - destruct memberId as [m|]; [|auto]. right. exists a, m. auto.
  - destruct (Str.eq category "") eqn:E; [auto|]. right. exists a.
    repeat split; try assumption. intros ->. discriminate E.
Qed.

(** X12: a new entry moves the balances by its signed amount: the top
    balance of the list always, today's balance when the entry is dated
    today or before, and the balance before today when it is dated
    before today. *)
Theorem X12_added_entry_moves_balances
    (localeCompare : string -> string -> Z) (members : list Member)
    (now : Z) (tx : TransactionInput) (st : AppState) (todayStr : string) :
  let st' := handleAddTransaction now tx st in
  let new := withId now tx in
  let before := balanceData (st_transactions st) todayStr in
  let after := balanceData (st_transactions st') todayStr in
  st_transactions st' = (st_transactions st ++ [new])%list
  /\ st_members st' = st_members st
  /\ (exists e,
        head (withBalance localeCompare members (st_transactions st')) = Some e
        /\ balance e = signedSum (st_transactions st) + signedAmount new)
  /\ previousBalance after
     = previousBalance before
       + (if Str.lt (tx_date new) todayStr then signedAmount new else 0)
  /\ todaysChange after
     = todaysChange before
       + (if Str.eq (tx_date new) todayStr then signedAmount new else 0)
  /\ todaysBalance after
     = todaysBalance before
       + (if Str.le (tx_date new) todayStr then signedAmount new else 0).
Proof.
  cbv zeta. unfold handleAddTransaction. cbn [setTransactions st_transactions st_members].
  set (new := withId now tx). set (txs := st_transactions st).
  split; [reflexivity|]. split; [reflexivity|]. split.
  - destruct (head_withBalance localeCompare members (txs ++ [new])) as (e & He & Hb).
    { destruct txs; discriminate. }
    exists e. split; [exact He|]. rewrite Hb, signedSum_app.
    cbn [signedSum foldr]. lia.
  - unfold balanceData.
    cbn [previousBalance todaysChange todaysBalance].
    rewrite !balanceStep_fold, !filter_snoc, !signedSum_app. cbn [fst snd].
    unfold Str.le. change (String.ltb todayStr (tx_date new))
      with (Str.lt todayStr (tx_date new)).
    destruct (StrFacts.trichotomy (tx_date new) todayStr)
      as [(-> & -> & ->)|[(-> & -> & ->)|(-> & -> & ->)]];
      cbn [signedSum foldr negb]; repeat split; lia.
Qed.

(** X13: the balance on top of the list is today's balance plus the
    signed amounts of the entries dated after today. *)
Theorem X13_top_balance_and_todays_balance
    (localeCompare : string -> string -> Z) (members : list Member)
    (transactions : list Transaction) (todayStr : string) :
  transactions <> [] ->
  exists e,
    head (withBalance localeCompare members transactions) = Some e
    /\ balance e
       = todaysBalance (balanceData transactions todayStr)
         + signedSum (List.filter (fun tx => Str.lt todayStr (tx_date tx)) transactions).
Proof.
  intros Hne.
  destruct (head_withBalance localeCompare members transactions Hne) as (e & He & Hb).
  exists e. split; [exact He|]. rewrite Hb.
  unfold balanceData. cbn [todaysBalance]. rewrite balanceStep_fold. cbn [fst snd].
  clear. induction transactions as [|x l IH]; [reflexivity|].
  cbn [List.filter signedSum foldr].
  fold (signedSum l). unfold signedSum in IH |- *. fold signedSum in *.
  destruct (StrFacts.trichotomy (tx_date x) todayStr)
    as [(-> & -> & ->)|[(-> & -> & ->)|(-> & -> & ->)]];
    cbn [signedSum foldr]; fold signedSum; lia.
Qed.

(** ** The order of the lists *)

Lemma getTime_valid (tx : Transaction) :
  validDate tx = true -> getTime (tx_date tx) = Num (timeOf tx).
Proof.
  unfold validDate, getTime, timeOf. destruct (Date.parse (tx_date tx)); [reflexivity|discriminate].
Qed.

Lemma newestFirst_valid (a b : Transaction) :
  validDate a = true -> validDate b = true ->
  SortCompare newestFirst a b
  = if timeOf b - timeOf a =? 0 then tx_id b - tx_id a else timeOf b - timeOf a.
Proof.
  intros Ha Hb. unfold SortCompare, newestFirst.
  rewrite (getTime_valid a Ha), (getTime_valid b Hb).
  destruct (timeOf b - timeOf a =? 0); reflexivity.
Qed.

Lemma newestFirst_le (a b : Transaction) :
  validDate a = true -> validDate b = true ->
  SortCompare newestFirst a b <= 0 <-> newerFirst a b.
Proof.
  intros Ha Hb. rewrite (newestFirst_valid a b Ha Hb). unfold newerFirst.
  destruct (Z.eqb_spec (timeOf b - timeOf a) 0); lia.
Qed.

(** X14: when every entry has a date, the list by date holds the entries
    given, later dates first and, within a date, larger ids first; with
    distinct ids it does not depend on the order in which the entries
    are stored. *)
Theorem X14_list_by_date_is_newest_first (transactions : list Transaction) :
  Forall (fun tx => validDate tx = true) transactions ->
  Permutation (sortedTransactions transactions) transactions
  /\ StronglySorted newerFirst (sortedTransactions transactions)
  /\ (List.NoDup (map tx_id transactions) ->
      forall transactions', Permutation transactions transactions' ->
        sortedTransactions transactions' = sortedTransactions transactions).
Proof.
  intros Hv. unfold sortedTransactions. split; [apply sort_Permutation|]. split.
  - apply (sort_StronglySorted newestFirst (fun tx => validDate tx = true) newerFirst).
    + intros x y z _ _ _. unfold newerFirst. lia.
    + intros x y Hx Hy H. apply newestFirst_le; assumption.
    + intros x y Hx Hy H. apply newestFirst_le; [assumption..|].
      rewrite newestFirst_valid in * by assumption.
      destruct (Z.eqb_spec (timeOf y - timeOf x) 0), (Z.eqb_spec (timeOf x - timeOf y) 0); lia.
    + exact Hv.
  - intros ND l' Hp. symmetry.
    rewrite List.Forall_forall in Hv.
    apply sort_Permutation_invariant
      with (D := fun tx => In tx transactions).
    + intros x y z Hx Hy Hz. rewrite !newestFirst_le by auto. unfold newerFirst. lia.
    + intros x y Hx Hy. rewrite !newestFirst_le by auto. unfold newerFirst. lia.
    + intros x y Hx Hy. rewrite !newestFirst_le by auto. unfold newerFirst. intros H1 H2.
      apply (NoDup_map_inj_in tx_id transactions); auto. lia.
    + apply List.Forall_forall. auto.
    + exact Hp.
Qed.

Lemma StronglySorted_app {A : Type} (R : A -> A -> Prop) (l1 l2 : list A) :
  StronglySorted R l1 -> StronglySorted R l2 ->
  (forall x y, In x l1 -> In y l2 -> R x y) ->
  StronglySorted R (l1 ++ l2).
Proof.
  induction l1 as [|a l1 IH]; intros H1 H2 H; [exact H2|].
  inversion H1 as [|? ? S F]; subst. cbn [app]. constructor.
  - apply IH; [assumption..|]. intros x y Hx Hy. apply H; [right|]; assumption.
  - apply Forall_app. split; [exact F|].
    apply List.Forall_forall. intros y Hy. apply H; [left; reflexivity|assumption].
Qed.

Lemma StronglySorted_rev {A : Type} (R : A -> A -> Prop) (l : list A) :
  StronglySorted R l -> StronglySorted (fun x y => R y x) (rev l).
Proof.
  induction 1 as [|a l S IH F]; [constructor|].
  cbn [rev]. apply StronglySorted_app; [exact IH|repeat constructor|].
  intros x y Hx [<-|[]]. rewrite List.Forall_forall in F. apply F, in_rev, Hx.
Qed.

Lemma StronglySorted_weaken {A : Type} (D : A -> Prop) (R R' : A -> A -> Prop)
    (l : list A) :
  (forall x y, D x -> D y -> R x y -> R' x y) ->
  Forall D l -> StronglySorted R l -> StronglySorted R' l.
Proof.
  intros W Dl. induction 1 as [|a l S IH F]; [constructor|].
  inversion Dl as [|? ? Da Dl']; subst. constructor; [auto|].
  rewrite List.Forall_forall in *. auto.
Qed.

Lemma compareTx_shownAbove
    (localeCompare : string -> string -> Z) (members : list Member)
    (a b : Transaction) :
  validDate a = true -> validDate b = true ->
  SortCompare (compareTx localeCompare members) b a <= 0 ->
  shownAbove localeCompare members a b.
Proof.
  intros Ha Hb. unfold SortCompare, compareTx, incomeTieBreak, byId, shownAbove.
  rewrite (getTime_valid a Ha), (getTime_valid b Hb).
  generalize (timeOf a) (timeOf b) (effectiveIndex (tx_category a))
             (effectiveIndex (tx_category b))
             (localeCompare (getMemberNameForSort members (tx_memberId a))
                            (getMemberNameForSort members (tx_memberId b))).
  intros ta tb ia ib n. cbv zeta.
  destruct (Z.eqb_spec (tb - ta) 0); cbn [negb]; [|lia].
  destruct (tx_type a), (tx_type b); cbn [TxType_eqb negb]; try lia.
  destruct (Z.eqb_spec ib ia); cbn [negb]; [|lia].
  destruct (Z.eqb_spec n 0); cbn [negb]; lia.
Qed.

Lemma indexOfFrom_absent (l : list string) (x : string) :
  forall i, ~ In x l -> indexOfFrom i l x = -1.
Proof.
  induction l as [|y l IH]; intros i H; [reflexivity|].
  cbn [indexOfFrom]. destruct (Str.eq y x) eqn:E.
  - apply StrFacts.eq_true in E. exfalso. apply H. left. exact E.
  - apply IH. intros Hx. apply H. right. exact Hx.
Qed.

Lemma indexOfFrom_present (l : list string) (x : string) :
  forall i, In x l -> i <= indexOfFrom i l x < i + Z.of_nat (length l).
Proof.
  induction l as [|y l IH]; intros i H; [destruct H|].
  cbn [indexOfFrom length]. destruct (Str.eq y x) eqn:E; [lia|].
  destruct H as [->|H]; [rewrite (proj2 (StrFacts.eq_true x x) eq_refl) in E; discriminate E|].
  specialize (IH (i + 1) H). lia.
Qed.

(** X15: the order of the list of entries, for dated entries and a
    consistent collation: later dates above earlier ones; within a date
    the expenses above the incomes; the expenses by descending id; the
    incomes by descending category index, then by ascending name, then
    by descending id.  The category index is the position in
    [categoryOrder], so a tithe is above every other listed category,
    and a category that is not listed has index 10 and is above them
    all. *)
Theorem X15_display_order
    (localeCompare : string -> string -> Z) (members : list Member)
    (transactions : list Transaction) :
  ConsistentComparator localeCompare ->
  Forall (fun tx => validDate tx = true) transactions ->
  StronglySorted (shownAbove localeCompare members)
    (map twb_tx (withBalance localeCompare members transactions))
  /\ (forall c, In c categoryOrder -> 0 <= effectiveIndex c <= effectiveIndex "십일조")
  /\ (forall c, ~ In c categoryOrder -> effectiveIndex c = 10)
  /\ effectiveIndex "십일조" = 9.
Proof.
  intros Hc Hv. split; [|split; [|split]].
  - assert (E : map twb_tx (withBalance localeCompare members transactions)
                = rev (sort (compareTx localeCompare members) transactions)).
    { rewrite <- (withBalance_tx localeCompare members transactions).
      rewrite map_rev, rev_involutive. reflexivity. }
    rewrite E.
    apply (StronglySorted_weaken (fun tx => validDate tx = true)
             (fun x y => SortCompare (compareTx localeCompare members) y x <= 0)).
    + intros x y Hx Hy. apply compareTx_shownAbove; assumption.
    + rewrite List.Forall_forall in *. intros x Hx. apply Hv.
      apply in_rev in Hx.
      apply (Permutation_in _ (sort_Permutation (compareTx localeCompare members)
                                 transactions)), Hx.
    + apply (StronglySorted_rev
               (fun x y => SortCompare (compareTx localeCompare members) x y <= 0)).
      apply sort_sorted with (D := fun tx => validDate tx = true).
      * intros x y z. apply compareTx_trans. exact Hc.
      * intros x y. apply compareTx_total. exact Hc.
      * exact Hv.
  - intros c H.
    assert (T : effectiveIndex "십일조" = 9) by reflexivity. rewrite T.
    unfold effectiveIndex, indexOf.
    pose proof (indexOfFrom_present categoryOrder c 0 H) as R.
    change (Z.of_nat (length categoryOrder)) with 10 in *.
    destruct (Z.eqb_spec (indexOfFrom 0 categoryOrder c) (-1)); lia.
  - intros c H. unfold effectiveIndex, indexOf.
    rewrite (indexOfFrom_absent _ _ 0 H). reflexivity.
  - reflexivity.
Qed.

(** ** The search modal *)

Lemma signedSum_split (l : list Transaction) :
  signedSum l = amountSum (List.filter isIncome l) - amountSum (List.filter isExpense l).
Proof.
  unfold signedSum, amountSum.
  induction l as [|x l IH]; [reflexivity|].
  cbn [foldr List.filter]. rewrite IH.
  change (isIncome x) with (TxType_eqb (tx_type x) income).
  change (isExpense x) with (TxType_eqb (tx_type x) expense).
  unfold signedAmount.
  destruct (tx_type x); cbn [TxType_eqb foldr]; lia.
Qed.

(** X16: the two totals of today in the search modal are the sums of
    today's income and of today's expense, and their difference is
    today's change of the main screen. *)
Theorem X16_todays_totals_agree (transactions : list Transaction) (today : string) :
  let todays := List.filter (fun tx => Str.eq (tx_date tx) today) transactions in
  fst (todaysTotals transactions today) = amountSum (List.filter isIncome todays)
  /\ snd (todaysTotals transactions today) = amountSum (List.filter isExpense todays)
  /\ todaysChange (balanceData transactions today)
     = fst (todaysTotals transactions today) - snd (todaysTotals transactions today).
Proof.
  cbv zeta. unfold todaysTotals. cbn [fst snd]. rewrite !total_amountSum.
  split; [reflexivity|]. split; [reflexivity|].
  unfold balanceData. cbn [todaysChange]. rewrite balanceStep_fold. cbn [snd].
  rewrite signedSum_split. reflexivity.
Qed.

Lemma categorySearch_filter (transactions : list Transaction)
    (categoryType : TxType) (categoryQuery startDate endDate : string) :
  List.filter (fun tx => TxType_eqb (tx_type tx) categoryType
                         && Str.eq (tx_category tx) categoryQuery)
              (filteredTransactions transactions startDate endDate)
  = List.filter (matchesCategory categoryType categoryQuery startDate endDate)
                transactions.
Proof.
  unfold filteredTransactions. rewrite filter_filter_andb.
  apply List.filter_ext. intros tx. unfold matchesCategory, Str.ge, Str.le.
  generalize (TxType_eqb (tx_type tx) categoryType)
             (Str.eq (tx_category tx) categoryQuery)
             (String.ltb (tx_date tx) startDate) (String.ltb endDate (tx_date tx)).
  intros [] [] [] []; reflexivity.
Qed.

(** X17: the search by category lists, in the stored order, exactly the
    entries of the chosen type and category dated from the start date to
    the end date, both included, with the sum of their amounts; an end
    date before the start date gives the empty list and the total 0.
    It gives nothing for the other kind of search or an empty category,
    and the two kinds of search never both give a result. *)
Theorem X17_search_by_category (transactions : list Transaction)
    (searchType : SearchType) (nameQuery : option Z)
    (categoryType : TxType) (categoryQuery startDate endDate : string) :
  (categoryQuery <> "" ->
   exists r : SearchResult,
     categorySearchResult transactions startDate endDate byCategory
                          categoryType categoryQuery = Some r
     /\ sr_transactions r
        = List.filter (matchesCategory categoryType categoryQuery startDate endDate)
                      transactions
     /\ sr_total r = amountSum (sr_transactions r)
     /\ (forall tx, In tx (sr_transactions r) <->
           In tx transactions /\ tx_type tx = categoryType
           /\ tx_category tx = categoryQuery
           /\ Str.le startDate (tx_date tx) = true
           /\ Str.le (tx_date tx) endDate = true)
     /\ (Str.lt endDate startDate = true ->
           sr_transactions r = [] /\ sr_total r = 0))
  /\ categorySearchResult transactions startDate endDate searchType
                          categoryType "" = None
  /\ categorySearchResult transactions startDate endDate byName
                          categoryType categoryQuery = None
  /\ (nameSearchResult transactions startDate endDate searchType nameQuery = None
      \/ categorySearchResult transactions startDate endDate searchType
                              categoryType categoryQuery = None).
Proof.
  split; [|split; [|split]].
  - intros Hq. unfold categorySearchResult. cbn [SearchType_eqb negb orb].
    destruct (Str.eq categoryQuery "") eqn:E.
    { apply StrFacts.eq_true in E. contradiction. }
    eexists. split; [reflexivity|]. cbn [sr_transactions sr_total].
    rewrite categorySearch_filter, total_amountSum.
    split; [reflexivity|]. split; [reflexivity|].
    assert (M : forall tx,
              matchesCategory categoryType categoryQuery startDate endDate tx = true <->
              tx_type tx = categoryType /\ tx_category tx = categoryQuery
              /\ Str.le startDate (tx_date tx) = true
              /\ Str.le (tx_date tx) endDate = true).
    { intros tx. unfold matchesCategory. rewrite !andb_true_iff, StrFacts.eq_true.
      assert (T : TxType_eqb (tx_type tx) categoryType = true <-> tx_type tx = categoryType).
      { destruct (tx_type tx), categoryType; cbn; split; congruence. }
      tauto. }
    split.
    + intros tx. rewrite filter_In, M. tauto.
    + intros Hinv.
      assert (N : List.filter (matchesCategory categoryType categoryQuery startDate endDate)
                    transactions = []).
      { induction transactions as [|tx l IH]; [reflexivity|]. cbn [List.filter].
        destruct (matchesCategory _ _ _ _ tx) eqn:Em; [|exact IH].
        apply M in Em as (_ & _ & H1 & H2).
        pose proof (StrFacts.lt_le_trans _ _ _ Hinv H1) as L.
        unfold Str.le in H2. unfold Str.lt in L. rewrite L in H2. discriminate H2. }
      rewrite N. split; reflexivity.
  - unfold categorySearchResult. destruct searchType; reflexivity.
  - reflexivity.
  - destruct searchType; [right; reflexivity|left]. destruct nameQuery; reflexivity.
Qed.

(** ** Pages *)

Lemma totalPages_bounds {A : Type} (l : list A) :
  ITEMS_PER_PAGE * (totalPages l - 1) < Z.of_nat (length l)
  <= ITEMS_PER_PAGE * totalPages l.
Proof.
  unfold totalPages, ITEMS_PER_PAGE. generalize (Z.of_nat (length l)). intros n.
  Z.div_mod_to_equations. lia.
Qed.

Lemma paginatedTransactions_eq {A : Type} (l : list A) (page : Z) :
  1 <= page ->
  paginatedTransactions page l
  = take 20 (drop (Z.to_nat (ITEMS_PER_PAGE * (page - 1))) l).
Proof.
  intros Hp. unfold paginatedTransactions, slice, ITEMS_PER_PAGE.
  destruct (Z.ltb_spec ((page - 1) * 20) 0); [lia|].
  destruct (Z.ltb_spec (page * 20) 0); [lia|].
  set (len := Z.of_nat (length l)).
  destruct (Z.le_gt_cases len ((page - 1) * 20)) as [H1|H1].
  - rewrite Z.min_r by lia.
    rewrite !drop_ge by (unfold len in *; lia). rewrite !take_nil. reflexivity.
  - rewrite (Z.min_l ((page - 1) * 20)) by lia.
    replace (Z.to_nat (20 * (page - 1))) with (Z.to_nat ((page - 1) * 20)) by lia.
    destruct (Z.le_gt_cases (page * 20) len) as [H2|H2].
    + rewrite Z.min_l by lia. f_equal. lia.
    + rewrite Z.min_r by lia.
      rewrite !take_ge; [reflexivity|rewrite length_drop..]; unfold len in *; lia.
Qed.

(** X18: the pages cut the list into runs of twenty: the entry at
    position [j] of a page is the entry at position [20 * (page - 1) + j]
    of the list, every page up to the last one has between one and
    twenty entries, a page beyond the last one is empty, and every
    entry of the list is on exactly the page its position gives. *)
Theorem X18_pages_partition_the_list {A : Type} (l : list A) (page : Z) :
  1 <= page ->
  (forall j : nat,
     paginatedTransactions page l !! j
     = if (j <? 20)%nat
       then l !! (Z.to_nat (ITEMS_PER_PAGE * (page - 1)) + j)%nat
       else None)
  /\ (page <= totalPages l ->
      (1 <= length (paginatedTransactions page l) <= 20)%nat)
  /\ (totalPages l < page -> paginatedTransactions page l = [])
  /\ (forall (i : nat) (x : A),
        l !! i = Some x ->
        1 <= Z.of_nat i / ITEMS_PER_PAGE + 1 <= totalPages l
        /\ paginatedTransactions (Z.of_nat i / ITEMS_PER_PAGE + 1) l
             !! (i mod 20)%nat = Some x).
Proof.
  intros Hp. pose proof (totalPages_bounds l) as B. unfold ITEMS_PER_PAGE in *.
  split; [|split; [|split]].
  - intros j. rewrite paginatedTransactions_eq by assumption.
    destruct (Nat.ltb_spec j 20) as [Hj|Hj].
    + rewrite lookup_take_lt by assumption. apply lookup_drop.
    + apply lookup_take_ge. assumption.
  - intros Ht. rewrite paginatedTransactions_eq by assumption.
    rewrite length_take, length_drop. unfold ITEMS_PER_PAGE. lia.
  - intros Ht. rewrite paginatedTransactions_eq by assumption.
    rewrite drop_ge; [apply take_nil|]. unfold ITEMS_PER_PAGE. lia.
  - intros i x Hi.
    pose proof (lookup_lt_Some _ _ _ Hi) as Li.
    assert (Q : 0 <= Z.of_nat i / 20) by (apply Z.div_pos; lia).
    pose proof (Z.div_mod (Z.of_nat i) 20 ltac:(lia)) as DM.
    pose proof (Z.mod_pos_bound (Z.of_nat i) 20 ltac:(lia)) as MB.
    split.
    + split; [lia|].
      assert (20 * (Z.of_nat i / 20 + 1 - 1) < 20 * totalPages l) by lia. lia.
    + rewrite paginatedTransactions_eq by lia.
      assert (M : Z.of_nat (i mod 20) = Z.of_nat i mod 20).
      { rewrite Nat2Z.inj_mod. reflexivity. }
      rewrite lookup_take_lt by lia. rewrite lookup_drop.
      unfold ITEMS_PER_PAGE.
      replace (Z.to_nat (20 * (Z.of_nat i / 20 + 1 - 1)) + i mod 20)%nat with i by lia.
      exact Hi.
Qed.

Lemma handlePageChange_range {A : Type} (l : list A) (page currentPage : Z) :
  1 <= currentPage <= totalPages l ->
  1 <= handlePageChange l page currentPage <= totalPages l.
Proof.
  intros H. unfold handlePageChange.
  destruct (Z.leb_spec 1 page), (Z.leb_spec page (totalPages l)); cbn [andb]; lia.
Qed.

(** X19: starting from page 1 of a list that is not empty, no sequence
    of page changes leaves the range from 1 to the number of pages, so
    the page shown is never empty; a request outside the range is
    ignored. *)
Theorem X19_current_page_stays_in_range {A : Type} (l : list A) (requests : list Z) :
  l <> [] ->
  let currentPage :=
    fold_left (fun currentPage page => handlePageChange l page currentPage) requests 1 in
  1 <= currentPage <= totalPages l
  /\ paginatedTransactions currentPage l <> []
  /\ (forall page, (page < 1 \/ totalPages l < page) ->
        handlePageChange l page currentPage = currentPage).
Proof.
  intros Hne. cbv zeta.
  pose proof (totalPages_bounds l) as B. unfold ITEMS_PER_PAGE in B.
  assert (L : (0 < length l)%nat) by (destruct l; [contradiction|cbn; lia]).
  assert (R : forall cur, 1 <= cur <= totalPages l ->
            1 <= fold_left (fun currentPage page => handlePageChange l page currentPage)
                   requests cur <= totalPages l).
  { induction requests as [|r rs IH]; intros cur Hc; [exact Hc|].
    cbn [fold_left]. apply IH, handlePageChange_range, Hc. }
  specialize (R 1 ltac:(lia)).
  split; [exact R|]. split.
  - rewrite paginatedTransactions_eq by lia. intros E.
    apply (f_equal length) in E. rewrite length_take, length_drop in E.
    unfold ITEMS_PER_PAGE in E. cbn [length] in E. lia.
  - intros page Hpage. unfold handlePageChange.
    destruct (Z.leb_spec 1 page), (Z.leb_spec page (totalPages l)); cbn [andb];
      try reflexivity; lia.
Qed.

(** ** The windows *)

Lemma amountSum_Permutation (l1 l2 : list Transaction) :
  Permutation l1 l2 -> amountSum l1 = amountSum l2.
Proof.
  unfold amountSum. induction 1; cbn [foldr]; lia.
Qed.

Lemma filter_Permutation' {A : Type} (p : A -> bool) (l1 l2 : list A) :
  Permutation l1 l2 -> Permutation (List.filter p l1) (List.filter p l2).
Proof.
  induction 1 as [|x l1 l2 P IH|x y l|l1 l2 l3 P1 IH1 P2 IH2]; cbn [List.filter].
  - constructor.
  - destruct (p x); [constructor|]; exact IH.
  - destruct (p x), (p y); try reflexivity. apply perm_swap.
  - etransitivity; eassumption.
Qed.

Lemma amountSum_cons_filter (p : Transaction -> bool) (x : Transaction)
    (l : list Transaction) :
  amountSum (List.filter p (x :: l))
  = (if p x then tx_amount x else 0) + amountSum (List.filter p l).
Proof. cbn [List.filter]. destruct (p x); reflexivity. Qed.

Lemma windowStep_offerings (ys ws : string) (l : list Transaction) :
  forall acc : WindowAcc,
    let r := fold_left (windowStep ys ws) l acc in
    acc_weeklySeongyo r
      = acc_weeklySeongyo acc + amountSum (List.filter (countsFor "선교헌금" ws) l)
    /\ acc_weeklyGeonchuk r
      = acc_weeklyGeonchuk acc + amountSum (List.filter (countsFor "건축헌금" ws) l).
Proof.
  induction l as [|tx l IH]; intros acc; cbv zeta.
  - cbn [fold_left List.filter amountSum foldr]. lia.
  - cbn [fold_left]. destruct (IH (windowStep ys ws acc tx)) as [H1 H2].
    rewrite H1, H2, !amountSum_cons_filter. clear.
    unfold windowStep, weeklyStep, yearlyStep, countsFor, isIncome.
    rewrite !ge_fromDate.
    assert (Hy : forall a,
              acc_weeklySeongyo
                (if fromDate ys tx
                 then match tx_type tx with
                      | income => addYearlyIncome (tx_amount tx) a
                      | expense => addYearlyExpense (tx_amount tx) a
                      end
                 else a) = acc_weeklySeongyo a
              /\ acc_weeklyGeonchuk
                   (if fromDate ys tx
                    then match tx_type tx with
                         | income => addYearlyIncome (tx_amount tx) a
                         | expense => addYearlyExpense (tx_amount tx) a
                         end
                    else a) = acc_weeklyGeonchuk a).
    { intros a. destruct (fromDate ys tx), (tx_type tx); split; reflexivity. }
    destruct (Hy acc) as [Y1 Y2].
    destruct (fromDate ws tx); [|rewrite Y1, Y2, !andb_false_r; cbn [andb]; lia].
    destruct (tx_type tx); cbn [TxType_eqb andb]; [|cbn; rewrite Y1, Y2; lia].
    destruct (Str.eq (tx_category tx) "선교헌금") eqn:E1.
    { apply StrFacts.eq_true in E1. rewrite E1. cbn. rewrite Y1, Y2. lia. }
    destruct (Str.eq (tx_category tx) "건축헌금") eqn:E2.
    { apply StrFacts.eq_true in E2. rewrite E2. cbn. rewrite Y1, Y2. lia. }
    destruct (includes gyeongsangbiCategories (tx_category tx)); cbn; rewrite Y1, Y2; lia.
Qed.

Lemma breakdown_final (ys ws k : string) (l : list Transaction) :
  In k gyeongsangbiCategories ->
  acc_breakdown (fold_left (windowStep ys ws) l initialWindowAcc) !! k
  = Some (amountSum (List.filter (countsFor k ws) l)).
Proof.
  intros Hk. rewrite (windowStep_breakdown ys ws k l Hk). cbn [initialWindowAcc acc_breakdown].
  rewrite (initialBreakdown_lookup k Hk). reflexivity.
Qed.

Lemma breakdown_absent (ys ws k : string) (l : list Transaction) :
  ~ In k gyeongsangbiCategories ->
  acc_breakdown (fold_left (windowStep ys ws) l initialWindowAcc) !! k = None.
Proof.
  intros Hk. apply not_elem_of_dom.
  rewrite windowStep_dom. cbn [initialWindowAcc acc_breakdown].
  rewrite initialBreakdown_dom, elem_of_list_to_set, list_elem_of_In. exact Hk.
Qed.

Lemma WindowAcc_eq (a b : WindowAcc) :
  acc_weeklyIncome a = acc_weeklyIncome b ->
  acc_weeklyExpense a = acc_weeklyExpense b ->
  acc_yearlyIncome a = acc_yearlyIncome b ->
  acc_yearlyExpense a = acc_yearlyExpense b ->
  acc_breakdown a = acc_breakdown b ->
  acc_weeklySeongyo a = acc_weeklySeongyo b ->
  acc_weeklyGeonchuk a = acc_weeklyGeonchuk b ->
  a = b.
Proof. destruct a, b. cbn. intros. subst. reflexivity. Qed.

Lemma windowStep_Permutation (ys ws : string) (l1 l2 : list Transaction) :
  Permutation l1 l2 ->
  fold_left (windowStep ys ws) l1 initialWindowAcc
  = fold_left (windowStep ys ws) l2 initialWindowAcc.
Proof.
  intros P.
  assert (S : forall p, amountSum (List.filter p l1) = amountSum (List.filter p l2)).
  { intros p. apply amountSum_Permutation, filter_Permutation', P. }
  destruct (windowStep_totals ys ws l1 initialWindowAcc) as (A1 & A2 & A3 & A4).
  destruct (windowStep_totals ys ws l2 initialWindowAcc) as (B1 & B2 & B3 & B4).
  destruct (windowStep_offerings ys ws l1 initialWindowAcc) as (A5 & A6).
  destruct (windowStep_offerings ys ws l2 initialWindowAcc) as (B5 & B6).
  apply WindowAcc_eq; try (rewrite ?A1, ?A2, ?A3, ?A4, ?A5, ?A6,
                                   ?B1, ?B2, ?B3, ?B4, ?B5, ?B6, ?S; reflexivity).
  apply map_eq. intros k.
  destruct (in_dec string_dec k gyeongsangbiCategories) as [Hk|Hk].
  - rewrite !breakdown_final by assumption. rewrite S. reflexivity.
  - rewrite !breakdown_absent by assumption. reflexivity.
Qed.

(** X20: none of the totals depends on the order in which the entries
    are stored: the balances of today, the weekly and yearly summary, the
    weekly category totals and the totals of today in the search modal
    are the same for any rearrangement of the entries. *)
Theorem X20_totals_ignore_stored_order
    (LocalTZA : Z -> bool -> Z) (transactions transactions' : list Transaction) (todayStr : string) :
  Permutation transactions transactions' ->
  balanceData transactions' todayStr = balanceData transactions todayStr
  /\ periodicalSummary LocalTZA transactions' todayStr
     = periodicalSummary LocalTZA transactions todayStr
  /\ weeklyCategoryTotals LocalTZA transactions' todayStr
     = weeklyCategoryTotals LocalTZA transactions todayStr
  /\ todaysTotals transactions' todayStr = todaysTotals transactions todayStr.
Proof.
  intros P.
  assert (W : windowTotals LocalTZA transactions' todayStr
              = windowTotals LocalTZA transactions todayStr).
  { unfold windowTotals. destruct (Date.parse todayStr) as [today|]; [|reflexivity].
    cbn. f_equal. symmetry. apply windowStep_Permutation, P. }
  split; [|split; [|split]].
  - unfold balanceData. rewrite !balanceStep_fold. cbn [fst snd].
    rewrite !(signedSum_Permutation _ _ (filter_Permutation' _ _ _ P)). reflexivity.
  - unfold periodicalSummary. rewrite W. reflexivity.
  - unfold weeklyCategoryTotals. rewrite W. reflexivity.
  - unfold todaysTotals. rewrite !total_amountSum.
    f_equal; apply amountSum_Permutation; symmetry;
      repeat apply filter_Permutation'; exact P.
Qed.

Lemma eq_sym' (a b : string) : Str.eq a b = Str.eq b a.
Proof. apply String.eqb_sym. Qed.

(** Each income entry of the week is in exactly one group. *)
Lemma weekly_groups (ws : string) (tx : Transaction) :
  (if isIncome tx && fromDate ws tx then tx_amount tx else 0)
  = foldr (fun k s => (if countsFor k ws tx then tx_amount tx else 0) + s) 0
          gyeongsangbiCategories
    + (if countsFor "선교헌금" ws tx then tx_amount tx else 0)
    + (if countsFor "건축헌금" ws tx then tx_amount tx else 0)
    + (if uncategorised ws tx then tx_amount tx else 0).
Proof.
  unfold countsFor, uncategorised, includes.
  cbn [gyeongsangbiCategories foldr existsb].
  rewrite !(eq_sym' _ (tx_category tx)).
  generalize (isIncome tx && fromDate ws tx) (tx_amount tx). intros g a.
  destruct (Str.eq (tx_category tx) "주정헌금") eqn:E1;
    [apply StrFacts.eq_true in E1; rewrite ?E1; destruct g; cbn; lia|].
  destruct (Str.eq (tx_category tx) "십일조") eqn:E2;
    [apply StrFacts.eq_true in E2; rewrite ?E2; destruct g; cbn; lia|].
  destruct (Str.eq (tx_category tx) "감사헌금") eqn:E3;
    [apply StrFacts.eq_true in E3; rewrite ?E3; destruct g; cbn; lia|].
  destruct (Str.eq (tx_category tx) "생일감사") eqn:E4;
    [apply StrFacts.eq_true in E4; rewrite ?E4; destruct g; cbn; lia|].
  destruct (Str.eq (tx_category tx) "심방감사") eqn:E5;
    [apply StrFacts.eq_true in E5; rewrite ?E5; destruct g; cbn; lia|].
  destruct (Str.eq (tx_category tx) "일천번제") eqn:E6;
    [apply StrFacts.eq_true in E6; rewrite ?E6; destruct g; cbn; lia|].
  destruct (Str.eq (tx_category tx) "선교헌금") eqn:E7;
    [apply StrFacts.eq_true in E7; rewrite ?E7; destruct g; cbn; lia|].
  destruct (Str.eq (tx_category tx) "건축헌금") eqn:E8;
    [apply StrFacts.eq_true in E8; rewrite ?E8; destruct g; cbn; lia|].
  destruct g; cbn; lia.
Qed.

Lemma weekly_groups_sum (ws : string) (l : list Transaction) :
  amountSum (List.filter (fun tx => isIncome tx && fromDate ws tx) l)
  = foldr (fun k s => amountSum (List.filter (countsFor k ws) l) + s) 0
          gyeongsangbiCategories
    + amountSum (List.filter (countsFor "선교헌금" ws) l)
    + amountSum (List.filter (countsFor "건축헌금" ws) l)
    + amountSum (List.filter (uncategorised ws) l).
Proof.
  induction l as [|tx l IH]; [reflexivity|].
  cbn [gyeongsangbiCategories foldr] in *.
  rewrite !amountSum_cons_filter, IH.
  pose proof (weekly_groups ws tx) as G. cbn [gyeongsangbiCategories foldr] in G.
  lia.
Qed.

(** X21: the weekly category summary holds, for mission and for
    building offerings, the sum of the income of that category dated
    from the first day of the week.  The six recurring categories, these
    two and the income of any other category add up to the weekly
    income; so without negative amounts the groups shown never exceed
    it, and they fall short of it by the income of the other
    categories. *)
Theorem X21_weekly_income_by_group
    (LocalTZA : Z -> bool -> Z) (transactions : list Transaction) (todayStr : string) (today : Z) :
  Date.parse todayStr = Some today ->
  let weekStartStr := weekStartOf LocalTZA today in
  exists (p : PeriodicalSummary) (c : WeeklyCategoryTotals),
    periodicalSummary LocalTZA transactions todayStr = Some p
    /\ weeklyCategoryTotals LocalTZA transactions todayStr = Some c
    /\ weeklySeongyo c
       = amountSum (List.filter (countsFor "선교헌금" weekStartStr) transactions)
    /\ weeklyGeonchuk c
       = amountSum (List.filter (countsFor "건축헌금" weekStartStr) transactions)
    /\ weeklyIncome p
       = breakdownSum (weeklyGyeongsangbiBreakdown c)
         + weeklySeongyo c + weeklyGeonchuk c
         + amountSum (List.filter (uncategorised weekStartStr) transactions)
    /\ (Forall (fun tx => 0 <= tx_amount tx) transactions ->
        breakdownSum (weeklyGyeongsangbiBreakdown c)
        + weeklySeongyo c + weeklyGeonchuk c <= weeklyIncome p).
Proof.
  intros Hp. cbv zeta.
  unfold periodicalSummary, weeklyCategoryTotals, windowTotals. rewrite Hp. cbn [mbind option_bind].
  set (ys := yearStartOf LocalTZA today). set (ws := weekStartOf LocalTZA today).
  eexists. eexists. split; [reflexivity|]. split; [reflexivity|].
  cbn [weeklySeongyo weeklyGeonchuk weeklyIncome weeklyGyeongsangbiBreakdown].
  destruct (windowStep_totals ys ws transactions initialWindowAcc) as (_ & _ & A3 & _).
  destruct (windowStep_offerings ys ws transactions initialWindowAcc) as (A5 & A6).
  cbn [initialWindowAcc acc_weeklyIncome acc_weeklySeongyo acc_weeklyGeonchuk] in A3, A5, A6.
  rewrite Z.add_0_l in A3, A5, A6.
  assert (B : breakdownSum (acc_breakdown (fold_left (windowStep ys ws) transactions
                                             initialWindowAcc))
              = foldr (fun k s => amountSum (List.filter (countsFor k ws) transactions) + s)
                      0 gyeongsangbiCategories).
  { unfold breakdownSum. cbn [gyeongsangbiCategories foldr].
    rewrite !breakdown_final by (cbn; tauto). reflexivity. }
  rewrite A3, A5, A6, B.
  split; [reflexivity|]. split; [reflexivity|].
  pose proof (weekly_groups_sum ws transactions) as G.
  split; [exact G|].
  intros Hnn. rewrite G.
  pose proof (amountSum_nonneg _ (Forall_filter' _ (uncategorised ws) _ Hnn)). lia.
Qed.

Lemma amountSum_filter_le (p q : Transaction -> bool) (l : list Transaction) :
  Forall (fun tx => 0 <= tx_amount tx /\ (p tx = true -> q tx = true)) l ->
  amountSum (List.filter p l) <= amountSum (List.filter q l).
Proof.
  induction 1 as [|tx l [Hn Hi] _ IH]; [reflexivity|].
  rewrite !amountSum_cons_filter.
  destruct (p tx); [rewrite (Hi eq_refl)|destruct (q tx)]; lia.
Qed.

(** X22: the week and the year.  On a host at or east of Greenwich
    whose clock was not put back between the first day of the week and
    today, with dated entries and no negative amount: when the week
    began in the current year the weekly totals are at most the yearly
    totals; when it began in the year before, which can only be during
    the first six days of the year, it is the other way round, the
    weekly totals holding the last days of the old year. *)
Theorem X22_week_within_year
    (LocalTZA : Z -> bool -> Z) (transactions : list Transaction) (todayStr : string) (today : Z) :
  steadyWeek LocalTZA today ->
  Date.parse todayStr = Some today -> 1000 <= Date.YearFromTime today ->
  Forall (fun tx => validDate tx = true) transactions ->
  Forall (fun tx => 0 <= tx_amount tx) transactions ->
  let yearStart := Date.MakeDay (Date.YearFromTime today) 0 1 in
  let weekStart := Date.Day today - Date.WeekDay today in
  exists r : PeriodicalSummary,
    periodicalSummary LocalTZA transactions todayStr = Some r
    /\ (yearStart <= weekStart ->
        weeklyIncome r <= yearlyIncome r /\ weeklyExpense r <= yearlyExpense r)
    /\ (weekStart < yearStart ->
        yearlyIncome r <= weeklyIncome r /\ yearlyExpense r <= weeklyExpense r
        /\ Date.Day today - yearStart < 6).
Proof.
  intros Htz Hp Hy Hv Hnn. cbv zeta.
  unfold periodicalSummary, windowTotals. rewrite Hp. cbn [mbind option_bind].
  set (ys := yearStartOf LocalTZA today). set (ws := weekStartOf LocalTZA today).
  eexists. split; [reflexivity|].
  cbn [weeklyIncome weeklyExpense yearlyIncome yearlyExpense].
  destruct (windowStep_totals ys ws transactions initialWindowAcc) as (A1 & A2 & A3 & A4).
  cbn [initialWindowAcc acc_weeklyIncome acc_weeklyExpense acc_yearlyIncome
       acc_yearlyExpense] in A1, A2, A3, A4.
  rewrite Z.add_0_l in A1, A2, A3, A4. rewrite A1, A2, A3, A4.
  destruct (weekStartOf_parse LocalTZA today todayStr Htz Hp Hy) as [_ Hw].
  pose proof (yearStartOf_parse LocalTZA today todayStr (proj1 Htz) Hp Hy) as Hys.
  fold ys in Hys. fold ws in Hw.
  assert (M : forall (t : Transaction -> bool) lo1 lo2 d1 d2,
            Date.parse lo1 = Some (d1 * Date.msPerDay) ->
            Date.parse lo2 = Some (d2 * Date.msPerDay) ->
            d2 <= d1 ->
            amountSum (List.filter (fun tx => t tx && fromDate lo1 tx) transactions)
            <= amountSum (List.filter (fun tx => t tx && fromDate lo2 tx) transactions)).
  { intros t lo1 lo2 d1 d2 P1 P2 Hd. apply amountSum_filter_le.
    rewrite List.Forall_forall in *. intros tx Hin. split; [auto|].
    rewrite (fromDate_day lo1 d1 tx P1 (Hv tx Hin)).
    rewrite (fromDate_day lo2 d2 tx P2 (Hv tx Hin)).
    rewrite !andb_true_iff, !Z.leb_le. intros [? ?]. split; [assumption|lia]. }
  split.
  - intros Hle. split; eapply M; eauto.
  - intros Hlt. split; [|split]; [eapply M; eauto; lia..|].
    pose proof (DateFacts.WeekDay_range today). lia.
Qed.

Lemma window_balance (lo : string) (l : list Transaction) :
  amountSum (List.filter (fun tx => isIncome tx && fromDate lo tx) l)
  - amountSum (List.filter (fun tx => isExpense tx && fromDate lo tx) l)
  = signedSum (List.filter (fromDate lo) l).
Proof.
  rewrite signedSum_split, !filter_filter_andb.
  rewrite (List.filter_ext (fun tx => fromDate lo tx && isIncome tx)
                           (fun tx => isIncome tx && fromDate lo tx))
    by (intros; apply andb_comm).
  rewrite (List.filter_ext (fun tx => fromDate lo tx && isExpense tx)
                           (fun tx => isExpense tx && fromDate lo tx))
    by (intros; apply andb_comm).
  reflexivity.
Qed.

(** X23: the weekly and the yearly balance are the signed sums of the
    entries dated from the first day of the week and of the year, so
    they differ from the top balance of the list by the signed sum of
    the entries dated before that day. *)
Theorem X23_window_balances
    (LocalTZA : Z -> bool -> Z) (localeCompare : string -> string -> Z) (members : list Member)
    (transactions : list Transaction) (todayStr : string) (today : Z) :
  Date.parse todayStr = Some today -> transactions <> [] ->
  let weekStartStr := weekStartOf LocalTZA today in
  let yearStartStr := yearStartOf LocalTZA today in
  exists (r : PeriodicalSummary) (e : TransactionWithBalance),
    periodicalSummary LocalTZA transactions todayStr = Some r
    /\ head (withBalance localeCompare members transactions) = Some e
    /\ weeklyBalance r = signedSum (List.filter (fromDate weekStartStr) transactions)
    /\ yearlyBalance r = signedSum (List.filter (fromDate yearStartStr) transactions)
    /\ balance e
       = weeklyBalance r
         + signedSum (List.filter (fun tx => negb (fromDate weekStartStr tx)) transactions)
    /\ balance e
       = yearlyBalance r
         + signedSum (List.filter (fun tx => negb (fromDate yearStartStr tx)) transactions).
Proof.
  intros Hp Hne. cbv zeta.
  unfold periodicalSummary, windowTotals. rewrite Hp. cbn [mbind option_bind].
  set (ys := yearStartOf LocalTZA today). set (ws := weekStartOf LocalTZA today).
  destruct (head_withBalance localeCompare members transactions Hne) as (e & He & Hb).
  eexists. exists e. split; [reflexivity|]. split; [exact He|].
  cbn [weeklyBalance yearlyBalance].
  destruct (windowStep_totals ys ws transactions initialWindowAcc) as (A1 & A2 & A3 & A4).
  cbn [initialWindowAcc acc_weeklyIncome acc_weeklyExpense acc_yearlyIncome
       acc_yearlyExpense] in A1, A2, A3, A4.
  rewrite Z.add_0_l in A1, A2, A3, A4. rewrite A1, A2, A3, A4, !window_balance, Hb.
  assert (S : forall p : Transaction -> bool,
            signedSum transactions
            = signedSum (List.filter p transactions)
              + signedSum (List.filter (fun tx => negb (p tx)) transactions)).
  { intros p. clear. unfold signedSum.
    induction transactions as [|x l IH]; [reflexivity|].
    cbn [List.filter foldr]. destruct (p x); cbn [negb foldr]; lia. }
  split; [reflexivity|]. split; [reflexivity|]. split; apply S.
Qed.

(** ** The properties on the sample data *)

Lemma X1_weekday_label_witness :
  Date.parse "2024-01-07" = Some 1704585600000
  /\ (exists day : string,
        days !! Z.to_nat (Date.WeekDay 1704585600000) = Some day
        /\ getDayOfWeek (Date.constantTZA (-18000000)) "2024-01-07"
           = "(" +:+ day +:+ ")")
  /\ getDayOfWeek (Date.constantTZA (-18000000)) "2024-01-07" = "(일)"
  /\ (exists day : string,
        days !! Z.to_nat (Date.WeekDay 1729987200000) = Some day
        /\ getDayOfWeek Sample.Berlin "2024-10-27" = "(" +:+ day +:+ ")")
  /\ getDayOfWeek Sample.Berlin "2024-10-27" = "(일)".
Proof.
  split; [vm_compute; reflexivity|]. split; [|split; [|split]].
  - destruct (X1_weekday_label (Date.constantTZA (-18000000)) "2024-01-07" 1704585600000)
      as [H K]; [vm_compute; reflexivity|].
    apply H, K.
  - vm_compute; reflexivity.
  - destruct (X1_weekday_label Sample.Berlin "2024-10-27" 1729987200000)
      as [H _]; [vm_compute; reflexivity|].
    apply H. vm_compute. split; [discriminate|reflexivity].
  - vm_compute; reflexivity.
Defined.

Lemma X2_week_starts_on_sunday_witness :
  Date.parse "2024-01-10" = Some 1704844800000
  /\ weekStartOf Sample.KST 1704844800000 = "2024-01-07"
  /\ getDayOfWeek Sample.KST (weekStartOf Sample.KST 1704844800000) = "(일)".
Proof.
  split; [vm_compute; reflexivity|]. split; [vm_compute; reflexivity|].
  apply (X2_week_starts_on_sunday Sample.KST 1704844800000 "2024-01-10").
  - vm_compute. repeat split; (discriminate || reflexivity).
  - vm_compute. split; [discriminate|reflexivity].
  - vm_compute; reflexivity.
  - vm_compute; discriminate.
Defined.

Lemma X4_password_is_never_changed_witness :
  storedPassword Cases.locked = Some "1234"
  /\ st_password (runProtectedActions Cases.attempts Cases.locked) = Some "1234"
  /\ st_transactions (runProtectedActions Cases.attempts Cases.locked) = Sample.postdated
  /\ fst (runProtectedAction (performLoad true (Some Cases.backup)) "4321" "4321"
                             Cases.locked) = Cases.locked.
Proof.
  destruct (X4_password_is_never_changed Cases.attempts Cases.locked "1234")
    as (Hone & Hall & Hsave & Hload & Hedit); [reflexivity|].
  split; [reflexivity|]. split; [|split].
  - rewrite Hall; [reflexivity|].
    repeat (constructor; [first [exact Hsave | apply Hload | exact Hedit]|]).
    constructor.
  - vm_compute; reflexivity.
  - rewrite Hone. reflexivity.
Defined.

Lemma X5_first_password_has_four_digits_witness :
  storedPassword Sample.state = None
  /\ st_password (runProtectedActions Cases.attempts Sample.state) = Some "4321"
  /\ st_transactions (runProtectedActions Cases.attempts Sample.state) = Sample.postdated
  /\ match storedPassword (runProtectedActions Cases.attempts Sample.state) with
     | Some p =>
         isFourDigits p = true
         /\ exists a, In a Cases.attempts /\ sub_password a = p
                      /\ sub_confirmPassword a = p
     | None => runProtectedActions Cases.attempts Sample.state = Sample.state
     end.
Proof.
  split; [reflexivity|]. split; [vm_compute; reflexivity|].
  split; [vm_compute; reflexivity|].
  destruct (X5_first_password_has_four_digits Cases.attempts Sample.state)
    as (_ & Hpw).
  - reflexivity.
  - destruct source_actions_keep_password as (Hsave & Hload & Hedit).
    repeat (constructor; [first [exact Hsave | apply Hload | exact Hedit]|]).
    constructor.
  - exact Hpw.
Defined.

Lemma X6_expense_categories_stay_distinct_witness :
  st_expenseCategories (handleAddCategory trimSpaces (Some " 수리비 ") Sample.state)
  = ["운영비"; "선교비"; "구제비"; "수리비"]
  /\ List.NoDup
       (st_expenseCategories (handleAddCategory trimSpaces (Some " 수리비 ") Sample.state))
  /\ handleAddCategory trimSpaces (Some " 선교비") Sample.state = Sample.state.
Proof.
  destruct (X6_expense_categories_stay_distinct trimSpaces (Some " 수리비 ") Sample.state)
    as (Hnd & _).
  - simpl. repeat (constructor; [simpl; intuition discriminate|]). constructor.
  - simpl. intuition discriminate.
  - split; [vm_compute; reflexivity|]. split; [exact Hnd|vm_compute; reflexivity].
Defined.

Lemma X7_add_member_keeps_roster_sorted_witness :
  map m_name
      (st_members (handleAddMember trimSpaces codeUnitCompare 3 "나사랑" "성도" Sample.state))
  = ["김은혜"; "나사랑"; "박소망"]
  /\ StronglySorted (nameOrder codeUnitCompare)
       (st_members (handleAddMember trimSpaces codeUnitCompare 3 "나사랑" "성도" Sample.state))
  /\ handleAddMember trimSpaces codeUnitCompare 3 "  " "성도" Sample.state = Sample.state.
Proof.
  split; [vm_compute; reflexivity|]. split.
  - destruct (X7_add_member_keeps_roster_sorted trimSpaces codeUnitCompare 3
                "나사랑" "성도" Sample.state) as (_ & _ & _ & _ & H).
    destruct H as [_ Hs]; [vm_compute; discriminate|].
    exact (Hs codeUnitCompare_consistent).
  - destruct (X7_add_member_keeps_roster_sorted trimSpaces codeUnitCompare 3
                "  " "성도" Sample.state) as (_ & _ & _ & H & _).
    apply H. vm_compute; reflexivity.
Defined.

Lemma X8_added_member_resolves_to_name_witness :
  getMemberName
    (st_members (handleAddMember trimSpaces codeUnitCompare 3 "나사랑" "성도" Sample.state))
    (Some 3) = "나사랑"
  /\ List.NoDup
       (map m_id
          (st_members (handleAddMember trimSpaces codeUnitCompare 3 "나사랑" "성도"
                         Sample.state))).
Proof.
  destruct (X8_added_member_resolves_to_name trimSpaces codeUnitCompare 3
              "나사랑" "성도" Sample.state) as (Hn & _ & Hnd).
  - reflexivity.
  - vm_compute; discriminate.
  - simpl. repeat (constructor; [simpl; intuition discriminate|]). constructor.
  - simpl. intuition discriminate.
  - split; [exact Hn|exact Hnd].
Defined.

Lemma X9_update_member_keeps_ids_witness :
  map m_name
      (st_members (handleUpdateMember codeUnitCompare 1 "하은혜" "권사" Sample.state))
  = ["박소망"; "하은혜"]
  /\ Permutation
       (map m_id (st_members (handleUpdateMember codeUnitCompare 1 "하은혜" "권사"
                                Sample.state)))
       (map m_id Sample.roster)
  /\ getMemberName
       (st_members (handleUpdateMember codeUnitCompare 1 "하은혜" "권사" Sample.state))
       (Some 1) = "하은혜".
Proof.
  destruct (X9_update_member_keeps_ids codeUnitCompare 1 "하은혜" "권사" Sample.state)
    as (_ & Hp & _ & _ & Hn).
  split; [vm_compute; reflexivity|]. split; [exact Hp|].
  destruct Hn as [_ Hn].
  - simpl. repeat (constructor; [simpl; intuition discriminate|]). constructor.
  - apply Hn; [simpl; tauto|discriminate].
Defined.

Lemma X10_roster_names_are_never_empty_witness :
  allNamed Sample.roster
  /\ handleEditSave trimSpaces codeUnitCompare (Some 1) "   " "집사" Sample.state
     = Sample.state
  /\ allNamed
       (st_members (handleEditSave trimSpaces codeUnitCompare (Some 1) " 하은혜 " "집사"
                      Sample.state))
  /\ map m_name
       (st_members (handleEditSave trimSpaces codeUnitCompare (Some 1) " 하은혜 " "집사"
                      Sample.state))
     = ["박소망"; "하은혜"].
Proof.
  assert (N : allNamed (st_members Sample.state)).
  { repeat (constructor; [discriminate|]). constructor. }
  split; [exact N|].
  destruct (X10_roster_names_are_never_empty trimSpaces codeUnitCompare Sample.state
              eq_refl N) as (_ & He & _ & _).
  split; [|split].
  - destruct (He (Some 1) "   " "집사") as (_ & H & _). apply H. reflexivity.
  - destruct (He (Some 1) " 하은혜 " "집사") as (H & _). exact H.
  - vm_compute; reflexivity.
Defined.

Lemma X11_forms_accept_positive_amounts_only_witness :
  Forall fromForms Sample.ledger
  /\ Forall fromForms
       (st_transactions
          (incomeSubmit 50 "2024-01-08" "십일조" (Some 1) (Some 700) Sample.state))
  /\ incomeSubmit 50 "2024-01-08" "십일조" (Some 1) (Some 0) Sample.state = Sample.state
  /\ incomeSubmit 50 "2024-01-08" "십일조" None (Some 700) Sample.state = Sample.state
  /\ expenseSubmit 50 "2024-01-08" "운영비" None (Some (-5)) "" Sample.state = Sample.state.
Proof.
  assert (F : Forall fromForms (st_transactions Sample.state)).
  { repeat (constructor; [split; [reflexivity|cbn; congruence]|]). constructor. }
  split; [exact F|].
  destruct (X11_forms_accept_positive_amounts_only 50 "2024-01-08" "십일조"
              (Some 1) (Some 700) "" Sample.state F) as (H & _).
  split; [exact H|]. repeat split; reflexivity.
Defined.

Lemma X13_top_balance_and_todays_balance_witness :
  exists e,
    head (withBalance codeUnitCompare Sample.roster (Sample.ledger ++ Sample.postdated))
    = Some e
    /\ balance e = 1260
    /\ todaysBalance (balanceData (Sample.ledger ++ Sample.postdated) "2024-01-07") = 1200
    /\ signedSum (List.filter (fun tx => Str.lt "2024-01-07" (tx_date tx))
                              (Sample.ledger ++ Sample.postdated)) = 60.
Proof.
  destruct (X13_top_balance_and_todays_balance codeUnitCompare Sample.roster
              (Sample.ledger ++ Sample.postdated) "2024-01-07") as (e & He & Hb).
  - discriminate.
  - exists e. split; [exact He|]. split; [rewrite Hb; vm_compute; reflexivity|].
    split; vm_compute; reflexivity.
Defined.

Lemma X14_list_by_date_is_newest_first_witness :
  map tx_id (sortedTransactions Sample.ledger) = [11; 10; 12]
  /\ StronglySorted newerFirst (sortedTransactions Sample.ledger)
  /\ sortedTransactions (rev Sample.ledger) = sortedTransactions Sample.ledger.
Proof.
  split; [vm_compute; reflexivity|].
  destruct (X14_list_by_date_is_newest_first Sample.ledger) as (_ & Hs & Hp).
  - all_valid.
  - split; [exact Hs|]. apply Hp; [|apply Permutation_rev].
    simpl. repeat (constructor; [simpl; intuition discriminate|]). constructor.
Defined.

Lemma X15_display_order_witness :
  map (fun tx => (tx_id tx, tx_category tx))
      (map twb_tx (withBalance codeUnitCompare Sample.roster Cases.offerings))
  = [(34, "특별헌금"); (30, "십일조"); (31, "선교헌금"); (32, "건축헌금");
     (33, "절기헌금")]
  /\ StronglySorted (shownAbove codeUnitCompare Sample.roster)
       (map twb_tx (withBalance codeUnitCompare Sample.roster Cases.offerings)).
Proof.
  split; [vm_compute; reflexivity|].
  apply (X15_display_order codeUnitCompare Sample.roster Cases.offerings).
  - exact codeUnitCompare_consistent.
  - all_valid.
Defined.

Lemma X17_search_by_category_witness :
  exists r : SearchResult,
    categorySearchResult Sample.ledger "2024-01-07" "2024-01-31" byCategory
                         income "십일조" = Some r
    /\ map tx_id (sr_transactions r) = [10]
    /\ sr_total r = 1000.
Proof.
  destruct (X17_search_by_category Sample.ledger byCategory None income "십일조"
              "2024-01-07" "2024-01-31") as (H & _).
  destruct H as (r & Hr & Ht & Hs & _); [discriminate|].
  exists r. split; [exact Hr|]. split.
  - rewrite Ht. vm_compute; reflexivity.
  - rewrite Hs, Ht. vm_compute; reflexivity.
Defined.

Lemma X18_pages_partition_the_list_witness :
  totalPages Cases.rows = 3
  /\ paginatedTransactions 3 Cases.rows !! 4%nat = Cases.rows !! 44%nat
  /\ (1 <= length (paginatedTransactions 3 Cases.rows) <= 20)%nat
  /\ paginatedTransactions 4 Cases.rows = [].
Proof.
  split; [vm_compute; reflexivity|].
  destruct (X18_pages_partition_the_list Cases.rows 3) as (H1 & H2 & _); [lia|].
  destruct (X18_pages_partition_the_list Cases.rows 4) as (_ & _ & H3 & _); [lia|].
  split; [exact (H1 4%nat)|]. split.
  - apply H2. vm_compute; discriminate.
  - apply H3. vm_compute; reflexivity.
Defined.

Lemma X19_current_page_stays_in_range_witness :
  fold_left (fun currentPage page => handlePageChange Cases.rows page currentPage)
            [2; 5; 0; 3; 4] 1 = 3
  /\ 1 <= fold_left (fun currentPage page => handlePageChange Cases.rows page currentPage)
                    [2; 5; 0; 3; 4] 1 <= totalPages Cases.rows.
Proof.
  split; [vm_compute; reflexivity|].
  destruct (X19_current_page_stays_in_range Cases.rows [2; 5; 0; 3; 4]) as (H & _).
  - discriminate.
  - exact H.
Defined.

Lemma X20_totals_ignore_stored_order_witness :
  balanceData (rev Sample.ledger) "2024-01-07" = balanceData Sample.ledger "2024-01-07"
  /\ weeklyCategoryTotals Sample.KST (rev Sample.ledger) "2024-01-07"
     = weeklyCategoryTotals Sample.KST Sample.ledger "2024-01-07".
Proof.
  destruct (X20_totals_ignore_stored_order Sample.KST Sample.ledger (rev Sample.ledger)
              "2024-01-07") as (H1 & _ & H3 & _).
  - apply Permutation_rev.
  - split; [exact H1|exact H3].
Defined.

Lemma X21_weekly_income_by_group_witness :
  exists (p : PeriodicalSummary) (c : WeeklyCategoryTotals),
    periodicalSummary Sample.KST Cases.offerings "2024-01-07" = Some p
    /\ weeklyCategoryTotals Sample.KST Cases.offerings "2024-01-07" = Some c
    /\ weeklyIncome p = 1575
    /\ breakdownSum (weeklyGyeongsangbiBreakdown c) = 1000
    /\ weeklySeongyo c = 200
    /\ weeklyGeonchuk c = 300
    /\ weeklyIncome p
       = breakdownSum (weeklyGyeongsangbiBreakdown c)
         + weeklySeongyo c + weeklyGeonchuk c
         + amountSum (List.filter (uncategorised (weekStartOf Sample.KST 1704585600000))
                                  Cases.offerings).
Proof.
  destruct (X21_weekly_income_by_group Sample.KST Cases.offerings "2024-01-07"
              1704585600000) as (p & c & Hp & Hc & _ & _ & Hsum & _).
  - vm_compute; reflexivity.
  - exists p, c. split; [exact Hp|]. split; [exact Hc|].
    assert (Ep : Some p = periodicalSummary Sample.KST Cases.offerings "2024-01-07")
      by (symmetry; exact Hp).
    assert (Ec : Some c = weeklyCategoryTotals Sample.KST Cases.offerings "2024-01-07")
      by (symmetry; exact Hc).
    vm_compute in Ep, Ec. injection Ep as ->. injection Ec as ->.
    split; [reflexivity|]. split; [vm_compute; reflexivity|].
    split; [reflexivity|]. split; [reflexivity|]. exact Hsum.
Defined.

Lemma X22_week_within_year_witness :
  exists r : PeriodicalSummary,
    periodicalSummary Sample.KST Cases.newYear "2024-01-02" = Some r
    /\ yearlyIncome r <= weeklyIncome r
    /\ weeklyIncome r = 900
    /\ yearlyIncome r = 200.
Proof.
  destruct (X22_week_within_year Sample.KST Cases.newYear "2024-01-02" 1704153600000)
    as (r & Hr & _ & H).
  - vm_compute. repeat split; (discriminate || reflexivity).
  - vm_compute; reflexivity.
  - vm_compute; discriminate.
  - all_valid.
  - repeat (constructor; [vm_compute; discriminate|]). constructor.
  - exists r. split; [exact Hr|].
    destruct H as (H & _); [vm_compute; reflexivity|].
    split; [exact H|].
    assert (E : Some r = periodicalSummary Sample.KST Cases.newYear "2024-01-02")
      by (symmetry; exact Hr).
    vm_compute in E. injection E as ->. split; reflexivity.
Defined.

Lemma X23_window_balances_witness :
  exists (r : PeriodicalSummary) (e : TransactionWithBalance),
    periodicalSummary Sample.KST Sample.ledger "2024-01-07" = Some r
    /\ head (withBalance codeUnitCompare Sample.roster Sample.ledger) = Some e
    /\ weeklyBalance r = 700
    /\ balance e = weeklyBalance r + 500.
Proof.
  destruct (X23_window_balances Sample.KST codeUnitCompare Sample.roster Sample.ledger
              "2024-01-07" 1704585600000) as (r & e & Hr & He & Hw & _ & Hb & _).
  - vm_compute; reflexivity.
  - discriminate.
  - exists r, e. split; [exact Hr|]. split; [exact He|]. split.
    + rewrite Hw. vm_compute; reflexivity.
    + rewrite Hb. f_equal.
Defined.
